(** * convert_captions.py: CapCut draft_info.json to SRT

    A shallow embedding of [src/convert_captions.py] and the properties of
    its functions.  The Python values the script handles are the ones
    [json.load] produces; they are modelled by the type [json] below.
    Exceptions are modelled by an error monad, Python floats by the
    binary64 instance of the Standard Library's [SpecFloat], and Python
    [str] by the UTF-8 encoding of the text (a Rocq [string] of bytes).

    Outside the model: the limits of the interpreter (the recursion limit
    on deeply nested documents, memory), and the text of the exception
    that two of the printed messages interpolate.  [json.loads] and the
    two file operations are parameters of the script. *)

From Stdlib Require Import ZArith List String Ascii Bool Lia.
From Stdlib Require Import Permutation Sorted DecimalString SpecFloat.
Import ListNotations.
Open Scope string_scope.
Open Scope Z_scope.

(* ================================================================== *)
(** * Exceptions *)

(** The exception classes that can reach one of the script's handlers.
    [OSError] stands for every [OSError] other than [FileNotFoundError]
    (a permission error, a directory in place of a file, ...). *)
Inductive exn : Type :=
| FileNotFoundError
| OSError
| UnicodeDecodeError
| JSONDecodeError
| KeyError
| TypeError
| ValueError
| OverflowError
| ZeroDivisionError
| RecursionError.

Inductive result (A : Type) : Type :=
| Ok (a : A)
| Raise (e : exn).

Arguments Ok {A} a.
Arguments Raise {A} e.

Definition bind {A B : Type} (r : result A) (k : A -> result B) : result B :=
  match r with
  | Ok a => k a
  | Raise e => Raise e
  end.

Declare Scope py_scope.
Delimit Scope py_scope with py.
Notation "x <- e ;; k" := (bind e (fun x => k))
  (at level 61, e at next level, right associativity) : py_scope.
Open Scope py_scope.

(* ================================================================== *)
(** * Python [str] *)

Module PyStr.

(** The line feed, written ["\n"] in the source. *)
Definition nl : string := String "010"%char EmptyString.

(** UTF-8: a byte [10xxxxxx] continues the code point begun before it. *)
Definition is_continuation (c : ascii) : bool :=
  let n := N_of_ascii c in ((128 <=? n) && (n <? 192))%N.

(** The characters (code points) of a [str], each as the bytes that
    encode it: what iterating over a [str] yields. *)
Fixpoint chars (s : string) : list string :=
  match s with
  | EmptyString => []
  | String c rest =>
      let continued :=
        match rest with
        | String d _ => is_continuation d
        | EmptyString => false
        end in
      match chars rest with
      | h :: t =>
          if continued then String c h :: t
          else String c EmptyString :: h :: t
      | [] => [String c EmptyString]
      end
  end.

(** The code point a character encodes. *)
Definition code_point (ch : string) : N :=
  match ch with
  | EmptyString => 0%N
  | String c rest =>
      let b := N_of_ascii c in
      let lead := (if b <? 128 then b
                   else if b <? 224 then b - 192
                   else if b <? 240 then b - 224
                   else b - 240)%N in
      fold_left (fun acc d => (acc * 64 + (N_of_ascii d - 128))%N)
                (list_ascii_of_string rest) lead
  end.

(** [str.isspace] on one character: the code points CPython's
    [_PyUnicode_IsWhitespace] accepts. *)
Definition is_whitespace (cp : N) : bool :=
  (((9 <=? cp) && (cp <=? 13)) || ((28 <=? cp) && (cp <=? 32))
   || (cp =? 133) || (cp =? 160) || (cp =? 5760)
   || ((8192 <=? cp) && (cp <=? 8202))
   || (cp =? 8232) || (cp =? 8233) || (cp =? 8239) || (cp =? 8287)
   || (cp =? 12288))%N.

Definition isspace (ch : string) : bool := is_whitespace (code_point ch).

Fixpoint dropwhile {A : Type} (p : A -> bool) (l : list A) : list A :=
  match l with
  | [] => []
  | x :: rest => if p x then dropwhile p rest else l
  end.

(** [s.strip()] *)
Definition strip (s : string) : string :=
  String.concat EmptyString
    (rev (dropwhile isspace (rev (dropwhile isspace (chars s))))).

(** Truth value of a [str]: non-empty. *)
Definition nonempty (s : string) : bool :=
  match s with EmptyString => false | String _ _ => true end.

(** [needle in s] for two [str]: substring test. *)
Fixpoint contains (needle s : string) : bool :=
  String.prefix needle s
  || match s with
     | EmptyString => false
     | String _ rest => contains needle rest
     end.

(** [sep.join(parts)] for a list of [str]. *)
Definition join (sep : string) (parts : list string) : string :=
  String.concat sep parts.

(** [f"{n}"] for an [int]. *)
Definition str_of_int (n : Z) : string := NilZero.string_of_int (Z.to_int n).

Fixpoint zeros (n : nat) : string :=
  match n with
  | O => EmptyString
  | S k => String "0"%char (zeros k)
  end.

(** [f"{n:0wd}"]: sign, then the decimal digits padded with zeros on the
    left up to a total width of [w]. *)
Definition format_0d (w : nat) (n : Z) : string :=
  let digits := str_of_int (Z.abs n) in
  let sign := if n <? 0 then "-" else EmptyString in
  sign ++ zeros (w - String.length sign - String.length digits) ++ digits.

End PyStr.

(* ================================================================== *)
(** * Python [float]: IEEE 754 binary64 *)

Module PyFloat.

Definition prec : Z := 53.
Definition emax : Z := 1024.

Definition float : Type := spec_float.

(** An [int] that a binary64 holds exactly, as a [float]; rounded to
    nearest even otherwise. *)
Definition of_int (z : Z) : float := binary_normalize prec emax z 0 false.

Definition add : float -> float -> float := SFadd prec emax.
Definition sub : float -> float -> float := SFsub prec emax.
Definition mul : float -> float -> float := SFmul prec emax.
Definition div : float -> float -> float := SFdiv prec emax.

Definition is_zero (x : float) : bool :=
  match x with S754_zero _ => true | _ => false end.

Definition is_finite (x : float) : bool :=
  match x with S754_zero _ | S754_finite _ _ _ => true | _ => false end.

(** [x < 0] *)
Definition is_negative (x : float) : bool :=
  match x with
  | S754_finite true _ _ | S754_infinity true => true
  | _ => false
  end.

Definition sign_bit (x : float) : bool :=
  match x with
  | S754_zero s | S754_infinity s | S754_finite s _ _ => s
  | S754_nan => false
  end.

(** [copysign(0.0, x)] *)
Definition zero_like (x : float) : float := S754_zero (sign_bit x).

(** C's [fmod]: the remainder of the division truncated towards zero,
    computed exactly; it has the sign of [x]. *)
Definition fmod (x y : float) : float :=
  match x, y with
  | S754_nan, _ | _, S754_nan => S754_nan
  | S754_infinity _, _ => S754_nan
  | _, S754_zero _ => S754_nan
  | S754_zero _, _ => x
  | _, S754_infinity _ => x
  | S754_finite sx mx ex, S754_finite _ my ey =>
      let e := Z.min ex ey in
      let r := Z.rem (Zpos mx * 2 ^ (ex - e)) (Zpos my * 2 ^ (ey - e)) in
      binary_normalize prec emax (cond_Zopp sx r) e sx
  end.

(** C's [floor]. *)
Definition floor (x : float) : float :=
  match x with
  | S754_finite s m e =>
      if 0 <=? e then x
      else binary_normalize prec emax (cond_Zopp s (Zpos m) / 2 ^ (- e)) 0 s
  | _ => x
  end.

Definition one : float := of_int 1.
Definition half : float := div (of_int 1) (of_int 2).

(** [x % y] on floats ([float_rem] in CPython's floatobject.c), for
    [y] other than zero. *)
Definition rem (vx wx : float) : float :=
  let md := fmod vx wx in
  if negb (is_zero md) then
    if negb (Bool.eqb (is_negative wx) (is_negative md)) then add md wx
    else md
  else zero_like wx.

(** [x // y] on floats ([_float_div_mod] in CPython's floatobject.c),
    for [y] other than zero. *)
Definition floordiv (vx wx : float) : float :=
  let md := fmod vx wx in
  let dv := div (sub vx md) wx in
  let dv :=
    if negb (is_zero md) then
      if negb (Bool.eqb (is_negative wx) (is_negative md)) then sub dv one
      else dv
    else dv in
  if negb (is_zero dv) then
    let fl := floor dv in
    if SFltb half (sub dv fl) then add fl one else fl
  else zero_like (div vx wx).

(** [int(x)]: truncation towards zero. *)
Definition to_int (x : float) : result Z :=
  match x with
  | S754_zero _ => Ok 0
  | S754_finite s m e =>
      Ok (cond_Zopp s (if 0 <=? e then Zpos m * 2 ^ e else Zpos m / 2 ^ (- e)))
  | S754_infinity _ => Raise OverflowError
  | S754_nan => Raise ValueError
  end.

(** An [int] as an unrounded binary number. *)
Definition raw_int (z : Z) : float :=
  match z with
  | Z0 => S754_zero false
  | Zpos p => S754_finite false p 0
  | Zneg p => S754_finite true p 0
  end.

(** [a / b] on two [int]: the quotient of the integers, rounded once. *)
Definition int_truediv (a b : Z) : result float :=
  if b =? 0 then Raise ZeroDivisionError
  else
    let q := div (raw_int a) (raw_int b) in
    if is_finite q then Ok q else Raise OverflowError.

(** The order of two floats, neither of them a NaN, by their values. *)
Definition scaled (x : float) (e : Z) : Z :=
  match x with
  | S754_finite s m ex => cond_Zopp s (Zpos m * 2 ^ (ex - e))
  | _ => 0
  end.

Definition exponent (x : float) : Z :=
  match x with S754_finite _ _ e => e | _ => 0 end.

Definition ltb (x y : float) : bool :=
  match x, y with
  | S754_nan, _ | _, S754_nan => false
  | S754_infinity sx, S754_infinity sy => sx && negb sy
  | S754_infinity sx, _ => sx
  | _, S754_infinity sy => negb sy
  | _, _ =>
      let e := Z.min (exponent x) (exponent y) in
      scaled x e <? scaled y e
  end.

End PyFloat.

(* ================================================================== *)
(** * The values [json.load] produces *)

(** [JObj] is a Python [dict] with [str] keys: its members are listed in
    insertion order, each key once (the decoder below builds such lists).
    [JNull] is Python's [None]. *)
Unset Elimination Schemes.
Inductive json : Type :=
| JNull
| JBool (b : bool)
| JInt (n : Z)
| JFloat (x : PyFloat.float)
| JStr (s : string)
| JArr (items : list json)
| JObj (members : list (string * json)).
Set Elimination Schemes.

Fixpoint lookup (key : string) (members : list (string * json)) : option json :=
  match members with
  | [] => None
  | (k, v) :: rest => if String.eqb k key then Some v else lookup key rest
  end.

(** [x is None] *)
Definition is_none (v : json) : bool :=
  match v with JNull => true | _ => false end.

(** The truth value of [v], as [if v:] and [not v] take it. *)
Definition truthy (v : json) : bool :=
  match v with
  | JNull => false
  | JBool b => b
  | JInt n => negb (n =? 0)
  | JFloat x => negb (PyFloat.is_zero x)
  | JStr s => PyStr.nonempty s
  | JArr items => match items with [] => false | _ :: _ => true end
  | JObj members => match members with [] => false | _ :: _ => true end
  end.

(** [key in container], for a [str] key: membership among the keys of a
    [dict], among the elements of a [list], as a substring of a [str];
    the other values are not containers. *)
Definition py_contains (key : string) (container : json) : result bool :=
  match container with
  | JObj members =>
      Ok (match lookup key members with Some _ => true | None => false end)
  | JArr items =>
      Ok (existsb (fun x => match x with
                            | JStr s => String.eqb s key
                            | _ => false
                            end) items)
  | JStr s => Ok (PyStr.contains key s)
  | _ => Raise TypeError
  end.

(** [container[key]], for a [str] key. *)
Definition py_getitem (container : json) (key : string) : result json :=
  match container with
  | JObj members =>
      match lookup key members with
      | Some v => Ok v
      | None => Raise KeyError
      end
  | _ => Raise TypeError
  end.

(** What [for x in v] iterates over: the elements of a [list], the keys
    of a [dict], the characters of a [str]. *)
Definition py_iter (v : json) : result (list json) :=
  match v with
  | JArr items => Ok items
  | JObj members => Ok (map (fun kv => JStr (fst kv)) members)
  | JStr s => Ok (map JStr (PyStr.chars s))
  | _ => Raise TypeError
  end.

(** [sep.join(parts)]: every part must be a [str]. *)
Fixpoint all_str (parts : list json) : result (list string) :=
  match parts with
  | [] => Ok []
  | JStr s :: rest => strs <- all_str rest ;; Ok (s :: strs)
  | _ :: _ => Raise TypeError
  end.

Definition py_join (sep : string) (parts : list json) : result string :=
  strs <- all_str parts ;; Ok (PyStr.join sep strs).

(** Numbers: [int], [bool] (an [int] in Python) and [float]. *)
Definition as_number (v : json) : option PyFloat.float :=
  match v with
  | JInt n => Some (PyFloat.raw_int n)
  | JBool b => Some (PyFloat.raw_int (if b then 1 else 0))
  | JFloat x => Some x
  | _ => None
  end.

(** [a < b].  Numbers compare by value, [str] by code points.  Between two
    lists Python compares the first elements that differ; that case is
    folded into [TypeError] here, the exception the run then ends with in
    any case, since [parse_time_microseconds] divides each key by an
    integer. *)
Definition py_lt (a b : json) : result bool :=
  match as_number a, as_number b with
  | Some x, Some y => Ok (PyFloat.ltb x y)
  | _, _ =>
      match a, b with
      | JStr s, JStr t => Ok (String.ltb s t)
      | _, _ => Raise TypeError
      end
  end.

(** [v / n] for an [int] literal [n]. *)
Definition py_truediv (v : json) (n : Z) : result PyFloat.float :=
  match v with
  | JInt a => PyFloat.int_truediv a n
  | JBool b => PyFloat.int_truediv (if b then 1 else 0) n
  | JFloat x =>
      if n =? 0 then Raise ZeroDivisionError
      else Ok (PyFloat.div x (PyFloat.of_int n))
  | _ => Raise TypeError
  end.

(* ================================================================== *)
(** * The script *)

(** ** [create_ai_prompt] *)

Definition base_prompt : string :=
"Нужно перевести субтитры на английский язык 
1 Сохранять точное количество строк и оригинальные временные метки 
2 Использовать инструктивный, разговорный стиль с естественными английскими конструкциями 
3 Строго придерживаться терминологии

В итоге должен получиться текст в таком же формате как и был

".

Definition create_ai_prompt (srt_content : string) : string :=
  base_prompt ++ srt_content.

(** ** [parse_time_microseconds] *)

Definition parse_time_microseconds (time_microseconds : json) : result string :=
  time_seconds <- py_truediv time_microseconds 1000000 ;;
  hours <- PyFloat.to_int
             (PyFloat.floordiv time_seconds (PyFloat.of_int 3600)) ;;
  minutes <- PyFloat.to_int
               (PyFloat.floordiv
                  (PyFloat.rem time_seconds (PyFloat.of_int 3600))
                  (PyFloat.of_int 60)) ;;
  seconds <- PyFloat.to_int (PyFloat.rem time_seconds (PyFloat.of_int 60)) ;;
  milliseconds <- PyFloat.to_int
                    (PyFloat.mul
                       (PyFloat.rem time_seconds (PyFloat.of_int 1))
                       (PyFloat.of_int 1000)) ;;
  Ok (PyStr.format_0d 2 hours ++ ":" ++ PyStr.format_0d 2 minutes ++ ":"
      ++ PyStr.format_0d 2 seconds ++ "," ++ PyStr.format_0d 3 milliseconds).

(** ** [find_subtitle_fragments], the function nested in
    [convert_draft_info_to_srt] *)

Fixpoint find_subtitle_fragments (obj : json) : json :=
  match obj with
  | JObj members =>
      match lookup "subtitle_fragment_info_list" members with
      | Some v => v
      | None =>
          (fix values (l : list (string * json)) : json :=
             match l with
             | [] => JNull
             | (_, value) :: rest =>
                 let found := find_subtitle_fragments value in
                 if is_none found then values rest else found
             end) members
      end
  | JArr items =>
      (fix each (l : list json) : json :=
         match l with
         | [] => JNull
         | item :: rest =>
             let found := find_subtitle_fragments item in
             if is_none found then each rest else found
         end) items
  | _ => JNull
  end.

(** ** The captions collected by [convert_draft_info_to_srt]: the
    dictionaries with the keys ["start_time"], ["end_time"], ["text"] *)

Record subtitle : Type := {
  start_time : json;
  end_time : json;
  text : string
}.

(** What the script prints.  The text of the exception that the last two
    messages interpolate is left out. *)
Inductive message : Type :=
| MsgFieldNotFound                    (* "Ошибка: поле subtitle_fragment_info_list не найдено" *)
| MsgCreated (output_file : string)   (* "Успешно создан файл {output_file}" *)
| MsgFound (count : nat)              (* "Найдено {count} субтитров" *)
| MsgFileNotFound (input_file : string) (* "Ошибка: файл {input_file} не найден" *)
| MsgJSONError                        (* "Ошибка парсинга JSON: {e}" *)
| MsgError.                           (* "Произошла ошибка: {e}" *)

(** The files the script opens: reading the whole text of one (decoded as
    UTF-8) and writing the whole text of another. *)
Record filesystem : Type := {
  read_text : string -> result string;
  write_text : string -> string -> result unit
}.

(** The result of one call of [convert_draft_info_to_srt]: the returned
    pair, the messages printed, and the text written to the output file
    when it was written. *)
Record outcome : Type := {
  returned : nat * string;
  printed : list message;
  written : option string
}.

Section Script.

(** [json.loads] on a [str], a function of Python's library: it returns
    the decoded value or raises.  It raises [JSONDecodeError] on a text
    that is not JSON, and it has other exceptions: [ValueError] for an
    integer literal longer than the interpreter's digit limit,
    [RecursionError] for a text nested too deep. *)
Variable json_loads : string -> result json.

(** [json.loads(v)] on any value: only a [str] is accepted. *)
Definition py_json_loads (v : json) : result json :=
  match v with
  | JStr s => json_loads s
  | _ => Raise TypeError
  end.

(** ** [extract_subtitle_text] *)

(** The loop over [cache_data["sentence_list"]]. *)
Fixpoint collect_sentences (items sentences : list json) : result (list json) :=
  match items with
  | [] => Ok sentences
  | sentence :: rest =>
      has_text <- py_contains "text" sentence ;;
      if has_text then
        t <- py_getitem sentence "text" ;;
        collect_sentences rest (sentences ++ [t])
      else collect_sentences rest sentences
  end.

(** The body of the [try] statement. *)
Definition extract_subtitle_text_try (subtitle_cache_info : json) : result string :=
  cache_data <- py_json_loads subtitle_cache_info ;;
  has_list <- py_contains "sentence_list" cache_data ;;
  usable <- (if has_list then
               v <- py_getitem cache_data "sentence_list" ;; Ok (truthy v)
             else Ok false) ;;
  if usable then
    sentence_list <- py_getitem cache_data "sentence_list" ;;
    items <- py_iter sentence_list ;;
    sentences <- collect_sentences items [] ;;
    py_join " " sentences
  else Ok EmptyString.

Definition extract_subtitle_text (subtitle_cache_info : json) : result string :=
  if negb (truthy subtitle_cache_info)
     || match subtitle_cache_info with
        | JStr EmptyString => true
        | _ => false
        end
  then Ok EmptyString
  else
    match extract_subtitle_text_try subtitle_cache_info with
    | Ok s => Ok s
    | Raise JSONDecodeError | Raise KeyError | Raise TypeError => Ok EmptyString
    | Raise e => Raise e
    end.

(** ** [convert_draft_info_to_srt] *)

(** The body of the loop over the fragments: the caption appended to
    [subtitles_with_text], if any. *)
Definition fragment_subtitle (fragment : json) : result (option subtitle) :=
  has_cache <- py_contains "subtitle_cache_info" fragment ;;
  filled <- (if has_cache then
               v <- py_getitem fragment "subtitle_cache_info" ;; Ok (truthy v)
             else Ok false) ;;
  if filled then
    cache <- py_getitem fragment "subtitle_cache_info" ;;
    text <- extract_subtitle_text cache ;;
    if PyStr.nonempty (PyStr.strip text) then
      start_time <- py_getitem fragment "start_time" ;;
      end_time <- py_getitem fragment "end_time" ;;
      Ok (Some {| start_time := start_time; end_time := end_time; text := text |})
    else Ok None
  else Ok None.

Fixpoint collect_subtitles (fragments : list json) (subtitles_with_text : list subtitle)
  : result (list subtitle) :=
  match fragments with
  | [] => Ok subtitles_with_text
  | fragment :: rest =>
      s <- fragment_subtitle fragment ;;
      match s with
      | Some sub => collect_subtitles rest (subtitles_with_text ++ [sub])
      | None => collect_subtitles rest subtitles_with_text
      end
  end.

(** [subtitles_with_text.sort(key=lambda x: x["start_time"])].  Python's
    sort is stable; on keys that [<] orders it yields the one stable
    ordered arrangement, which inserting each caption in front of the
    ordered rest computes. *)
Fixpoint insert_by_start_time (x : subtitle) (sorted : list subtitle)
  : result (list subtitle) :=
  match sorted with
  | [] => Ok [x]
  | y :: rest =>
      before <- py_lt (start_time y) (start_time x) ;;
      if before then
        r <- insert_by_start_time x rest ;; Ok (y :: r)
      else Ok (x :: sorted)
  end.

Fixpoint sort_by_start_time (subtitles : list subtitle) : result (list subtitle) :=
  match subtitles with
  | [] => Ok []
  | x :: rest =>
      sorted <- sort_by_start_time rest ;;
      insert_by_start_time x sorted
  end.

(** The loop [for i, subtitle in enumerate(subtitles_with_text, 1)]. *)
Fixpoint render_srt (i : Z) (subtitles : list subtitle) (srt_content : string)
  : result string :=
  match subtitles with
  | [] => Ok srt_content
  | subtitle :: rest =>
      start <- parse_time_microseconds (start_time subtitle) ;;
      finish <- parse_time_microseconds (end_time subtitle) ;;
      render_srt (i + 1) rest
        (srt_content
         ++ (PyStr.str_of_int i ++ PyStr.nl)
         ++ (start ++ " --> " ++ finish ++ PyStr.nl)
         ++ (text subtitle ++ PyStr.nl ++ PyStr.nl))
  end.

(** The lines from the sort to the end of the [try] body, on the captions
    collected. *)
Definition serialize (fs : filesystem) (output_file : string)
  (subtitles_with_text : list subtitle) : result outcome :=
  sorted <- sort_by_start_time subtitles_with_text ;;
  srt_content <- render_srt 1 sorted EmptyString ;;
  _ <- write_text fs output_file srt_content ;;
  Ok {| returned := (List.length sorted, srt_content);
        printed := [MsgCreated output_file; MsgFound (List.length sorted)];
        written := Some srt_content |}.

(** The body of the [try] statement. *)
Definition convert_draft_info_to_srt_try (fs : filesystem)
  (input_file output_file : string) : result outcome :=
  content <- read_text fs input_file ;;
  data <- py_json_loads (JStr content) ;;
  let subtitle_fragments := find_subtitle_fragments data in
  if negb (truthy subtitle_fragments) then
    Ok {| returned := (O, EmptyString);
          printed := [MsgFieldNotFound];
          written := None |}
  else
    fragments <- py_iter subtitle_fragments ;;
    subtitles_with_text <- collect_subtitles fragments [] ;;
    serialize fs output_file subtitles_with_text.

Definition failed (msg : message) : outcome :=
  {| returned := (O, EmptyString); printed := [msg]; written := None |}.

Definition convert_draft_info_to_srt (fs : filesystem)
  (input_file output_file : string) : outcome :=
  match convert_draft_info_to_srt_try fs input_file output_file with
  | Ok o => o
  | Raise FileNotFoundError => failed (MsgFileNotFound input_file)
  | Raise JSONDecodeError => failed MsgJSONError
  | Raise _ => failed MsgError
  end.

End Script.

(** ** Decoders that answer every text

    [decode_or_error parse] is a [json.loads] whose only exception is
    [JSONDecodeError]: it returns the value [parse] gives, and raises
    [JSONDecodeError] where [parse] gives none.  This is [json.loads] on
    the texts that stay within the limits of the interpreter. *)
Definition decode_or_error (parse : string -> option json) (s : string)
  : result json :=
  match parse s with
  | Some data => Ok data
  | None => Raise JSONDecodeError
  end.

(* ================================================================== *)
(** * A decoder for JSON text

    [json.loads] belongs to Python's library and is a parameter of the
    script above.  To run the script on the text of a document, this
    module decodes the JSON texts made of objects, arrays, strings with
    the one-letter escapes, integers and the three literals the way
    [json.loads] does (a key written twice keeps its first place and its
    last value).  A text outside that subset (a [\u] escape, a fraction or
    an exponent) is not handled. *)

Module JsonText.

Definition dquote : ascii := "034"%char.
Definition backslash : ascii := "092"%char.

Definition is_ws (c : ascii) : bool :=
  Ascii.eqb c " " || Ascii.eqb c "009" || Ascii.eqb c "010" || Ascii.eqb c "013".

Fixpoint skip_ws (s : string) : string :=
  match s with
  | String c rest => if is_ws c then skip_ws rest else s
  | EmptyString => s
  end.

Definition escape (c : ascii) : option ascii :=
  if Ascii.eqb c dquote then Some dquote
  else if Ascii.eqb c backslash then Some backslash
  else if Ascii.eqb c "/" then Some "/"%char
  else if Ascii.eqb c "b" then Some "008"%char
  else if Ascii.eqb c "f" then Some "012"%char
  else if Ascii.eqb c "n" then Some "010"%char
  else if Ascii.eqb c "r" then Some "013"%char
  else if Ascii.eqb c "t" then Some "009"%char
  else None.

(** The characters of a string up to its closing quote, and the text
    after it. *)
Fixpoint string_body (s : string) : option (string * string) :=
  match s with
  | EmptyString => None
  | String c rest =>
      if Ascii.eqb c dquote then Some (EmptyString, rest)
      else if Ascii.eqb c backslash then
        match rest with
        | String e rest' =>
            match escape e, string_body rest' with
            | Some ch, Some (str, r) => Some (String ch str, r)
            | _, _ => None
            end
        | EmptyString => None
        end
      else if (N_of_ascii c <? 32)%N then None
      else
        match string_body rest with
        | Some (str, r) => Some (String c str, r)
        | None => None
        end
  end.

Definition digit (c : ascii) : option Z :=
  let n := N_of_ascii c in
  if ((48 <=? n) && (n <=? 57))%N then Some (Z.of_N n - 48) else None.

Fixpoint digits (s : string) (acc : Z) : Z * string :=
  match s with
  | String c rest =>
      match digit c with
      | Some d => digits rest (10 * acc + d)
      | None => (acc, s)
      end
  | EmptyString => (acc, s)
  end.

Definition starts_fraction (s : string) : bool :=
  match s with
  | String c _ => Ascii.eqb c "." || Ascii.eqb c "e" || Ascii.eqb c "E"
  | EmptyString => false
  end.

(** An integer: [0], or a digit other than [0] followed by digits. *)
Definition natural (s : string) : option (Z * string) :=
  match s with
  | String c rest =>
      match digit c with
      | Some 0 => if starts_fraction rest then None else Some (0, rest)
      | Some d =>
          let (n, r) := digits rest d in
          if starts_fraction r then None else Some (n, r)
      | None => None
      end
  | EmptyString => None
  end.

Fixpoint drop (n : nat) (s : string) : string :=
  match n, s with
  | S k, String _ rest => drop k rest
  | _, _ => s
  end.

Definition scalar (s : string) : option (json * string) :=
  if String.prefix "null" s then Some (JNull, drop 4 s)
  else if String.prefix "true" s then Some (JBool true, drop 4 s)
  else if String.prefix "false" s then Some (JBool false, drop 5 s)
  else
    match s with
    | String "-" rest =>
        match natural rest with
        | Some (n, r) => Some (JInt (- n), r)
        | None => None
        end
    | _ =>
        match natural s with
        | Some (n, r) => Some (JInt n, r)
        | None => None
        end
    end.

(** [d[key] = v] on the members of a [dict]. *)
Fixpoint assign (key : string) (v : json) (members : list (string * json))
  : list (string * json) :=
  match members with
  | [] => [(key, v)]
  | (k, x) :: rest =>
      if String.eqb k key then (k, v) :: rest
      else (k, x) :: assign key v rest
  end.

Fixpoint value (fuel : nat) (s : string) {struct fuel} : option (json * string) :=
  match fuel with
  | O => None
  | S fuel =>
      match skip_ws s with
      | String c rest =>
          if Ascii.eqb c "{" then
            match skip_ws rest with
            | String "}" r => Some (JObj [], r)
            | _ => members fuel rest []
            end
          else if Ascii.eqb c "[" then
            match skip_ws rest with
            | String "]" r => Some (JArr [], r)
            | _ => elements fuel rest []
            end
          else if Ascii.eqb c dquote then
            match string_body rest with
            | Some (str, r) => Some (JStr str, r)
            | None => None
            end
          else scalar (String c rest)
      | EmptyString => None
      end
  end
with elements (fuel : nat) (s : string) (acc : list json) {struct fuel}
  : option (json * string) :=
  match fuel with
  | O => None
  | S fuel =>
      match value fuel s with
      | Some (v, r) =>
          match skip_ws r with
          | String "," r' => elements fuel r' (acc ++ [v])
          | String "]" r' => Some (JArr (acc ++ [v]), r')
          | _ => None
          end
      | None => None
      end
  end
with members (fuel : nat) (s : string) (acc : list (string * json)) {struct fuel}
  : option (json * string) :=
  match fuel with
  | O => None
  | S fuel =>
      match skip_ws s with
      | String c r =>
          if Ascii.eqb c dquote then
            match string_body r with
            | Some (key, r1) =>
                match skip_ws r1 with
                | String ":" r2 =>
                    match value fuel r2 with
                    | Some (v, r3) =>
                        match skip_ws r3 with
                        | String "," r4 => members fuel r4 (assign key v acc)
                        | String "}" r4 => Some (JObj (assign key v acc), r4)
                        | _ => None
                        end
                    | None => None
                    end
                | _ => None
                end
            | None => None
            end
          else None
      | EmptyString => None
      end
  end.

Definition loads (s : string) : option json :=
  match value (2 * String.length s + 2) s with
  | Some (v, rest) =>
      match skip_ws rest with
      | EmptyString => Some v
      | String _ _ => None
      end
  | None => None
  end.

(** The interpreter refuses to convert an integer literal of more than
    [int_max_str_digits] digits ([sys.int_info.default_max_str_digits]).
    [over_digit_limit limit s false 0] tells whether a run of more than
    [limit] digits stands in [s] outside the string literals. *)
Definition int_max_str_digits : nat := 4300.

Fixpoint over_digit_limit (limit : nat) (s : string) (quoted : bool) (run : nat)
  : bool :=
  match s with
  | EmptyString => false
  | String c rest =>
      if quoted then
        if Ascii.eqb c backslash then
          match rest with
          | String _ rest' => over_digit_limit limit rest' true O
          | EmptyString => false
          end
        else over_digit_limit limit rest (negb (Ascii.eqb c dquote)) O
      else
        match digit c with
        | Some _ =>
            if (limit <=? run)%nat then true
            else over_digit_limit limit rest false (S run)
        | None => over_digit_limit limit rest (Ascii.eqb c dquote) O
        end
  end.

(** [json.loads] with the digit limit: a text of the subset that holds an
    integer literal over the limit is refused with [ValueError], the
    exception of [int]. *)
Definition python_loads (s : string) : result json :=
  match loads s with
  | Some v =>
      if over_digit_limit int_max_str_digits s false O then Raise ValueError
      else Ok v
  | None => Raise JSONDecodeError
  end.

(** JSON texts are written below with ['] in place of the double quote. *)
Fixpoint q (s : string) : string :=
  match s with
  | EmptyString => EmptyString
  | String c rest => String (if Ascii.eqb c "'" then dquote else c) (q rest)
  end.

End JsonText.

(** A file system that holds one readable file and accepts every write. *)
Definition one_file (path content : string) : filesystem :=
  {| read_text := fun p =>
       if String.eqb p path then Ok content else Raise FileNotFoundError;
     write_text := fun _ _ => Ok tt |}.

(* ================================================================== *)
(** * The notions the specification uses *)

(** The key the Locator looks for. *)
Definition target_key : string := "subtitle_fragment_info_list".

(** The values bound to the key, in the order of the depth-first
    traversal: a mapping that has the key contributes that binding alone,
    without being descended into; any other mapping contributes the
    bindings found in its values, in insertion order; a sequence those of
    its elements, in index order. *)
Fixpoint bindings (obj : json) : list json :=
  match obj with
  | JObj members =>
      match lookup target_key members with
      | Some v => [v]
      | None =>
          (fix values (l : list (string * json)) : list json :=
             match l with
             | [] => []
             | (_, value) :: rest => (bindings value ++ values rest)%list
             end) members
      end
  | JArr items =>
      (fix each (l : list json) : list json :=
         match l with
         | [] => []
         | item :: rest => (bindings item ++ each rest)%list
         end) items
  | _ => []
  end.

(** The Locator as section 4.1 of the specification words it, with a
    "not found" signal of its own ([None]) apart from the values. *)
Fixpoint spec_locator (obj : json) : option json :=
  match obj with
  | JObj members =>
      match lookup target_key members with
      | Some v => Some v
      | None =>
          (fix values (l : list (string * json)) : option json :=
             match l with
             | [] => None
             | (_, value) :: rest =>
                 match spec_locator value with
                 | Some found => Some found
                 | None => values rest
                 end
             end) members
      end
  | JArr items =>
      (fix each (l : list json) : option json :=
         match l with
         | [] => None
         | item :: rest =>
             match spec_locator item with
             | Some found => Some found
             | None => each rest
             end
         end) items
  | _ => None
  end.

(** The value a Python caller receives for a locator result: the "not
    found" signal is [None]. *)
Definition signalled (r : option json) : json :=
  match r with Some v => v | None => JNull end.

(** The first value of a list that is not [None]; [None] if there is none. *)
Definition first_not_none (l : list json) : json :=
  hd JNull (filter (fun v => negb (is_none v)) l).

(** The claim as the specification states it: the locator returns the
    binding the depth-first traversal meets first. *)
Definition locator_returns_first_binding (obj : json) : Prop :=
  find_subtitle_fragments obj = signalled (spec_locator obj).

(** A sequence of two mappings: the first binds the key to [null], the
    second to a list. *)
Definition null_then_list : json :=
  JArr [JObj [(target_key, JNull)]; JObj [(target_key, JArr [JInt 1])]].

(** ** Sentence spans (claims C2 and C9) *)


(** The [text] of every span that has one, in list order. *)
Fixpoint span_texts (spans : list json) : list string :=
  match spans with
  | [] => []
  | JObj d :: rest =>
      match lookup "text" d with
      | Some (JStr t) => t :: span_texts rest
      | _ => span_texts rest
      end
  | _ :: rest => span_texts rest
  end.

(** A value that is neither a mapping nor a sequence. *)
Definition scalar_value (v : json) : Prop :=
  match v with
  | JArr _ | JObj _ => False
  | _ => True
  end.

(** A sentence element that is not a mapping, or whose [text] is not a
    string: the anomalies claim C9 names. *)
Definition anomalous_sentence (v : json) : Prop :=
  (forall d, v <> JObj d)
  \/ exists d x, v = JObj d /\ lookup "text" d = Some x /\ forall t, x <> JStr t.

(** The sentence elements on which the extraction fails: a number, a
    boolean or [null]; a string that contains ["text"]; a sequence that has
    the element ["text"]; a mapping whose [text] is not a string. *)
Definition failing_sentence (v : json) : Prop :=
  match v with
  | JNull | JBool _ | JInt _ | JFloat _ => True
  | JStr t => PyStr.contains "text" t = true
  | JArr l => In (JStr "text") l
  | JObj d => exists x, lookup "text" d = Some x /\ forall t, x <> JStr t
  end.

(** The sentence elements that are passed over: a mapping without [text],
    and also a string that does not contain ["text"] and a sequence that
    does not have the element ["text"]. *)
Definition skipped_sentence (v : json) : Prop :=
  match v with
  | JStr t => PyStr.contains "text" t = false
  | JArr l => ~ In (JStr "text") l
  | JObj d => lookup "text" d = None
  | _ => False
  end.

(** Claim C9's last sentence on the sentence elements: a sentence list
    with an anomalous element yields the empty string. *)
Definition anomalous_sentence_collapses
  (json_loads : string -> option json) (s : string) : Prop :=
  forall m items,
    json_loads s = Some (JObj m) ->
    lookup "sentence_list" m = Some (JArr items) ->
    Exists anomalous_sentence items ->
    extract_subtitle_text (decode_or_error json_loads) (JStr s) = Ok EmptyString.

(** A cache whose sentence list holds a string and then a span. *)
Definition cache_with_string_element : string :=
  JsonText.q "{'sentence_list': ['x', {'text': 'Hi'}]}".

(** ** Time stamps (claim C3) *)

(** The milliseconds a time stamp [H..H:MM:SS,mmm] stands for. *)
Definition srt_time_milliseconds (stamp : string) : option Z :=
  let (h, r1) := JsonText.digits stamp 0 in
  match r1 with
  | String ":" r2 =>
      let (m, r3) := JsonText.digits r2 0 in
      match r3 with
      | String ":" r4 =>
          let (s, r5) := JsonText.digits r4 0 in
          match r5 with
          | String "," r6 =>
              let (ms, r7) := JsonText.digits r6 0 in
              match r7 with
              | EmptyString => Some (((h * 60 + m) * 60 + s) * 1000 + ms)
              | String _ _ => None
              end
          | _ => None
          end
      | _ => None
      end
  | _ => None
  end.

(** The time stamp of [t] microseconds by the formulas of section 4.3 of
    the specification, on exact numbers: the floor of the milliseconds. *)
Definition exact_time_stamp (t : Z) : string :=
  let hours := t / 1000000 / 3600 in
  let minutes := (t / 1000000) mod 3600 / 60 in
  let seconds := (t / 1000000) mod 60 in
  let milliseconds := (t mod 1000000) / 1000 in
  PyStr.format_0d 2 hours ++ ":" ++ PyStr.format_0d 2 minutes ++ ":"
  ++ PyStr.format_0d 2 seconds ++ "," ++ PyStr.format_0d 3 milliseconds.

(** ** The scenario of the specification *)

Definition scenario_cache : string :=
  JsonText.q "{'sentence_list':[{'text':'Hello'},{'text':'world'}]}".

Definition scenario_fragment : json :=
  JObj [("start_time", JInt 1500000); ("end_time", JInt 3250000);
        ("subtitle_cache_info", JStr scenario_cache)].

(** The document of the scenario, as JSON text. *)
Definition scenario_document : string :=
  JsonText.q "{'a':{'subtitle_fragment_info_list':[{'start_time':1500000,'end_time':3250000,'subtitle_cache_info':'{\'sentence_list\':[{\'text\':\'Hello\'},{\'text\':\'world\'}]}'}]}}".

(** ** Magnitudes of binary64 numbers *)

(** [x] is a zero or a finite number below [2 ^ E] in absolute value. *)
Definition below (E : Z) (x : PyFloat.float) : Prop :=
  match x with
  | S754_zero _ => True
  | S754_finite _ m e => Zdigits2 (Zpos m) + e <= E
  | _ => False
  end.

(** ** Captions and blocks (claims C4, C5, C6) *)

(** A time of the data model: an integer count of microseconds, here of
    up to 64 binary digits. *)
Definition microseconds (v : json) : Prop :=
  exists t, v = JInt t /\ Z.abs t < 2 ^ 64.

(** A normalized caption: both times are integer microseconds. *)
Definition normalized_caption (s : subtitle) : Prop :=
  microseconds (start_time s) /\ microseconds (end_time s).

(** The start time of a normalized caption. *)
Definition start_us (s : subtitle) : Z :=
  match start_time s with
  | JInt t => t
  | _ => 0
  end.

Definition starts_at (t : Z) (s : subtitle) : bool := start_us s =? t.

Definition starts_no_later (a b : subtitle) : Prop := start_us a <= start_us b.

(** The stable arrangement by ascending start time. *)
Fixpoint insert_us (x : subtitle) (sorted : list subtitle) : list subtitle :=
  match sorted with
  | [] => [x]
  | y :: rest =>
      if start_us y <? start_us x then y :: insert_us x rest
      else x :: sorted
  end.

Fixpoint sort_us (subtitles : list subtitle) : list subtitle :=
  match subtitles with
  | [] => []
  | x :: rest => insert_us x (sort_us rest)
  end.

(** The time stamp the Time Normalizer gives for a bound. *)
Definition time_stamp (v : json) : string :=
  match parse_time_microseconds v with
  | Ok stamp => stamp
  | Raise _ => EmptyString
  end.

(** One block of the subtitle file: the index line, the line of the two
    time stamps, the text line, and a blank line. *)
Definition srt_block (index : nat) (s : subtitle) : string :=
  PyStr.str_of_int (Z.of_nat index) ++ PyStr.nl
  ++ time_stamp (start_time s) ++ " --> " ++ time_stamp (end_time s) ++ PyStr.nl
  ++ text s ++ PyStr.nl
  ++ PyStr.nl.

(** The blocks of the captions, numbered from 1 in the order given. *)
Definition srt_text (subtitles : list subtitle) : string :=
  fold_right String.append EmptyString
    (map (fun p => srt_block (fst p) (snd p))
         (combine (seq 1 (List.length subtitles)) subtitles)).

(** ** Fragment records (claims C5, C6) *)

Definition field (key : string) (fragment : json) : json :=
  match fragment with
  | JObj members =>
      match lookup key members with
      | Some v => v
      | None => JNull
      end
  | _ => JNull
  end.

Section Fragments.

Variable json_loads : string -> option json.

(** The text decoded from the cache field of a fragment; empty when the
    fragment has no cache field. *)
Definition decoded_text (fragment : json) : string :=
  match fragment with
  | JObj members =>
      match lookup "subtitle_cache_info" members with
      | Some cache =>
          match extract_subtitle_text (decode_or_error json_loads) cache with
          | Ok t => t
          | Raise _ => EmptyString
          end
      | None => EmptyString
      end
  | _ => EmptyString
  end.

(** The decoded text is non-empty after trimming. *)
Definition captioned (fragment : json) : bool :=
  PyStr.nonempty (PyStr.strip (decoded_text fragment)).

(** The caption of a captioned fragment. *)
Definition caption_of (fragment : json) : subtitle :=
  {| start_time := field "start_time" fragment;
     end_time := field "end_time" fragment;
     text := decoded_text fragment |}.

(** A fragment record: a mapping which, when it is captioned, carries its
    start and end time as integer microseconds. *)
Definition fragment_record (fragment : json) : Prop :=
  exists members,
    fragment = JObj members
    /\ (captioned fragment = true ->
        exists t0 t1,
          lookup "start_time" members = Some (JInt t0)
          /\ lookup "end_time" members = Some (JInt t1)
          /\ Z.abs t0 < 2 ^ 64 /\ Z.abs t1 < 2 ^ 64).

(** Claim C5 on the count: the conversion returns the number of the
    fragments whose decoded text is non-empty after trimming. *)
Definition counts_captioned_fragments (fs : filesystem)
  (input_file output_file : string) (fragments : list json) : Prop :=
  fst (returned (convert_draft_info_to_srt (decode_or_error json_loads) fs input_file output_file))
  = List.length (filter captioned fragments).

End Fragments.

(** A document of two captioned fragments, the second without times, and
    the document of the first alone. *)
Definition timed_then_untimed_document : string :=
  JsonText.q "{'subtitle_fragment_info_list':[{'start_time':0,'end_time':1000000,'subtitle_cache_info':'{\'sentence_list\':[{\'text\':\'A\'}]}'},{'subtitle_cache_info':'{\'sentence_list\':[{\'text\':\'B\'}]}'}]}".

Definition timed_alone_document : string :=
  JsonText.q "{'subtitle_fragment_info_list':[{'start_time':0,'end_time':1000000,'subtitle_cache_info':'{\'sentence_list\':[{\'text\':\'A\'}]}'}]}".

(** A document of two captions that start together, and of one fragment
    with an empty cache between them. *)
Definition tie_document : string :=
  JsonText.q "{'subtitle_fragment_info_list':[{'start_time':0,'end_time':2000000,'subtitle_cache_info':'{\'sentence_list\':[{\'text\':\'first\'}]}'},{'start_time':5,'end_time':6,'subtitle_cache_info':''},{'start_time':0,'end_time':1000000,'subtitle_cache_info':'{\'sentence_list\':[{\'text\':\'second\'}]}'}]}".

(** The fragments of [tie_document]. *)
Definition tie_fragments : list json :=
  [JObj [("start_time", JInt 0); ("end_time", JInt 2000000);
         ("subtitle_cache_info", JStr (JsonText.q "{'sentence_list':[{'text':'first'}]}"))];
   JObj [("start_time", JInt 5); ("end_time", JInt 6);
         ("subtitle_cache_info", JStr EmptyString)];
   JObj [("start_time", JInt 0); ("end_time", JInt 1000000);
         ("subtitle_cache_info", JStr (JsonText.q "{'sentence_list':[{'text':'second'}]}"))]].


(** ** Characters of a string *)

(** Every byte of the string continues a code point. *)
Fixpoint all_continuation (s : string) : bool :=
  match s with
  | EmptyString => true
  | String c rest => PyStr.is_continuation c && all_continuation rest
  end.

(** A character: one byte, and after it only bytes that continue it. *)
Definition character (ch : string) : Prop :=
  match ch with
  | EmptyString => False
  | String _ tl => all_continuation tl = true
  end.

(** A document with one captioned fragment whose start time is a string. *)
Definition string_time_fragment : json :=
  JObj [("start_time", JStr "0"); ("end_time", JInt 1000000);
        ("subtitle_cache_info", JStr scenario_cache)].

Definition string_time_document : string :=
  JsonText.q "{'subtitle_fragment_info_list':[{'start_time':'0','end_time':1000000,'subtitle_cache_info':'{\'sentence_list\':[{\'text\':\'Hello\'},{\'text\':\'world\'}]}'}]}".

(* ================================================================== *)
(** * [main] *)

(** What [main] prints, besides the messages of
    [convert_draft_info_to_srt]. *)
Inductive main_message : Type :=
| MainConverting (input_file output_file : string)
                            (* "Конвертируем {input_file} в {output_file}..." *)
| FromConversion (msg : message)
| MainSucceeded             (* "Конвертация завершена успешно!" *)
| MainSavedTo (output_file : string)
                            (* "Результат сохранен в файл {output_file}" *)
| MainFolder (path : string)
                            (* "Файл находится в папке: {os.path.abspath(result_dir)}" *)
| MainCopied                (* "Промпт для нейросети скопирован в буфер обмена!" *)
| MainPasteHint             (* "Теперь вы можете вставить его в любой AI-сервис ..." *)
| MainCopyFailed            (* "Ошибка при копировании в буфер обмена: {e}" *)
| MainPromptFollows         (* "Промпт для нейросети:" *)
| MainRule                  (* "-" * 50 *)
| MainPrompt (ai_prompt : string)
| MainFailed.               (* "Конвертация не удалась." *)

(** The services [main] calls: the files, [os.makedirs(..., exist_ok=True)],
    [datetime.now().strftime("%Y%m%d_%H%M%S")], [os.path.join],
    [os.path.abspath] and [pyperclip.copy]. *)
Record system : Type := {
  files : filesystem;
  makedirs : string -> result unit;
  timestamp_now : string;
  path_join : string -> string -> string;
  abspath : string -> string;
  clipboard_copy : string -> result unit
}.

(** The result of a run of [main]: the lines printed and the text left on
    the clipboard, if any. *)
Record run : Type := {
  messages : list main_message;
  clipboard : option string
}.

Definition capcut_dir : string :=
  "/Users/nikitaaripov/Movies/CapCut/User Data/Projects/com.lveditor.draft/".

Definition project_name : string := "0824".

Definition main_input_file : string :=
  capcut_dir ++ project_name ++ "/draft_info.json".

Definition result_dir : string := "result".

Definition main_output_file (sys : system) : string :=
  path_join sys result_dir ("captions_" ++ timestamp_now sys ++ ".srt").

Section Main.

Variable json_loads : string -> result json.

Definition main (sys : system) : result run :=
  let input_file := main_input_file in
  _ <- makedirs sys result_dir ;;
  let output_file := main_output_file sys in
  let conversion :=
    convert_draft_info_to_srt json_loads (files sys) input_file output_file in
  let announced :=
    (MainConverting input_file output_file
     :: map FromConversion (printed conversion))%list in
  let (subtitle_count, srt_content) := returned conversion in
  if (0 <? subtitle_count)%nat then
    let ai_prompt := create_ai_prompt srt_content in
    let succeeded :=
      [MainSucceeded; MainSavedTo output_file; MainFolder (abspath sys result_dir)] in
    match clipboard_copy sys ai_prompt with
    | Ok _ =>
        Ok {| messages := (announced ++ succeeded ++ [MainCopied; MainPasteHint])%list;
              clipboard := Some ai_prompt |}
    | Raise _ =>
        Ok {| messages :=
                (announced ++ succeeded
                 ++ [MainCopyFailed; MainPromptFollows; MainRule;
                     MainPrompt ai_prompt; MainRule])%list;
              clipboard := None |}
    end
  else
    Ok {| messages := (announced ++ [MainFailed])%list; clipboard := None |}.

End Main.

(** Services that work: the directory is created, the clipboard accepts
    the text. *)
Definition working_system (fs : filesystem) : system :=
  {| files := fs;
     makedirs := fun _ => Ok tt;
     timestamp_now := "20240824_120000";
     path_join := fun dir name => dir ++ "/" ++ name;
     abspath := fun p => "/home/user/" ++ p;
     clipboard_copy := fun _ => Ok tt |}.

(** ** Where the key is bound *)

(** [bound_at obj v]: the traversal of [obj] meets a binding of the key
    to [v]: in a mapping that has the key, or, through the values of
    mappings that do not have it and the elements of sequences, further
    down. *)
Inductive bound_at : json -> json -> Prop :=
| bound_here (members : list (string * json)) (v : json) :
    lookup target_key members = Some v ->
    bound_at (JObj members) v
| bound_in_value (members : list (string * json)) (k : string) (x v : json) :
    lookup target_key members = None ->
    In (k, x) members -> bound_at x v ->
    bound_at (JObj members) v
| bound_in_item (items : list json) (x v : json) :
    In x items -> bound_at x v ->
    bound_at (JArr items) v.

(** ** Fragments on which the loop body fails *)

(** A fragment that is no container, or a string or sequence in which
    ["subtitle_cache_info"] is found. *)
Definition unusable_fragment (fragment : json) : Prop :=
  match fragment with
  | JNull | JBool _ | JInt _ | JFloat _ => True
  | JStr s => PyStr.contains "subtitle_cache_info" s = true
  | JArr items => In (JStr "subtitle_cache_info") items
  | JObj _ => False
  end.

(** A mapping with a caption and without one of its two times. *)
Definition untimed_caption (json_loads : string -> option json) (fragment : json)
  : Prop :=
  exists members,
    fragment = JObj members
    /\ captioned json_loads fragment = true
    /\ (lookup "start_time" members = None \/ lookup "end_time" members = None).

(** A mapping which, when it has a caption, has both times, whatever
    their values. *)
Definition timed_mapping (json_loads : string -> option json) (fragment : json)
  : Prop :=
  exists members,
    fragment = JObj members
    /\ (captioned json_loads fragment = true ->
        exists t0 t1,
          lookup "start_time" members = Some t0
          /\ lookup "end_time" members = Some t1).

(** A caption one of whose times is not a number. *)
Definition mistimed (s : subtitle) : Prop :=
  as_number (start_time s) = None \/ as_number (end_time s) = None.

(** ** Where a caption comes from *)

(** [sub] is the caption of the mapping [fragment]: its times are the
    values of the two time keys, its text is the text extracted from the
    cache field, as it is, and that text is not blank. *)
Definition caption_source (json_loads : string -> option json)
  (fragment : json) (sub : subtitle) : Prop :=
  exists members cache,
    fragment = JObj members
    /\ lookup "subtitle_cache_info" members = Some cache
    /\ extract_subtitle_text (decode_or_error json_loads) cache = Ok (text sub)
    /\ PyStr.nonempty (PyStr.strip (text sub)) = true
    /\ lookup "start_time" members = Some (start_time sub)
    /\ lookup "end_time" members = Some (end_time sub).

(** The outcome of a run that wrote [n] captions as [content]. *)
Definition created (output_file : string) (n : nat) (content : string) : outcome :=
  {| returned := (n, content);
     printed := [MsgCreated output_file; MsgFound n];
     written := Some content |}.

(** A file system that holds one readable file and in which the directory
    of the output file does not exist. *)
Definition no_output_directory (path content : string) : filesystem :=
  {| read_text := fun p =>
       if String.eqb p path then Ok content else Raise FileNotFoundError;
     write_text := fun _ _ => Raise FileNotFoundError |}.


(** Services in which the clipboard is out of reach. *)
Definition system_without_clipboard (fs : filesystem) : system :=
  {| files := fs;
     makedirs := fun _ => Ok tt;
     timestamp_now := "20240824_120000";
     path_join := fun dir name => dir ++ "/" ++ name;
     abspath := fun p => "/home/user/" ++ p;
     clipboard_copy := fun _ => Raise OSError |}.

(** ** The instruction block of the prompt, line by line

    The block the specification describes: a heading, the three
    requirements of the translation (keep the number of lines and the time
    stamps, write in an instructive conversational style, keep to the
    terminology), an empty line, the sentence on the format of the
    result, and an empty line after which the subtitles begin. *)
Definition prompt_heading : string :=
  "Нужно перевести субтитры на английский язык ".

Definition prompt_requirements : list string :=
  ["1 Сохранять точное количество строк и оригинальные временные метки ";
   "2 Использовать инструктивный, разговорный стиль с естественными английскими конструкциями ";
   "3 Строго придерживаться терминологии"].

Definition prompt_closing : string :=
  "В итоге должен получиться текст в таком же формате как и был".

Definition instruction_lines : list string :=
  (prompt_heading :: prompt_requirements
   ++ [EmptyString; prompt_closing; EmptyString])%list.

(** The text of lines, each ended by a line feed. *)
Fixpoint text_of_lines (lines : list string) : string :=
  match lines with
  | [] => EmptyString
  | line :: rest => line ++ PyStr.nl ++ text_of_lines rest
  end.

Definition instruction_block : string := text_of_lines instruction_lines.

(** A line holds no line feed. *)
Definition single_line (line : string) : bool :=
  negb (existsb (Ascii.eqb "010") (list_ascii_of_string line)).

(** ** The exceptions of the decoder *)

(** The exceptions the handler of [extract_subtitle_text] names. *)
Definition caught_by_extractor (e : exn) : Prop :=
  e = JSONDecodeError \/ e = KeyError \/ e = TypeError.

(** What a decoder answers where it returns. *)
Definition answers (json_loads : string -> result json) (s : string)
  : option json :=
  match json_loads s with
  | Ok data => Some data
  | Raise _ => None
  end.

(** An integer literal of [n] digits. *)
Fixpoint integer_literal (n : nat) : string :=
  match n with
  | O => EmptyString
  | S k => String "1" (integer_literal k)
  end.

(** A cache that is one integer, a digit longer than the limit. *)
Definition long_integer_cache : string :=
  integer_literal (S JsonText.int_max_str_digits).

(* ================================================================== *)
(** * Induction on JSON values *)

Section JsonInduction.

Variable P : json -> Prop.
Hypothesis Hnull : P JNull.
Hypothesis Hbool : forall b, P (JBool b).
Hypothesis Hint : forall n, P (JInt n).
Hypothesis Hfloat : forall x, P (JFloat x).
Hypothesis Hstr : forall s, P (JStr s).
Hypothesis Harr : forall items, Forall P items -> P (JArr items).
Hypothesis Hobj :
  forall members, Forall (fun kv => P (snd kv)) members -> P (JObj members).

Fixpoint json_ind (v : json) : P v :=
  match v with
  | JNull => Hnull
  | JBool b => Hbool b
  | JInt n => Hint n
  | JFloat x => Hfloat x
  | JStr s => Hstr s
  | JArr items =>
      Harr items
        ((fix all (l : list json) : Forall P l :=
            match l with
            | [] => Forall_nil P
            | x :: rest => Forall_cons x (json_ind x) (all rest)
            end) items)
  | JObj members =>
      Hobj members
        ((fix all (l : list (string * json))
            : Forall (fun kv => P (snd kv)) l :=
            match l with
            | [] => Forall_nil _
            | kv :: rest =>
                Forall_cons (P := fun kv => P (snd kv)) kv
                  (json_ind (snd kv)) (all rest)
            end) members)
  end.

End JsonInduction.

(* ================================================================== *)
(** * Decoders that answer every text *)

Lemma decode_or_error_answer (parse : string -> option json) (s : string)
  (answer : option json) :
  parse s = answer ->
  decode_or_error parse s
  = match answer with
    | Some data => Ok data
    | None => Raise JSONDecodeError
    end.
Proof. intros <-. reflexivity. Qed.

(* ================================================================== *)
(** * The members of a decoded object *)

Lemma assign_keys (key : string) (v : json) (members : list (string * json)) :
  forall k, In k (map fst (JsonText.assign key v members)) ->
            k = key \/ In k (map fst members).
Proof.
  induction members as [|[k0 x] rest IH]; intros k; cbn [JsonText.assign].
  - cbn. intros [<- | []]. left. reflexivity.
  - destruct (String.eqb k0 key); cbn [map fst In].
    + tauto.
    + intros [<- | H]; [tauto|]. destruct (IH k H); tauto.
Qed.

(** Assigning to a key keeps every key of the object single. *)
Lemma assign_keeps_keys_single (key : string) (v : json)
  (members : list (string * json)) :
  NoDup (map fst members) -> NoDup (map fst (JsonText.assign key v members)).
Proof.
  induction members as [|[k0 x] rest IH]; intros H; cbn [JsonText.assign].
  - cbn. constructor; [intros []|constructor].
  - cbn [map fst] in H. inversion H as [|? ? Hnotin Hrest]; subst.
    destruct (String.eqb_spec k0 key) as [->|Hne]; cbn [map fst].
    + constructor; assumption.
    + constructor; [|apply IH, Hrest].
      intros Hin. destruct (assign_keys key v rest k0 Hin) as [E|E];
        [apply Hne; exact E|apply Hnotin; exact E].
Qed.

(* ================================================================== *)
(** * The Locator (claim C1) *)

Lemma first_not_none_app (a b : list json) :
  first_not_none (a ++ b)
  = if is_none (first_not_none a) then first_not_none b else first_not_none a.
Proof.
  unfold first_not_none.
  induction a as [|x a IH]; simpl.
  - reflexivity.
  - destruct x; simpl; try reflexivity. exact IH.
Qed.

Lemma spec_locator_is_first_binding (obj : json) :
  spec_locator obj = hd_error (bindings obj).
Proof.
  induction obj as [| | | | |items IH|members IH] using json_ind;
    try reflexivity.
  - simpl. induction IH as [|x rest Hx _ IHrest]; simpl.
    + reflexivity.
    + rewrite Hx, IHrest. destruct (bindings x); reflexivity.
  - simpl. destruct (lookup target_key members); [reflexivity|].
    induction IH as [|[k x] rest Hx _ IHrest]; simpl.
    + reflexivity.
    + simpl in Hx. rewrite Hx, IHrest. destruct (bindings x); reflexivity.
Qed.

Lemma find_is_first_not_none (obj : json) :
  find_subtitle_fragments obj = first_not_none (bindings obj).
Proof.
  induction obj as [| | | | |items IH|members IH] using json_ind;
    try reflexivity.
  - simpl. induction IH as [|x rest Hx _ IHrest]; simpl.
    + reflexivity.
    + rewrite first_not_none_app, Hx, IHrest. reflexivity.
  - simpl. fold target_key. destruct (lookup target_key members) as [v|].
    + destruct v; reflexivity.
    + induction IH as [|[k x] rest Hx _ IHrest]; simpl.
      * reflexivity.
      * simpl in Hx. rewrite first_not_none_app, Hx, IHrest. reflexivity.
Qed.

Lemma first_not_none_all_values (l : list json) :
  Forall (fun v => is_none v = false) l ->
  first_not_none l = signalled (hd_error l).
Proof.
  intros H. destruct H as [|x rest Hx _]; [reflexivity|].
  unfold first_not_none. simpl. rewrite Hx. reflexivity.
Qed.

(** C1, counterexample: on [[{"subtitle_fragment_info_list": null},
    {"subtitle_fragment_info_list": [1]}]] the first binding of the
    traversal is [null], yet the locator goes on to the sibling mapping and
    returns [[1]]. *)
Lemma locator_skips_null_binding :
  spec_locator null_then_list = Some JNull
  /\ find_subtitle_fragments null_then_list = JArr [JInt 1]
  /\ ~ locator_returns_first_binding null_then_list.
Proof.
  split; [reflexivity|]. split; [reflexivity|].
  unfold locator_returns_first_binding. vm_compute. discriminate.
Qed.

(** C1, amended: for every JSON value the locator returns the first
    binding of the key, in depth-first order, whose value is not [null]
    (a mapping that has the key is not descended into, the values of a
    mapping are visited in insertion order, the elements of a sequence in
    index order, scalars never match), and [None] when there is no such
    binding, in particular when the key is absent everywhere; when no
    binding is [null] this is the first binding of the traversal. *)
Theorem locator_returns_first_binding_not_null (obj : json) :
  find_subtitle_fragments obj = first_not_none (bindings obj)
  /\ spec_locator obj = hd_error (bindings obj)
  /\ (bindings obj = [] -> find_subtitle_fragments obj = JNull)
  /\ (Forall (fun v => is_none v = false) (bindings obj) ->
      locator_returns_first_binding obj).
Proof.
  split; [apply find_is_first_not_none|].
  split; [apply spec_locator_is_first_binding|].
  split.
  - intros H. rewrite find_is_first_not_none, H. reflexivity.
  - intros H. unfold locator_returns_first_binding.
    rewrite find_is_first_not_none, spec_locator_is_first_binding.
    apply first_not_none_all_values, H.
Qed.

Lemma locator_returns_first_binding_not_null_witness :
  find_subtitle_fragments (JObj [("a", JArr [JInt 1; JObj [("b", JNull)]])]) = JNull
  /\ locator_returns_first_binding
       (JObj [("a", JArr [JObj [(target_key, JArr [JInt 1])]]);
              (target_key, JArr [])]).
Proof.
  split.
  - apply (proj1 (proj2 (proj2
             (locator_returns_first_binding_not_null
                (JObj [("a", JArr [JInt 1; JObj [("b", JNull)]])]))))).
    reflexivity.
  - apply (proj2 (proj2 (proj2
             (locator_returns_first_binding_not_null
                (JObj [("a", JArr [JObj [(target_key, JArr [JInt 1])]]);
                       (target_key, JArr [])]))))).
    repeat constructor.
Defined.

(* ================================================================== *)
(** * The Prompt Builder (claim C8) *)

Lemma prefix_append (a b : string) : String.prefix a (a ++ b) = true.
Proof.
  induction a as [|c a IH]; simpl.
  - destruct b; reflexivity.
  - destruct (ascii_dec c c) as [_|H]; [exact IH|contradiction].
Qed.

Lemma substring_whole (b : string) : substring 0 (String.length b) b = b.
Proof.
  induction b as [|c b IH]; simpl; [reflexivity|]. rewrite IH. reflexivity.
Qed.

Lemma substring_after_append (a b : string) :
  substring (String.length a) (String.length b) (a ++ b) = b.
Proof.
  induction a as [|c a IH]; simpl; [apply substring_whole|exact IH].
Qed.

Lemma length_append (a b : string) :
  String.length (a ++ b) = (String.length a + String.length b)%nat.
Proof.
  induction a as [|c a IH]; simpl; [reflexivity|]. rewrite IH. reflexivity.
Qed.

Lemma append_cancel (a b c : string) : a ++ b = a ++ c -> b = c.
Proof.
  induction a as [|ch a IH]; simpl; intros H; [exact H|].
  injection H as H. apply IH, H.
Qed.

(** The instruction block is a constant of seven lines, each ended by a
    line feed. *)
Lemma base_prompt_lines :
  List.length (filter (Ascii.eqb "010") (list_ascii_of_string base_prompt)) = 7%nat
  /\ String.length base_prompt = 559%nat.
Proof. split; vm_compute; reflexivity. Qed.

(** The literal of the source is the instruction block, line by line. *)
Lemma base_prompt_is_the_block : base_prompt = instruction_block.
Proof. vm_compute. reflexivity. Qed.

(** C8: for every string [s] the prompt builder returns the instruction
    block followed by [s].  The block is fixed and has several lines: the
    heading, the three requirements, an empty line, the closing sentence
    and an empty line, seven lines in 559 bytes, each ended by a line
    feed, so that [s] begins on a line of its own.  The block is a prefix
    of the result, what follows the block is [s] itself, unchanged and
    unchecked, nothing else is added, and two different texts give two
    different prompts. *)
Theorem create_ai_prompt_prepends_block (s : string) :
  create_ai_prompt s = instruction_block ++ s
  /\ instruction_block
     = text_of_lines
         (prompt_heading :: prompt_requirements
          ++ [EmptyString; prompt_closing; EmptyString])
  /\ List.length prompt_requirements = 3%nat
  /\ forallb single_line instruction_lines = true
  /\ List.length instruction_lines = 7%nat
  /\ String.length instruction_block = 559%nat
  /\ String.prefix instruction_block (create_ai_prompt s) = true
  /\ substring (String.length instruction_block) (String.length s)
       (create_ai_prompt s) = s
  /\ String.length (create_ai_prompt s) = (559 + String.length s)%nat
  /\ create_ai_prompt s <> s
  /\ (forall s', create_ai_prompt s = create_ai_prompt s' -> s = s').
Proof.
  unfold create_ai_prompt. rewrite base_prompt_is_the_block.
  assert (String.length instruction_block = 559%nat) as Hlen
      by (vm_compute; reflexivity).
  split; [reflexivity|]. split; [reflexivity|]. split; [reflexivity|].
  split; [vm_compute; reflexivity|]. split; [reflexivity|].
  split; [exact Hlen|].
  split; [apply prefix_append|].
  split; [apply substring_after_append|].
  split; [rewrite length_append, Hlen; reflexivity|].
  split.
  - intros H. apply (f_equal String.length) in H.
    rewrite length_append, Hlen in H. lia.
  - intros s' H. apply (append_cancel _ _ _ H).
Qed.

(* ================================================================== *)
(** * The Time Normalizer (claim C3) *)

(** The scenario of the specification: whole milliseconds that binary64
    carries through unharmed. *)
Lemma parse_time_scenario :
  parse_time_microseconds (JInt 1500000) = Ok "00:00:01,500"
  /\ parse_time_microseconds (JInt 3250000) = Ok "00:00:03,250".
Proof. split; vm_compute; reflexivity. Qed.

(** Hours are not reduced modulo 24. *)
Lemma parse_time_hundred_hours :
  parse_time_microseconds (JInt 360000000000) = Ok "100:00:00,000".
Proof. vm_compute. reflexivity. Qed.

(** C3, the defect: 1001000 microseconds are 1.001 seconds, that is 1001
    whole milliseconds, and the formulas of the specification on exact
    numbers give [00:00:01,001]; the script renders [00:00:01,000], which
    reads back as 1000 milliseconds.  The quotient 1001000 / 1000000 is
    the binary64 number just below 1.001, so its fractional part times
    1000 stays below 1 and is truncated to 0. *)
Theorem parse_time_loses_a_millisecond :
  parse_time_microseconds (JInt 1001000) = Ok "00:00:01,000"
  /\ srt_time_milliseconds "00:00:01,000" = Some 1000
  /\ 1001000 / 1000 = 1001
  /\ exact_time_stamp 1001000 = "00:00:01,001"
  /\ PyFloat.to_int
       (PyFloat.mul
          (PyFloat.rem (PyFloat.div (PyFloat.of_int 1001000) (PyFloat.of_int 1000000))
                       (PyFloat.of_int 1))
          (PyFloat.of_int 1000)) = Ok 0.
Proof. repeat split; vm_compute; reflexivity. Qed.

(* ================================================================== *)
(** * Facts on Python strings *)




Lemma chars_head (c : ascii) (rest : string) :
  exists tl t, PyStr.chars (String c rest) = String c tl :: t.
Proof.
  simpl. destruct (PyStr.chars rest) as [|h t].
  - exists EmptyString, []. reflexivity.
  - destruct rest as [|d r]; [eexists; eexists; reflexivity|].
    destruct (PyStr.is_continuation d); eexists; eexists; reflexivity.
Qed.

Lemma chars_are_characters (s : string) : Forall character (PyStr.chars s).
Proof.
  induction s as [|c rest IH]; [constructor|].
  simpl. destruct rest as [|d r].
  - simpl. repeat constructor.
  - destruct (chars_head d r) as (tl & t & E). rewrite E in IH |- *.
    inversion IH as [|? ? Hh Ht]; subst.
    destruct (PyStr.is_continuation d) eqn:Hd.
    + constructor; [|exact Ht]. simpl. rewrite Hd. exact Hh.
    + constructor; [reflexivity|]. constructor; assumption.
Qed.



Lemma prefix_cons (a b : ascii) (s1 s2 : string) :
  String.prefix (String a s1) (String b s2)
  = if ascii_dec a b then String.prefix s1 s2 else false.
Proof. reflexivity. Qed.

Lemma contains_cons (needle : string) (c : ascii) (rest : string) :
  PyStr.contains needle (String c rest)
  = String.prefix needle (String c rest) || PyStr.contains needle rest.
Proof. reflexivity. Qed.

Lemma prefix_text_continuation (tl : string) :
  all_continuation tl = true -> PyStr.contains "text" tl = false.
Proof.
  induction tl as [|d tl IH]; [reflexivity|].
  intros H. apply andb_prop in H. destruct H as [Hd Htl].
  rewrite contains_cons, prefix_cons, (IH Htl).
  destruct (ascii_dec "t" d) as [<-|_]; [discriminate|reflexivity].
Qed.

(** No character contains the four letters of ["text"]. *)
Lemma character_without_text (ch : string) :
  character ch -> PyStr.contains "text" ch = false.
Proof.
  destruct ch as [|c tl]; [contradiction|].
  intros H. cbn [character] in H.
  rewrite contains_cons, prefix_cons, (prefix_text_continuation tl H).
  destruct (ascii_dec "t" c) as [_|_]; [|reflexivity].
  destruct tl as [|d tl]; [reflexivity|].
  apply andb_prop in H. destruct H as [Hd _].
  rewrite prefix_cons.
  destruct (ascii_dec "e" d) as [<-|_]; [discriminate|reflexivity].
Qed.

(* ================================================================== *)
(** * The Fragment Extractor (claims C2 and C9) *)

Section Extractor.

Variable json_loads : string -> option json.

Lemma all_str_raises (parts : list json) (e : exn) :
  all_str parts = Raise e -> e = TypeError.
Proof.
  induction parts as [|x rest IH]; simpl; [discriminate|].
  destruct x; try (intros H; injection H as <-; reflexivity).
  destruct (all_str rest); simpl; [discriminate|].
  intros H. injection H as <-. apply IH. reflexivity.
Qed.


Lemma all_str_app (a b : list json) :
  all_str (a ++ b)
  = (x <- all_str a ;; y <- all_str b ;; Ok (x ++ y)%list).
Proof.
  induction a as [|v a IH]; simpl.
  - destruct (all_str b); reflexivity.
  - destruct v; try reflexivity. rewrite IH.
    destruct (all_str a); simpl; [|reflexivity].
    destruct (all_str b); reflexivity.
Qed.

Lemma all_str_non_string (a b : list json) (v : json) :
  (forall t, v <> JStr t) -> all_str (a ++ v :: b) = Raise TypeError.
Proof.
  intros Hv. induction a as [|x a IH]; simpl.
  - destruct v; try reflexivity. exfalso. apply (Hv s). reflexivity.
  - destruct x; try reflexivity. rewrite IH. reflexivity.
Qed.

Lemma collect_sentences_raises (items acc : list json) (e : exn) :
  collect_sentences items acc = Raise e -> e = TypeError.
Proof.
  revert acc. induction items as [|x rest IH]; intros acc; simpl.
  - discriminate.
  - destruct x; simpl; try (intros H; injection H as <-; reflexivity).
    + destruct (PyStr.contains "text" s); simpl.
      * intros H; injection H as <-; reflexivity.
      * apply IH.
    + destruct (existsb _ items); simpl.
      * intros H; injection H as <-; reflexivity.
      * apply IH.
    + destruct (lookup "text" members); simpl; apply IH.
Qed.


(** Elements that are passed over leave the collected texts as they are. *)
Lemma collect_sentences_skips (x : json) (rest acc : list json) :
  skipped_sentence x ->
  collect_sentences (x :: rest) acc = collect_sentences rest acc.
Proof.
  destruct x; simpl; try contradiction.
  - intros ->. reflexivity.
  - intros H.
    assert (existsb (fun x => match x with
                              | JStr s => String.eqb s "text"
                              | _ => false
                              end) items = false) as ->; [|reflexivity].
    apply not_true_is_false. intros E. apply H.
    apply existsb_exists in E. destruct E as (y & Hin & Hy).
    destruct y; try discriminate.
    apply String.eqb_eq in Hy. subst. exact Hin.
  - intros ->. reflexivity.
Qed.

(** What the loop has collected is never lost: the result extends the
    accumulator. *)
Lemma collect_sentences_extends (items acc l : list json) :
  collect_sentences items acc = Ok l -> exists more, l = (acc ++ more)%list.
Proof.
  revert acc. induction items as [|x rest IH]; intros acc; simpl.
  - intros H. injection H as <-. exists []. rewrite app_nil_r. reflexivity.
  - destruct (py_contains "text" x) as [[|]|]; simpl; try discriminate.
    + destruct (py_getitem x "text") as [t|]; simpl; try discriminate.
      intros H. apply IH in H. destruct H as (more & ->).
      exists (t :: more). rewrite <- app_assoc. reflexivity.
    + apply IH.
Qed.

(** A failing element makes the loop raise, or leaves a text that is not a
    string among the collected ones. *)
Lemma collect_sentences_failing (items acc : list json) :
  Exists failing_sentence items ->
  collect_sentences items acc = Raise TypeError
  \/ exists l, collect_sentences items acc = Ok l /\ all_str l = Raise TypeError.
Proof.
  intros H. revert acc. induction H as [x rest Hx | x rest _ IH]; intros acc.
  - destruct x; simpl in Hx |- *; try (left; reflexivity).
    + rewrite Hx. left. reflexivity.
    + assert (existsb (fun x => match x with
                                | JStr s => String.eqb s "text"
                                | _ => false
                                end) items = true) as ->.
      { apply existsb_exists. exists (JStr "text"). split; [exact Hx|reflexivity]. }
      left. reflexivity.
    + destruct Hx as (v & Hv & Hns). rewrite Hv. simpl.
      destruct (collect_sentences rest (acc ++ [v])) as [l|e] eqn:E.
      * right. exists l. split; [reflexivity|].
        apply collect_sentences_extends in E. destruct E as (more & ->).
        rewrite <- app_assoc. apply all_str_non_string, Hns.
      * left. f_equal. apply (collect_sentences_raises _ _ _ E).
  - simpl. destruct (py_contains "text" x) as [[|]|e] eqn:Hc; simpl.
    + destruct (py_getitem x "text") as [t|e] eqn:Hg; simpl.
      * apply IH.
      * left. destruct x; simpl in Hg; try (injection Hg as <-; reflexivity).
        simpl in Hc. destruct (lookup "text" members); [discriminate|discriminate].
    + apply IH.
    + left. destruct x; simpl in Hc; try discriminate; injection Hc as <-; reflexivity.
Qed.

(** With a decoder that answers every text, the [try] body raises
    nothing but what the handler catches. *)
Lemma extract_try_raises (v : json) (e : exn) :
  extract_subtitle_text_try (decode_or_error json_loads) v = Raise e ->
  e = JSONDecodeError \/ e = TypeError.
Proof.
  unfold extract_subtitle_text_try, py_json_loads, decode_or_error.
  destruct v; simpl; try (intros H; injection H as <-; right; reflexivity).
  destruct (json_loads s) as [data|]; simpl;
    [|intros H; injection H as <-; left; reflexivity].
  destruct data; simpl; try (intros H; injection H as <-; right; reflexivity).
  - destruct (PyStr.contains "sentence_list" s0); simpl; [|discriminate].
    intros H; injection H as <-; right; reflexivity.
  - destruct (existsb _ items); simpl; [|discriminate].
    intros H; injection H as <-; right; reflexivity.
  - destruct (lookup "sentence_list" members) as [v|]; simpl; [|discriminate].
    destruct (truthy v); simpl; [|discriminate].
    destruct (py_iter v) as [items|e'] eqn:Hiter; simpl.
    + destruct (collect_sentences items []) as [l|e'] eqn:Hc; simpl.
      * unfold py_join. destruct (all_str l) eqn:Ha; simpl; [discriminate|].
        intros H; injection H as <-. right. apply (all_str_raises _ _ Ha).
      * intros H; injection H as <-. right.
        apply (collect_sentences_raises _ _ _ Hc).
    + intros H; injection H as <-. right.
      destruct v; simpl in Hiter; try discriminate; injection Hiter as <-;
        reflexivity.
Qed.

(** With a decoder that answers every text, the function returns a
    string whatever it is given. *)
Lemma extract_total (v : json) :
  exists s, extract_subtitle_text (decode_or_error json_loads) v = Ok s.
Proof.
  unfold extract_subtitle_text.
  destruct (negb (truthy v) || _); [eexists; reflexivity|].
  destruct (extract_subtitle_text_try (decode_or_error json_loads) v) as [s|e] eqn:E.
  - exists s. reflexivity.
  - destruct (extract_try_raises _ _ E) as [-> | ->]; eexists; reflexivity.
Qed.

(** When the [try] body returns the empty string or raises, so does the
    function return the empty string. *)
Lemma extract_collapses (v : json) :
  extract_subtitle_text_try (decode_or_error json_loads) v = Ok EmptyString
  \/ (exists e, extract_subtitle_text_try (decode_or_error json_loads) v = Raise e) ->
  extract_subtitle_text (decode_or_error json_loads) v = Ok EmptyString.
Proof.
  unfold extract_subtitle_text. intros H.
  destruct (negb (truthy v) || _); [reflexivity|].
  destruct H as [-> | (e & E)]; [reflexivity|].
  rewrite E. destruct (extract_try_raises _ _ E) as [-> | ->]; reflexivity.
Qed.


Lemma extract_not_a_string (v : json) :
  (forall s, v <> JStr s) ->
  extract_subtitle_text (decode_or_error json_loads) v = Ok EmptyString.
Proof.
  intros H. apply extract_collapses. right. exists TypeError.
  destruct v; try reflexivity. exfalso. apply (H s). reflexivity.
Qed.


Lemma extract_not_a_mapping (s : string) (data : json) :
  json_loads s = Some data ->
  (forall m, data <> JObj m) ->
  extract_subtitle_text (decode_or_error json_loads) (JStr s) = Ok EmptyString.
Proof.
  intros H Hd. apply extract_collapses.
  unfold extract_subtitle_text_try. simpl. unfold decode_or_error. rewrite H. simpl.
  destruct data; simpl; try (right; eexists; reflexivity).
  - destruct (PyStr.contains "sentence_list" s0); simpl;
      [right; eexists; reflexivity|left; reflexivity].
  - destruct (existsb _ items); simpl;
      [right; eexists; reflexivity|left; reflexivity].
  - exfalso. apply (Hd members). reflexivity.
Qed.



Lemma extract_failing_sentence (s : string) (m : list (string * json))
  (items : list json) :
  json_loads s = Some (JObj m) ->
  lookup "sentence_list" m = Some (JArr items) ->
  Exists failing_sentence items ->
  extract_subtitle_text (decode_or_error json_loads) (JStr s) = Ok EmptyString.
Proof.
  intros H Hl Hf. apply extract_collapses.
  unfold extract_subtitle_text_try. simpl. unfold decode_or_error. rewrite H. simpl. rewrite Hl.
  simpl. destruct items as [|x rest]; [left; reflexivity|].
  cbn [truthy bind].
  destruct (collect_sentences_failing (x :: rest) [] Hf) as [E | (l & E & Ha)];
    rewrite E; simpl.
  - right. eexists. reflexivity.
  - unfold py_join. rewrite Ha. right. eexists. reflexivity.
Qed.


Lemma collect_sentences_all_skipped (items acc : list json) :
  Forall skipped_sentence items -> collect_sentences items acc = Ok acc.
Proof.
  intros H. induction H as [|x rest Hx _ IH]; [reflexivity|].
  rewrite (collect_sentences_skips x rest acc Hx). exact IH.
Qed.

Lemma collect_sentences_without_skipped (a b acc : list json) (x : json) :
  skipped_sentence x ->
  collect_sentences (a ++ x :: b) acc = collect_sentences (a ++ b) acc.
Proof.
  intros Hx. revert acc. induction a as [|y a IH]; intros acc.
  - apply collect_sentences_skips, Hx.
  - simpl. destruct (py_contains "text" y) as [[|]|]; simpl; try reflexivity.
    + destruct (py_getitem y "text"); simpl; [apply IH|reflexivity].
    + apply IH.
Qed.

Lemma extract_scalar_sentence_list (s : string) (m : list (string * json)) (v : json) :
  json_loads s = Some (JObj m) ->
  lookup "sentence_list" m = Some v ->
  scalar_value v ->
  extract_subtitle_text (decode_or_error json_loads) (JStr s) = Ok EmptyString.
Proof.
  intros H Hl Hv. apply extract_collapses.
  unfold extract_subtitle_text_try. simpl. unfold decode_or_error. rewrite H. simpl. rewrite Hl.
  simpl. destruct (truthy v) eqn:Ht; simpl; [|left; reflexivity].
  destruct v; simpl in Hv |- *; try contradiction;
    try (right; eexists; reflexivity).
  left. rewrite collect_sentences_all_skipped; [reflexivity|].
  apply Forall_forall. intros x Hx. apply in_map_iff in Hx.
  destruct Hx as (ch & <- & Hch). simpl.
  apply character_without_text.
  pose proof (chars_are_characters s0) as Hc.
  rewrite Forall_forall in Hc. apply Hc, Hch.
Qed.

Lemma extract_ignores_skipped (s s' : string) (m m' : list (string * json))
  (a b : list json) (x : json) :
  s <> EmptyString -> s' <> EmptyString ->
  json_loads s = Some (JObj m) ->
  lookup "sentence_list" m = Some (JArr (a ++ x :: b)) ->
  json_loads s' = Some (JObj m') ->
  lookup "sentence_list" m' = Some (JArr (a ++ b)) ->
  (a ++ b)%list <> [] ->
  skipped_sentence x ->
  extract_subtitle_text (decode_or_error json_loads) (JStr s)
  = extract_subtitle_text (decode_or_error json_loads) (JStr s').
Proof.
  intros Hs Hs' H Hl H' Hl' Hne Hx.
  unfold extract_subtitle_text.
  destruct s; [contradiction|]. destruct s'; [contradiction|].
  cbn [truthy PyStr.nonempty negb orb].
  unfold extract_subtitle_text_try, py_json_loads, decode_or_error. rewrite H, H'.
  cbn [bind py_contains py_getitem]. rewrite Hl, Hl'.
  cbn [bind py_iter].
  assert (truthy (JArr (a ++ x :: b)) = true) as -> by (destruct a; reflexivity).
  assert (truthy (JArr (a ++ b)) = true) as ->
      by (destruct (a ++ b)%list; [contradiction|reflexivity]).
  rewrite (collect_sentences_without_skipped a b [] x Hx). reflexivity.
Qed.

(** ** The loop body of [convert_draft_info_to_srt] on one fragment *)

Lemma fragment_without_cache (members : list (string * json)) :
  lookup "subtitle_cache_info" members = None ->
  fragment_subtitle (decode_or_error json_loads) (JObj members) = Ok None.
Proof.
  intros H. unfold fragment_subtitle. simpl. rewrite H. reflexivity.
Qed.

Lemma fragment_with_falsy_cache (members : list (string * json)) (c : json) :
  lookup "subtitle_cache_info" members = Some c ->
  truthy c = false ->
  fragment_subtitle (decode_or_error json_loads) (JObj members) = Ok None.
Proof.
  intros H Hc. unfold fragment_subtitle. simpl. rewrite H. simpl.
  rewrite Hc. reflexivity.
Qed.

Lemma fragment_with_cache (members : list (string * json)) (c : json) (t : string) :
  lookup "subtitle_cache_info" members = Some c ->
  truthy c = true ->
  extract_subtitle_text (decode_or_error json_loads) c = Ok t ->
  fragment_subtitle (decode_or_error json_loads) (JObj members)
  = if PyStr.nonempty (PyStr.strip t) then
      start_time <- py_getitem (JObj members) "start_time" ;;
      end_time <- py_getitem (JObj members) "end_time" ;;
      Ok (Some {| start_time := start_time; end_time := end_time; text := t |})
    else Ok None.
Proof.
  intros H Hc He. unfold fragment_subtitle.
  cbn [py_contains py_getitem bind]. rewrite H. cbn [bind]. rewrite Hc.
  cbn [bind]. rewrite He. reflexivity.
Qed.



End Extractor.

(* ================================================================== *)
(** * The Extractor and the exceptions of the decoder (claim C9) *)

(** The function asks the decoder for one text only, the cache. *)
Lemma extract_same_answer (decoder decoder' : string -> result json) (v : json) :
  (forall s, v = JStr s -> decoder s = decoder' s) ->
  extract_subtitle_text decoder v = extract_subtitle_text decoder' v.
Proof.
  intros H.
  unfold extract_subtitle_text, extract_subtitle_text_try, py_json_loads.
  destruct v; try reflexivity. rewrite (H s eq_refl). reflexivity.
Qed.

Section ExtractorTotality.

Variable json_loads : string -> result json.

(** Where the decoder returns, the function does what it does with the
    decoder that answers every text in the same way. *)
Lemma extract_of_answers (s : string) (data : json) :
  json_loads s = Ok data ->
  answers json_loads s = Some data
  /\ extract_subtitle_text json_loads (JStr s)
     = extract_subtitle_text (decode_or_error (answers json_loads)) (JStr s).
Proof.
  intros H. split; [unfold answers; rewrite H; reflexivity|].
  apply extract_same_answer. intros s' E. injection E as <-.
  unfold decode_or_error, answers. rewrite H. reflexivity.
Qed.

Lemma extract_returns_unless_refused (v : json) :
  (forall s e, v = JStr s -> json_loads s = Raise e -> caught_by_extractor e) ->
  exists t, extract_subtitle_text json_loads v = Ok t.
Proof.
  intros Hcaught.
  assert (forall s, v = JStr s -> exists t, extract_subtitle_text json_loads v = Ok t)
    as Hstr.
  { intros s ->. destruct (json_loads s) as [data|e] eqn:E.
    - destruct (extract_of_answers s data E) as (_ & ->). apply extract_total.
    - pose proof (Hcaught s e eq_refl E) as He.
      unfold extract_subtitle_text, extract_subtitle_text_try, py_json_loads.
      rewrite E. cbn [bind].
      destruct (negb (truthy (JStr s)) || _); [eexists; reflexivity|].
      destruct He as [-> | [-> | ->]]; eexists; reflexivity. }
  destruct v; try (apply (Hstr _ eq_refl));
    rewrite (extract_same_answer json_loads (decode_or_error (answers json_loads)));
    try apply extract_total; intros s' E; discriminate E.
Qed.

Lemma extract_raises_when_refused (s : string) (e : exn) :
  s <> EmptyString ->
  json_loads s = Raise e ->
  ~ caught_by_extractor e ->
  extract_subtitle_text json_loads (JStr s) = Raise e.
Proof.
  intros Hs E Hn.
  unfold extract_subtitle_text, extract_subtitle_text_try, py_json_loads.
  rewrite E. destruct s; [contradiction|].
  cbn [truthy PyStr.nonempty negb orb bind].
  unfold caught_by_extractor in Hn.
  destruct e; try reflexivity; exfalso; apply Hn; auto.
Qed.

(** C9, amended: [extract_subtitle_text] returns a string and raises
    nothing whenever the decoder, on the cache, returns a value or raises
    one of the exceptions the handler names ([JSONDecodeError], [KeyError],
    [TypeError]); when the decoder raises another exception on a non-empty
    cache, the function raises that exception.  It returns the empty
    string for a cache that is not a string, for a decoded value that is
    not a mapping, for a scalar [sentence_list], and for a sentence list
    with an element that is a number, a boolean or [null], a string that
    contains ["text"], a sequence that has the element ["text"], or a
    mapping whose [text] is not a string.  A sentence element that is a
    string without ["text"] or a sequence without the element ["text"] is
    passed over like a mapping without [text]: the result is that of the
    list without it. *)
Theorem extract_total_and_anomalies :
  (forall v,
      (forall s e, v = JStr s -> json_loads s = Raise e -> caught_by_extractor e) ->
      exists t, extract_subtitle_text json_loads v = Ok t)
  /\ (forall s e,
        s <> EmptyString -> json_loads s = Raise e -> ~ caught_by_extractor e ->
        extract_subtitle_text json_loads (JStr s) = Raise e)
  /\ (forall v,
        (forall s, v <> JStr s) ->
        extract_subtitle_text json_loads v = Ok EmptyString)
  /\ (forall s data,
        json_loads s = Ok data -> (forall m, data <> JObj m) ->
        extract_subtitle_text json_loads (JStr s) = Ok EmptyString)
  /\ (forall s m v,
        json_loads s = Ok (JObj m) ->
        lookup "sentence_list" m = Some v -> scalar_value v ->
        extract_subtitle_text json_loads (JStr s) = Ok EmptyString)
  /\ (forall s m items,
        json_loads s = Ok (JObj m) ->
        lookup "sentence_list" m = Some (JArr items) ->
        Exists failing_sentence items ->
        extract_subtitle_text json_loads (JStr s) = Ok EmptyString)
  /\ (forall s s' m m' a b x,
        s <> EmptyString -> s' <> EmptyString ->
        json_loads s = Ok (JObj m) ->
        lookup "sentence_list" m = Some (JArr (a ++ x :: b)) ->
        json_loads s' = Ok (JObj m') ->
        lookup "sentence_list" m' = Some (JArr (a ++ b)) ->
        (a ++ b)%list <> [] ->
        skipped_sentence x ->
        extract_subtitle_text json_loads (JStr s)
        = extract_subtitle_text json_loads (JStr s')).
Proof.
  split; [apply extract_returns_unless_refused|].
  split; [apply extract_raises_when_refused|].
  split.
  { intros v Hv.
    rewrite (extract_same_answer json_loads (decode_or_error (answers json_loads))).
    - apply extract_not_a_string, Hv.
    - intros s E. destruct (Hv s E). }
  split.
  { intros s data H Hd. destruct (extract_of_answers s data H) as (Ha & ->).
    apply (extract_not_a_mapping _ s data Ha Hd). }
  split.
  { intros s m v H Hl Hv. destruct (extract_of_answers s _ H) as (Ha & ->).
    apply (extract_scalar_sentence_list _ s m v Ha Hl Hv). }
  split.
  { intros s m items H Hl Hf. destruct (extract_of_answers s _ H) as (Ha & ->).
    apply (extract_failing_sentence _ s m items Ha Hl Hf). }
  intros s s' m m' a b x Hs Hs' H Hl H' Hl' Hne Hx.
  destruct (extract_of_answers s _ H) as (Ha & ->).
  destruct (extract_of_answers s' _ H') as (Ha' & ->).
  apply (extract_ignores_skipped _ s s' m m' a b x Hs Hs' Ha Hl Ha' Hl' Hne Hx).
Qed.

End ExtractorTotality.

(** C9, counterexample: the cache [{"sentence_list": ["x", {"text":
    "Hi"}]}] has a sentence element that is not a mapping, and the
    extraction returns ["Hi"], not the empty string. *)
Lemma string_sentence_is_passed_over :
  JsonText.loads cache_with_string_element
  = Some (JObj [("sentence_list", JArr [JStr "x"; JObj [("text", JStr "Hi")]])])
  /\ extract_subtitle_text (decode_or_error JsonText.loads) (JStr cache_with_string_element) = Ok "Hi"
  /\ ~ anomalous_sentence_collapses JsonText.loads cache_with_string_element.
Proof.
  split; [vm_compute; reflexivity|]. split; [vm_compute; reflexivity|].
  intros H.
  specialize (H [("sentence_list", JArr [JStr "x"; JObj [("text", JStr "Hi")]])]
                [JStr "x"; JObj [("text", JStr "Hi")]]).
  assert (extract_subtitle_text (decode_or_error JsonText.loads) (JStr cache_with_string_element)
          = Ok EmptyString) as E.
  { apply H; [vm_compute; reflexivity|reflexivity|].
    apply Exists_cons_hd. left. intros d. discriminate. }
  vm_compute in E. discriminate.
Qed.


Lemma extract_total_and_anomalies_witness :
  (exists t,
      extract_subtitle_text JsonText.python_loads (JStr cache_with_string_element)
      = Ok t)
  /\ extract_subtitle_text JsonText.python_loads (JStr long_integer_cache)
     = Raise ValueError
  /\ extract_subtitle_text JsonText.python_loads (JInt 5) = Ok EmptyString
  /\ extract_subtitle_text JsonText.python_loads (JStr (JsonText.q "[1, 2]"))
     = Ok EmptyString
  /\ extract_subtitle_text JsonText.python_loads
       (JStr (JsonText.q "{'sentence_list': [{'text': 'A'}, {'text': 5}]}"))
     = Ok EmptyString.
Proof.
  destruct (extract_total_and_anomalies JsonText.python_loads)
    as (Hreturns & Hraises & Hcache & Hdata & _ & Hfail & _).
  split; [|split; [|split; [|split]]].
  - apply Hreturns. intros s e E. injection E as <-.
    vm_compute. discriminate.
  - apply Hraises.
    + discriminate.
    + vm_compute. reflexivity.
    + intros [H | [H | H]]; discriminate H.
  - apply Hcache. intros s. discriminate.
  - apply (Hdata _ (JArr [JInt 1; JInt 2])).
    + vm_compute. reflexivity.
    + intros m. discriminate.
  - apply (Hfail _ [("sentence_list",
                     JArr [JObj [("text", JStr "A")]; JObj [("text", JInt 5)]])]
                   [JObj [("text", JStr "A")]; JObj [("text", JInt 5)]]).
    + vm_compute. reflexivity.
    + reflexivity.
    + apply Exists_cons_tl, Exists_cons_hd. exists (JInt 5).
      split; [reflexivity|]. intros t. discriminate.
Defined.

(* ================================================================== *)
(** * Finite results of the binary64 operations

    A finite number [m * 2 ^ e] has magnitude [Zdigits2 m + e].  Each
    operation of the time normalizer maps numbers of bounded magnitude to
    numbers of bounded magnitude, so that no infinity and no NaN reaches
    [int(...)]. *)

Lemma digits2_pos_size (p : positive) : digits2_pos p = Pos.size p.
Proof. induction p as [p IH|p IH|]; simpl; rewrite ?IH; reflexivity. Qed.

Lemma Zdigits2_log2 (m : Z) : 0 < m -> Zdigits2 m = Z.log2 m + 1.
Proof.
  destruct m as [|p|p]; try lia. intros _. simpl.
  rewrite digits2_pos_size. destruct p; simpl; lia.
Qed.

Lemma Zdigits2_nonneg (m : Z) : 0 <= Zdigits2 m.
Proof. destruct m; simpl; lia. Qed.

Lemma Zdigits2_le (m k : Z) : 0 <= m -> 0 <= k -> (Zdigits2 m <= k <-> m < 2 ^ k).
Proof.
  intros Hm Hk. destruct (Z.eq_dec m 0) as [->|Hne].
  - simpl. split; [intros; apply Z.pow_pos_nonneg; lia|lia].
  - rewrite Zdigits2_log2 by lia.
    rewrite (Z.log2_lt_pow2 m k) by lia. lia.
Qed.

Lemma Zdigits2_mono (a b : Z) : 0 <= a <= b -> Zdigits2 a <= Zdigits2 b.
Proof.
  intros H. apply Zdigits2_le; [lia|apply Zdigits2_nonneg|].
  assert (b < 2 ^ Zdigits2 b); [|lia].
  apply Zdigits2_le; [lia|apply Zdigits2_nonneg|lia].
Qed.

Lemma Zdigits2_succ (m : Z) : 0 <= m -> Zdigits2 (m + 1) <= Zdigits2 m + 1.
Proof.
  intros H. apply Zdigits2_le; [lia|pose proof (Zdigits2_nonneg m); lia|].
  assert (m < 2 ^ Zdigits2 m)
    by (apply Zdigits2_le; [lia|apply Zdigits2_nonneg|lia]).
  rewrite Z.pow_add_r by (pose proof (Zdigits2_nonneg m); lia).
  assert (0 < 2 ^ Zdigits2 m) by (apply Z.pow_pos_nonneg; [lia|apply Zdigits2_nonneg]).
  lia.
Qed.

Lemma Zdigits2_div_pow2 (m n : Z) :
  0 <= m -> 0 <= n -> Zdigits2 (m / 2 ^ n) <= Z.max 0 (Zdigits2 m - n).
Proof.
  intros Hm Hn.
  assert (0 < 2 ^ n) by (apply Z.pow_pos_nonneg; lia).
  assert (0 <= m / 2 ^ n) by (apply Z.div_pos; lia).
  apply Zdigits2_le; [assumption|lia|].
  pose proof (Zdigits2_nonneg m) as Hd.
  assert (m < 2 ^ Zdigits2 m) as Hlt by (apply Zdigits2_le; lia).
  destruct (Z_le_gt_dec n (Zdigits2 m)) as [Hle|Hgt].
  - rewrite Z.max_r by lia. apply Z.div_lt_upper_bound; [lia|].
    rewrite <- Z.pow_add_r by lia. replace (n + (Zdigits2 m - n)) with (Zdigits2 m) by lia.
    exact Hlt.
  - rewrite Z.max_l by lia. simpl. apply Z.div_lt_upper_bound; [lia|].
    assert (2 ^ Zdigits2 m <= 2 ^ n) by (apply Z.pow_le_mono_r; lia). lia.
Qed.

Lemma Zdigits2_mul (a b : Z) :
  0 <= a -> 0 <= b -> Zdigits2 (a * b) <= Zdigits2 a + Zdigits2 b.
Proof.
  intros Ha Hb. pose proof (Zdigits2_nonneg a). pose proof (Zdigits2_nonneg b).
  apply Zdigits2_le; [lia|lia|].
  assert (a < 2 ^ Zdigits2 a) by (apply Zdigits2_le; lia).
  assert (b < 2 ^ Zdigits2 b) by (apply Zdigits2_le; lia).
  rewrite Z.pow_add_r by lia. nia.
Qed.

Lemma Zdigits2_mul_pow2 (a n : Z) :
  0 < a -> 0 <= n -> Zdigits2 (a * 2 ^ n) = Zdigits2 a + n.
Proof.
  intros Ha Hn.
  assert (0 < 2 ^ n) by (apply Z.pow_pos_nonneg; lia).
  rewrite !Zdigits2_log2 by nia.
  rewrite Z.log2_mul_pow2 by lia. lia.
Qed.

Lemma Zdigits2_abs (m : Z) : Zdigits2 (Z.abs m) = Zdigits2 m.
Proof. destruct m; reflexivity. Qed.

(** Shifting a rounding record to the right. *)
Lemma shr_1_m (r : shr_record) : 0 <= shr_m r -> shr_m (shr_1 r) = shr_m r / 2.
Proof.
  destruct r as [m b s]. cbn [shr_m]. intros H.
  destruct m as [|[p|p|]|p]; cbn [shr_1 shr_m]; try lia; try reflexivity.
  - apply Z.div_unique with 1; lia.
  - apply Z.div_unique with 0; lia.
Qed.

Lemma iter_shr_1_m (n : positive) (r : shr_record) :
  0 <= shr_m r -> shr_m (iter_pos shr_1 n r) = shr_m r / 2 ^ Zpos n.
Proof.
  revert r. induction n as [n IH|n IH|]; intros r Hr.
  - cbn [iter_pos].
    assert (0 <= shr_m (shr_1 r)) as H1
        by (rewrite shr_1_m by assumption; apply Z.div_pos; lia).
    assert (0 <= shr_m (iter_pos shr_1 n (shr_1 r))) as H2
        by (rewrite IH by assumption; apply Z.div_pos; [lia|apply Z.pow_pos_nonneg; lia]).
    rewrite IH, IH, shr_1_m by assumption.
    replace (Zpos n~1) with (1 + Zpos n + Zpos n) by lia.
    rewrite !Z.pow_add_r by lia. rewrite !Z.div_div by (try apply Z.pow_pos_nonneg; lia).
    f_equal. change (2 ^ 1) with 2. ring.
  - cbn [iter_pos].
    assert (0 <= shr_m (iter_pos shr_1 n r)) as H2
        by (rewrite IH by assumption; apply Z.div_pos; [lia|apply Z.pow_pos_nonneg; lia]).
    rewrite IH, IH by assumption.
    replace (Zpos n~0) with (Zpos n + Zpos n) by lia.
    rewrite !Z.pow_add_r by lia. rewrite !Z.div_div by (try apply Z.pow_pos_nonneg; lia).
    reflexivity.
  - cbn [iter_pos]. rewrite shr_1_m by assumption. reflexivity.
Qed.

Lemma shr_record_of_loc_m (m : Z) (l : location) : shr_m (shr_record_of_loc m l) = m.
Proof. destruct l as [|[ | | ]]; reflexivity. Qed.

Lemma fexp64 (x : Z) :
  fexp PyFloat.prec PyFloat.emax x = Z.max (x - 53) (-1074).
Proof. reflexivity. Qed.

(** The first step of rounding: the mantissa stays non-negative, the
    exponent is the larger of the given one and the one the format
    assigns, and the magnitude does not grow. *)
Lemma shr_fexp_bounds (m e : Z) (l : location) :
  0 <= m ->
  0 <= shr_m (fst (shr_fexp PyFloat.prec PyFloat.emax m e l))
  /\ snd (shr_fexp PyFloat.prec PyFloat.emax m e l)
     <= Z.max e (Z.max (Zdigits2 m + e - 53) (-1074))
  /\ Zdigits2 (shr_m (fst (shr_fexp PyFloat.prec PyFloat.emax m e l)))
     + snd (shr_fexp PyFloat.prec PyFloat.emax m e l)
     <= Z.max (Zdigits2 m + e) (-1074).
Proof.
  intros Hm. unfold shr_fexp, shr. rewrite fexp64.
  pose proof (Zdigits2_nonneg m) as Hd.
  destruct (Z.max (Zdigits2 m + e - 53) (-1074) - e) as [|p|p] eqn:E;
    cbn [fst snd]; rewrite ?shr_record_of_loc_m.
  - lia.
  - rewrite iter_shr_1_m by (rewrite shr_record_of_loc_m; exact Hm).
    rewrite shr_record_of_loc_m.
    pose proof (Zdigits2_div_pow2 m (Zpos p) Hm ltac:(lia)) as Hdiv.
    assert (0 <= m / 2 ^ Zpos p)
      by (apply Z.div_pos; [lia|apply Z.pow_pos_nonneg; lia]).
    lia.
  - lia.
Qed.

Lemma round_nearest_even_bounds (m : Z) (l : location) :
  m <= round_nearest_even m l <= m + 1.
Proof.
  destruct l as [|[ | | ]]; cbn [round_nearest_even]; try lia.
  destruct (Z.even m); lia.
Qed.

(** Rounding keeps a number of magnitude at most [2 ^ E] finite, and
    its magnitude at most [2 ^ (E + 1)]. *)
Lemma binary_round_aux_below (E : Z) (s : bool) (m e : Z) (l : location) :
  0 <= m -> Zdigits2 m + e <= E -> e <= 971 -> -1074 <= E <= 1023 ->
  below (E + 1) (binary_round_aux PyFloat.prec PyFloat.emax s m e l).
Proof.
  intros Hm Hmag He HE. unfold binary_round_aux.
  destruct (shr_fexp_bounds m e l Hm) as (H1 & H2 & H3).
  destruct (shr_fexp PyFloat.prec PyFloat.emax m e l) as [r1 e1].
  cbn [fst snd] in H1, H2, H3.
  pose proof (round_nearest_even_bounds (shr_m r1) (loc_of_shr_record r1)) as Hr.
  set (m2 := round_nearest_even (shr_m r1) (loc_of_shr_record r1)) in *.
  assert (0 <= m2) as Hm2 by lia.
  assert (Zdigits2 m2 <= Zdigits2 (shr_m r1) + 1) as Hd2.
  { etransitivity; [apply (Zdigits2_mono m2 (shr_m r1 + 1)); lia|].
    apply Zdigits2_succ, H1. }
  destruct (shr_fexp_bounds m2 e1 loc_Exact Hm2) as (H4 & H5 & H6).
  destruct (shr_fexp PyFloat.prec PyFloat.emax m2 e1 loc_Exact) as [r3 e3].
  cbn [fst snd] in H4, H5, H6.
  destruct (shr_m r3) as [|p|p] eqn:E3; [exact I| |lia].
  assert (e3 <= 971) as He3 by lia.
  change (PyFloat.emax - PyFloat.prec) with 971.
  destruct (Z.leb_spec e3 971); [|lia].
  cbn [below]. lia.
Qed.

Lemma iter_xO (m d : positive) : Zpos (Pos.iter xO m d) = Zpos m * 2 ^ Zpos d.
Proof.
  induction d as [|d IH] using Pos.peano_ind.
  - cbn [Pos.iter]. lia.
  - rewrite Pos.iter_succ, Pos2Z.inj_xO, IH, Pos2Z.inj_succ, Z.pow_succ_r by lia.
    ring.
Qed.

Lemma binary_round_below (E : Z) (s : bool) (m : positive) (e : Z) :
  Zdigits2 (Zpos m) + e <= E -> -1074 <= E <= 1023 ->
  below (E + 1) (binary_round PyFloat.prec PyFloat.emax s m e).
Proof.
  intros Hmag HE. unfold binary_round, shl_align. rewrite fexp64.
  change (Zpos (digits2_pos m)) with (Zdigits2 (Zpos m)).
  destruct (Z.max (Zdigits2 (Zpos m) + e - 53) (-1074) - e) as [|p|p] eqn:Ed.
  - apply binary_round_aux_below; lia.
  - apply binary_round_aux_below; lia.
  - apply binary_round_aux_below; try lia.
    rewrite iter_xO, Zdigits2_mul_pow2 by lia. lia.
Qed.

Lemma binary_normalize_below (E : Z) (m e : Z) (sz : bool) :
  Zdigits2 m + e <= E -> -1074 <= E <= 1023 ->
  below (E + 1) (binary_normalize PyFloat.prec PyFloat.emax m e sz).
Proof.
  intros Hmag HE. destruct m as [|p|p]; cbn [binary_normalize].
  - exact I.
  - apply binary_round_below; assumption.
  - apply binary_round_below; assumption.
Qed.

Lemma below_weaken (E E' : Z) (x : PyFloat.float) :
  below E x -> E <= E' -> below E' x.
Proof. destruct x; cbn [below]; try tauto. lia. Qed.

Lemma below_to_int (E : Z) (x : PyFloat.float) :
  below E x -> exists n, PyFloat.to_int x = Ok n.
Proof. destruct x; cbn [below]; try contradiction; intros _; eexists; reflexivity. Qed.

Lemma shl_align_fst (m : positive) (e e' : Z) :
  e' <= e -> Zpos (fst (shl_align m e e')) = Zpos m * 2 ^ (e - e').
Proof.
  intros H. unfold shl_align.
  destruct (e' - e) as [|p|p] eqn:Ed; cbn [fst].
  - replace (e - e') with 0 by lia. lia.
  - lia.
  - rewrite iter_xO. f_equal. f_equal. lia.
Qed.

Lemma Zdigits2_cond_Zopp (s : bool) (m : Z) : Zdigits2 (cond_Zopp s m) = Zdigits2 m.
Proof. destruct s, m; reflexivity. Qed.

(** The digits of a sum or a difference of two integers. *)
Lemma Zdigits2_combine (a b : Z) (k : Z) :
  Zdigits2 a <= k -> Zdigits2 b <= k -> 0 <= k ->
  Zdigits2 (a + b) <= k + 1 /\ Zdigits2 (a - b) <= k + 1.
Proof.
  intros Ha Hb Hk.
  rewrite <- (Zdigits2_abs a) in Ha. rewrite <- (Zdigits2_abs b) in Hb.
  apply Zdigits2_le in Ha; [|lia|lia]. apply Zdigits2_le in Hb; [|lia|lia].
  rewrite <- (Zdigits2_abs (a + b)), <- (Zdigits2_abs (a - b)).
  assert (2 ^ (k + 1) = 2 * 2 ^ k) by (rewrite Z.pow_add_r by lia; lia).
  split; apply Zdigits2_le; lia.
Qed.

Lemma Zdigits2_pos (m : positive) : 1 <= Zdigits2 (Zpos m).
Proof. rewrite Zdigits2_log2 by lia. pose proof (Z.log2_nonneg (Zpos m)). lia. Qed.

Lemma aligned_digits (s : bool) (m : positive) (e e' : Z) :
  e' <= e ->
  Zdigits2 (cond_Zopp s (Zpos (fst (shl_align m e e')))) = Zdigits2 (Zpos m) + (e - e').
Proof.
  intros H. rewrite Zdigits2_cond_Zopp, shl_align_fst by exact H.
  apply Zdigits2_mul_pow2; lia.
Qed.

Lemma add_below (E : Z) (x y : PyFloat.float) :
  below E x -> below E y -> -1074 <= E <= 1021 ->
  below (E + 2) (PyFloat.add x y).
Proof.
  intros Hx Hy HE.
  destruct x as [sx|sx| |sx mx ex], y as [sy|sy| |sy my ey];
    cbn [below] in Hx, Hy; try contradiction;
    unfold PyFloat.add; cbn [SFadd below]; try lia.
  - destruct sx, sy; exact I.
  - pose proof (Zdigits2_pos mx). pose proof (Zdigits2_pos my).
    replace (E + 2) with (E + 1 + 1) by lia.
    apply binary_normalize_below; [|lia].
    assert (Z.min ex ey <= ex) as Hex by lia.
    assert (Z.min ex ey <= ey) as Hey by lia.
    pose proof (aligned_digits sx mx ex (Z.min ex ey) Hex) as Ha.
    pose proof (aligned_digits sy my ey (Z.min ex ey) Hey) as Hb.
    set (a := cond_Zopp sx _) in *. set (b := cond_Zopp sy _) in *.
    assert (Zdigits2 a <= E - Z.min ex ey) as Ha' by lia.
    assert (Zdigits2 b <= E - Z.min ex ey) as Hb' by lia.
    assert (0 <= E - Z.min ex ey) as Hk by lia.
    destruct (Zdigits2_combine a b (E - Z.min ex ey) Ha' Hb' Hk) as [Hs _].
    lia.
Qed.

Lemma sub_below (E : Z) (x y : PyFloat.float) :
  below E x -> below E y -> -1074 <= E <= 1021 ->
  below (E + 2) (PyFloat.sub x y).
Proof.
  intros Hx Hy HE.
  destruct x as [sx|sx| |sx mx ex], y as [sy|sy| |sy my ey];
    cbn [below] in Hx, Hy; try contradiction;
    unfold PyFloat.sub; cbn [SFsub below]; try lia.
  - destruct sx, sy; exact I.
  - pose proof (Zdigits2_pos mx). pose proof (Zdigits2_pos my).
    replace (E + 2) with (E + 1 + 1) by lia.
    apply binary_normalize_below; [|lia].
    assert (Z.min ex ey <= ex) as Hex by lia.
    assert (Z.min ex ey <= ey) as Hey by lia.
    pose proof (aligned_digits sx mx ex (Z.min ex ey) Hex) as Ha.
    pose proof (aligned_digits sy my ey (Z.min ex ey) Hey) as Hb.
    set (a := cond_Zopp sx _) in *. set (b := cond_Zopp sy _) in *.
    assert (Zdigits2 a <= E - Z.min ex ey) as Ha' by lia.
    assert (Zdigits2 b <= E - Z.min ex ey) as Hb' by lia.
    assert (0 <= E - Z.min ex ey) as Hk by lia.
    destruct (Zdigits2_combine a b (E - Z.min ex ey) Ha' Hb' Hk) as [_ Hs].
    lia.
Qed.

Lemma mul_below (Ex Ey : Z) (x y : PyFloat.float) :
  below Ex x -> below Ey y -> -1074 <= Ex + Ey <= 973 ->
  below (Ex + Ey + 1) (PyFloat.mul x y).
Proof.
  intros Hx Hy HE.
  destruct x as [sx|sx| |sx mx ex], y as [sy|sy| |sy my ey];
    cbn [below] in Hx, Hy; try contradiction;
    unfold PyFloat.mul; cbn [SFmul below]; try exact I.
  pose proof (Zdigits2_pos mx). pose proof (Zdigits2_pos my).
  apply binary_round_aux_below; try lia.
  rewrite Pos2Z.inj_mul.
  pose proof (Zdigits2_mul (Zpos mx) (Zpos my) ltac:(lia) ltac:(lia)). lia.
Qed.

Lemma div_below (E : Z) (x : PyFloat.float) (sy : bool) (my : positive) (ey : Z) :
  below E x -> -1074 <= E - ey <= 1023 ->
  below (E - ey + 1) (PyFloat.div x (S754_finite sy my ey)).
Proof.
  intros Hx HE.
  destruct x as [sx|sx| |sx mx ex]; cbn [below] in Hx; try contradiction;
    unfold PyFloat.div; cbn [SFdiv]; [exact I|].
  unfold SFdiv_core_binary. rewrite fexp64.
  pose proof (Zdigits2_pos mx) as Hdx. pose proof (Zdigits2_pos my) as Hdy.
  set (e' := Z.min _ (ex - ey)).
  assert (e' <= ex - ey) as He1 by (unfold e'; lia).
  assert (e' <= 971) as He2 by (unfold e'; lia).
  set (m' := match ex - ey - e' with
             | 0 => Zpos mx
             | Zpos _ => Z.shiftl (Zpos mx) (ex - ey - e')
             | Zneg _ => 0
             end).
  assert (0 <= m' /\ Zdigits2 m' + e' <= E - ey) as [Hm' Hd'].
  { unfold m'. destruct (ex - ey - e') as [|p|p] eqn:Es; [lia| |lia].
    rewrite Z.shiftl_mul_pow2 by lia.
    rewrite Zdigits2_mul_pow2 by lia.
    assert (0 < 2 ^ Zpos p) by (apply Z.pow_pos_nonneg; lia). nia. }
  pose proof (Z_div_mod m' (Zpos my) ltac:(lia)) as Hdiv.
  destruct (Z.div_eucl m' (Zpos my)) as [q r].
  assert (0 <= q <= m') as Hq by nia.
  apply binary_round_aux_below; try lia.
  pose proof (Zdigits2_mono q m' Hq). lia.
Qed.

Lemma fmod_below (E : Z) (x : PyFloat.float) (sy : bool) (my : positive) (ey : Z) :
  below E x -> -1074 <= E <= 1023 ->
  below (E + 1) (PyFloat.fmod x (S754_finite sy my ey)).
Proof.
  intros Hx HE.
  destruct x as [sx|sx| |sx mx ex]; cbn [below] in Hx; try contradiction;
    cbn [PyFloat.fmod]; [exact I|].
  apply binary_normalize_below; [|exact HE].
  rewrite Zdigits2_cond_Zopp.
  set (e := Z.min ex ey).
  assert (0 < 2 ^ (ex - e)) by (apply Z.pow_pos_nonneg; unfold e; lia).
  assert (0 < 2 ^ (ey - e)) by (apply Z.pow_pos_nonneg; unfold e; lia).
  pose proof (Z.rem_bound_pos (Zpos mx * 2 ^ (ex - e)) (Zpos my * 2 ^ (ey - e))
                ltac:(nia) ltac:(nia)) as Hr.
  pose proof (Z.rem_le (Zpos mx * 2 ^ (ex - e)) (Zpos my * 2 ^ (ey - e))
                ltac:(nia) ltac:(nia)) as Hle.
  pose proof (Zdigits2_mono _ _ (conj (proj1 Hr) Hle)) as Hd.
  rewrite Zdigits2_mul_pow2 in Hd by (unfold e; lia). lia.
Qed.

Lemma floor_below (E : Z) (x : PyFloat.float) :
  below E x -> 0 <= E <= 1021 -> below (E + 2) (PyFloat.floor x).
Proof.
  intros Hx HE.
  destruct x as [sx|sx| |sx mx ex]; cbn [below] in Hx; try contradiction;
    cbn [PyFloat.floor]; [exact I|].
  destruct (Z.leb_spec 0 ex) as [He|He]; [cbn [below]; lia|].
  replace (E + 2) with (E + 1 + 1) by lia.
  apply binary_normalize_below; [|lia].
  assert (0 < 2 ^ (- ex)) as Hp by (apply Z.pow_pos_nonneg; lia).
  set (v := cond_Zopp sx (Zpos mx) / 2 ^ (- ex)).
  assert (Z.abs v <= Zpos mx / 2 ^ (- ex) + 1) as Hv.
  { unfold v. pose proof (Z_div_mod (Zpos mx) (2 ^ (- ex)) ltac:(lia)) as H1.
    rewrite (Z.div_mod (Zpos mx) (2 ^ (- ex))) at 1 by lia.
    destruct sx; cbn [cond_Zopp].
    - pose proof (Z.div_mod (- Zpos mx) (2 ^ (- ex)) ltac:(lia)) as H2.
      pose proof (Z.mod_pos_bound (- Zpos mx) (2 ^ (- ex)) Hp).
      pose proof (Z.mod_pos_bound (Zpos mx) (2 ^ (- ex)) Hp).
      pose proof (Z.div_mod (Zpos mx) (2 ^ (- ex)) ltac:(lia)) as H3.
      set (a := Zpos mx / 2 ^ (- ex)) in *.
      set (b := - (2 ^ (- ex) * a + Zpos mx mod 2 ^ (- ex)) / 2 ^ (- ex)).
      assert (- (2 ^ (- ex) * a + Zpos mx mod 2 ^ (- ex)) = - Zpos mx) as Hneg by lia.
      unfold b. rewrite Hneg. nia.
    - rewrite <- Z.div_mod by lia.
      assert (0 <= Zpos mx / 2 ^ (- ex)) by (apply Z.div_pos; lia). lia. }
  rewrite <- Zdigits2_abs.
  assert (0 <= Zpos mx / 2 ^ (- ex)) as H0 by (apply Z.div_pos; lia).
  pose proof (Zdigits2_mono (Z.abs v) (Zpos mx / 2 ^ (- ex) + 1) ltac:(lia)) as Hm.
  pose proof (Zdigits2_succ (Zpos mx / 2 ^ (- ex)) H0) as Hs.
  pose proof (Zdigits2_div_pow2 (Zpos mx) (- ex) ltac:(lia) ltac:(lia)) as Hd.
  lia.
Qed.

Lemma rem_below (E : Z) (x : PyFloat.float) (sy : bool) (my : positive) (ey : Z) :
  below E x -> below E (S754_finite sy my ey) -> -1074 <= E <= 1020 ->
  below (E + 3) (PyFloat.rem x (S754_finite sy my ey)).
Proof.
  intros Hx Hy HE. unfold PyFloat.rem.
  pose proof (fmod_below E x sy my ey Hx ltac:(lia)) as Hmd.
  destruct (negb (PyFloat.is_zero _)); [|exact I].
  destruct (negb (Bool.eqb _ _)).
  - apply (below_weaken (E + 1 + 2)); [|lia].
    apply add_below; [exact Hmd|apply (below_weaken E); [exact Hy|lia]|lia].
  - apply (below_weaken (E + 1)); [exact Hmd|lia].
Qed.

Lemma one_below : below 1 PyFloat.one.
Proof. vm_compute. discriminate. Qed.

Lemma floordiv_below (E : Z) (x : PyFloat.float) (sy : bool) (my : positive) (ey : Z) :
  below E x -> 0 <= E -> -100 <= ey <= 0 -> E <= 900 ->
  below (E - ey + 10) (PyFloat.floordiv x (S754_finite sy my ey)).
Proof.
  intros Hx HE Hey HE'. unfold PyFloat.floordiv.
  pose proof (fmod_below E x sy my ey Hx ltac:(lia)) as Hmd.
  set (md := PyFloat.fmod x (S754_finite sy my ey)) in *.
  assert (below (E + 3) (PyFloat.sub x md)) as Hsub.
  { apply (below_weaken (E + 1 + 2)); [|lia].
    apply sub_below; [apply (below_weaken E); [exact Hx|lia]|exact Hmd|lia]. }
  assert (-1074 <= E + 3 - ey <= 1023) as Hrange by lia.
  pose proof (div_below (E + 3) _ sy my ey Hsub Hrange) as Hdv.
  set (dv := PyFloat.div (PyFloat.sub x md) (S754_finite sy my ey)) in *.
  assert (below (E - ey + 6)
            (if negb (PyFloat.is_zero md)
             then if negb (Bool.eqb (PyFloat.is_negative (S754_finite sy my ey))
                                    (PyFloat.is_negative md))
                  then PyFloat.sub dv PyFloat.one else dv
             else dv)) as Hdv'.
  { assert (below (E - ey + 6) (PyFloat.sub dv PyFloat.one)) as H1.
    { apply (below_weaken (E - ey + 4 + 2)); [|lia].
      apply sub_below;
        [apply (below_weaken (E + 3 - ey + 1)); [exact Hdv|lia]
        |apply (below_weaken 1); [exact one_below|lia]|lia]. }
    assert (below (E - ey + 6) dv) as H2
        by (apply (below_weaken (E + 3 - ey + 1)); [exact Hdv|lia]).
    destruct (negb (PyFloat.is_zero md)); [|exact H2].
    destruct (negb (Bool.eqb _ _)); assumption. }
  set (dv' := if negb (PyFloat.is_zero md) then _ else dv) in *.
  destruct (negb (PyFloat.is_zero dv')); [|exact I].
  assert (0 <= E - ey + 6 <= 1021) as Hrange' by lia.
  pose proof (floor_below (E - ey + 6) dv' Hdv' Hrange') as Hfl.
  destruct (SFltb _ _).
  - apply (below_weaken (E - ey + 6 + 2 + 2)); [|lia].
    apply add_below;
      [exact Hfl|apply (below_weaken 1); [exact one_below|lia]|lia].
  - apply (below_weaken (E - ey + 6 + 2)); [exact Hfl|lia].
Qed.

Lemma raw_int_below (z : Z) (K : Z) :
  0 <= K -> Z.abs z < 2 ^ K -> below K (PyFloat.raw_int z).
Proof.
  intros HK Hz. destruct z as [|p|p]; cbn [PyFloat.raw_int below]; [exact I| |].
  - pose proof (proj2 (Zdigits2_le (Zpos p) K ltac:(lia) HK) Hz). lia.
  - change (Zdigits2 (Zpos p)) with (Zdigits2 (Zneg p)).
    rewrite <- Zdigits2_abs.
    pose proof (proj2 (Zdigits2_le (Z.abs (Zneg p)) K ltac:(lia) HK) Hz). lia.
Qed.

Lemma below_is_finite (E : Z) (x : PyFloat.float) :
  below E x -> PyFloat.is_finite x = true.
Proof. destruct x; cbn [below]; try contradiction; reflexivity. Qed.

(** The time normalizer returns a time stamp for every integer of up to
    64 binary digits. *)
Lemma parse_time_microseconds_returns (t : Z) :
  Z.abs t < 2 ^ 64 -> exists stamp, parse_time_microseconds (JInt t) = Ok stamp.
Proof.
  intros Ht. unfold parse_time_microseconds, py_truediv, PyFloat.int_truediv.
  change (1000000 =? 0) with false. cbn iota.
  pose proof (raw_int_below t 64 ltac:(lia) Ht) as Hraw.
  pose proof (div_below 64 _ false 1000000 0 Hraw ltac:(lia)) as Hts.
  change (S754_finite false 1000000 0) with (PyFloat.raw_int 1000000) in Hts.
  set (ts := PyFloat.div (PyFloat.raw_int t) (PyFloat.raw_int 1000000)) in *.
  rewrite (below_is_finite _ _ Hts). cbn [bind].
  change (PyFloat.of_int 3600) with (S754_finite false 7916483719987200 (-41)).
  change (PyFloat.of_int 60) with (S754_finite false 8444249301319680 (-47)).
  change (PyFloat.of_int 1) with (S754_finite false 4503599627370496 (-52)).
  change (PyFloat.of_int 1000) with (S754_finite false 8796093022208000 (-43)).
  assert (below 65 ts) as Hts' by (apply (below_weaken (64 - 0 + 1)); [exact Hts|lia]).
  assert (below 65 (S754_finite false 7916483719987200 (-41))) as H3600
      by (vm_compute; discriminate).
  assert (below 65 (S754_finite false 8444249301319680 (-47))) as H60
      by (vm_compute; discriminate).
  assert (below 65 (S754_finite false 4503599627370496 (-52))) as H1
      by (vm_compute; discriminate).
  assert (below 10 (S754_finite false 8796093022208000 (-43))) as H1000
      by (vm_compute; discriminate).
  pose proof (rem_below 65 ts _ _ _ Hts' H3600 ltac:(lia)) as Hr1.
  pose proof (rem_below 65 ts _ _ _ Hts' H60 ltac:(lia)) as Hr2.
  pose proof (rem_below 65 ts _ _ _ Hts' H1 ltac:(lia)) as Hr3.
  destruct (below_to_int _ _
              (floordiv_below 65 ts false 7916483719987200 (-41) Hts'
                 ltac:(lia) ltac:(lia) ltac:(lia))) as (h & ->).
  cbn [bind].
  destruct (below_to_int _ _
              (floordiv_below (65 + 3) _ false 8444249301319680 (-47) Hr1
                 ltac:(lia) ltac:(lia) ltac:(lia))) as (m & ->).
  cbn [bind].
  destruct (below_to_int _ _ Hr2) as (s & ->). cbn [bind].
  destruct (below_to_int _ _ (mul_below (65 + 3) 10 _ _ Hr3 H1000 ltac:(lia)))
    as (ms & ->).
  cbn [bind]. eexists. reflexivity.
Qed.

(* ================================================================== *)
(** * Ordering and Serializer (claim C4) *)

Lemma raw_int_ltb (a b : Z) :
  PyFloat.ltb (PyFloat.raw_int a) (PyFloat.raw_int b) = (a <? b).
Proof.
  assert (forall z, PyFloat.scaled (PyFloat.raw_int z) 0 = z) as Hs.
  { intros [|p|p]; cbn [PyFloat.raw_int PyFloat.scaled cond_Zopp]; try reflexivity;
      change (2 ^ (0 - 0)) with 1; lia. }
  assert (forall z, PyFloat.exponent (PyFloat.raw_int z) = 0) as He
      by (intros [|p|p]; reflexivity).
  assert (forall x y,
             PyFloat.ltb (PyFloat.raw_int x) (PyFloat.raw_int y)
             = (PyFloat.scaled (PyFloat.raw_int x)
                  (Z.min (PyFloat.exponent (PyFloat.raw_int x))
                         (PyFloat.exponent (PyFloat.raw_int y)))
                <? PyFloat.scaled (PyFloat.raw_int y)
                     (Z.min (PyFloat.exponent (PyFloat.raw_int x))
                            (PyFloat.exponent (PyFloat.raw_int y))))) as Hl
      by (intros [|p|p] [|q|q]; reflexivity).
  rewrite Hl, !He. change (Z.min 0 0) with 0. rewrite !Hs. reflexivity.
Qed.

Lemma py_lt_integers (a b : Z) : py_lt (JInt a) (JInt b) = Ok (a <? b).
Proof. unfold py_lt. cbn [as_number]. rewrite raw_int_ltb. reflexivity. Qed.

Lemma normalized_start (s : subtitle) :
  normalized_caption s -> start_time s = JInt (start_us s).
Proof.
  intros ((t & E & _) & _). unfold start_us. rewrite E. reflexivity.
Qed.

(** On normalized captions the sort of the script is the stable
    arrangement. *)
Lemma insert_by_start_time_normalized (x : subtitle) (l : list subtitle) :
  normalized_caption x -> Forall normalized_caption l ->
  insert_by_start_time x l = Ok (insert_us x l).
Proof.
  intros Hx Hl. induction Hl as [|y rest Hy _ IH]; [reflexivity|].
  cbn [insert_by_start_time insert_us].
  rewrite (normalized_start x Hx), (normalized_start y Hy), py_lt_integers.
  cbn [bind]. destruct (start_us y <? start_us x); [|reflexivity].
  rewrite IH. reflexivity.
Qed.

Lemma insert_us_perm (x : subtitle) (l : list subtitle) :
  Permutation (x :: l) (insert_us x l).
Proof.
  induction l as [|y rest IH]; cbn [insert_us]; [apply Permutation_refl|].
  destruct (start_us y <? start_us x); [|apply Permutation_refl].
  apply perm_trans with (y :: x :: rest); [apply perm_swap|].
  apply perm_skip, IH.
Qed.

Lemma sort_us_perm (l : list subtitle) : Permutation l (sort_us l).
Proof.
  induction l as [|x rest IH]; cbn [sort_us]; [apply perm_nil|].
  apply perm_trans with (x :: sort_us rest);
    [apply perm_skip, IH|apply insert_us_perm].
Qed.

Lemma sort_us_normalized (l : list subtitle) :
  Forall normalized_caption l -> Forall normalized_caption (sort_us l).
Proof.
  intros H. apply (Permutation_Forall (sort_us_perm l) H).
Qed.

Lemma sort_by_start_time_normalized (l : list subtitle) :
  Forall normalized_caption l -> sort_by_start_time l = Ok (sort_us l).
Proof.
  intros H. induction H as [|x rest Hx Hrest IH]; [reflexivity|].
  cbn [sort_by_start_time sort_us]. rewrite IH. cbn [bind].
  apply insert_by_start_time_normalized;
    [exact Hx|apply sort_us_normalized, Hrest].
Qed.

Lemma insert_us_sorted (x : subtitle) (l : list subtitle) :
  StronglySorted starts_no_later l ->
  StronglySorted starts_no_later (insert_us x l).
Proof.
  intros H. induction H as [|y rest Hrest IH Hy]; cbn [insert_us].
  - constructor; constructor.
  - destruct (Z.ltb_spec (start_us y) (start_us x)) as [Hlt|Hge].
    + constructor; [exact IH|].
      apply (Permutation_Forall (insert_us_perm x rest)).
      constructor; [unfold starts_no_later; lia|exact Hy].
    + constructor; [constructor; assumption|].
      constructor; [exact Hge|].
      apply (Forall_impl _ (fun z Hz => Z.le_trans _ _ _ Hge Hz) Hy).
Qed.

Lemma sort_us_sorted (l : list subtitle) :
  StronglySorted starts_no_later (sort_us l).
Proof.
  induction l as [|x rest IH]; cbn [sort_us]; [constructor|].
  apply insert_us_sorted, IH.
Qed.

(** Stability: the captions that start at one time keep their order. *)
Lemma insert_us_stable (t : Z) (x : subtitle) (l : list subtitle) :
  StronglySorted starts_no_later l ->
  filter (starts_at t) (insert_us x l) = filter (starts_at t) (x :: l).
Proof.
  intros H. induction H as [|y rest Hrest IH Hy]; [reflexivity|].
  cbn [insert_us].
  destruct (Z.ltb_spec (start_us y) (start_us x)) as [Hlt|Hge]; [|reflexivity].
  cbn [filter] in IH |- *. rewrite IH. unfold starts_at.
  destruct (Z.eqb_spec (start_us x) t) as [Ex|Ex]; [|reflexivity].
  destruct (Z.eqb_spec (start_us y) t) as [Ey|Ey]; [lia|reflexivity].
Qed.

Lemma sort_us_stable (t : Z) (l : list subtitle) :
  filter (starts_at t) (sort_us l) = filter (starts_at t) l.
Proof.
  induction l as [|x rest IH]; [reflexivity|].
  cbn [sort_us]. rewrite insert_us_stable by apply sort_us_sorted.
  cbn [filter]. rewrite IH. reflexivity.
Qed.

Lemma append_assoc (a b c : string) : (a ++ b) ++ c = a ++ (b ++ c).
Proof. induction a as [|x a IH]; cbn; [reflexivity|]. rewrite IH. reflexivity. Qed.

Lemma append_empty_r (a : string) : a ++ EmptyString = a.
Proof. induction a as [|x a IH]; cbn; [reflexivity|]. rewrite IH. reflexivity. Qed.

Lemma time_stamp_returned (v : json) :
  microseconds v -> parse_time_microseconds v = Ok (time_stamp v).
Proof.
  intros (t & -> & Ht). unfold time_stamp.
  destruct (parse_time_microseconds_returns t Ht) as (stamp & ->). reflexivity.
Qed.

(** The loop that renders the captions appends their blocks, numbered
    upwards from the index it starts with. *)
Lemma render_srt_blocks (i : nat) (l : list subtitle) (srt_content : string) :
  Forall normalized_caption l ->
  render_srt (Z.of_nat i) l srt_content
  = Ok (srt_content
        ++ fold_right String.append EmptyString
             (map (fun p => srt_block (fst p) (snd p))
                  (combine (seq i (List.length l)) l))).
Proof.
  intros H. revert i srt_content.
  induction H as [|x rest [Hs He] _ IH]; intros i srt_content.
  - cbn. rewrite append_empty_r. reflexivity.
  - cbn [render_srt]. rewrite (time_stamp_returned _ Hs), (time_stamp_returned _ He).
    cbn [bind]. replace (Z.of_nat i + 1) with (Z.of_nat (S i)) by lia.
    rewrite IH. cbn [List.length seq combine map fold_right fst snd].
    unfold srt_block. rewrite !append_assoc. reflexivity.
Qed.

Lemma render_srt_text (l : list subtitle) :
  Forall normalized_caption l -> render_srt 1 l EmptyString = Ok (srt_text l).
Proof.
  intros H. apply (render_srt_blocks 1 l EmptyString H).
Qed.

(** The serializer on normalized captions. *)
Lemma serialize_normalized (fs : filesystem) (output_file : string)
  (captions : list subtitle) :
  Forall normalized_caption captions ->
  (forall content, write_text fs output_file content = Ok tt) ->
  serialize fs output_file captions
  = Ok {| returned := (List.length captions, srt_text (sort_us captions));
          printed := [MsgCreated output_file; MsgFound (List.length captions)];
          written := Some (srt_text (sort_us captions)) |}.
Proof.
  intros Hn Hw.
  pose proof (sort_us_normalized captions Hn) as Hsn.
  assert (List.length (sort_us captions) = List.length captions) as Hlen
      by (symmetry; apply Permutation_length, sort_us_perm).
  unfold serialize. rewrite (sort_by_start_time_normalized _ Hn). cbn [bind].
  rewrite (render_srt_text _ Hsn). cbn [bind]. rewrite Hw. cbn [bind].
  rewrite Hlen. reflexivity.
Qed.

(** C4: given the extracted captions, with integer microsecond times, and
    a file system that accepts the output, the serializer arranges them by
    ascending start time, the captions of one start time in their given
    order (a stable sort); it numbers them 1..N in that order and renders,
    for each, the index line, the line [<start> --> <end>] of the two time
    stamps of the Time Normalizer, the text line and a blank line, so that
    a blank line also follows the last block; it returns that text and
    the count N, and the empty text when N is 0. *)
Theorem serializer_output (fs : filesystem) (output_file : string)
  (captions : list subtitle) :
  Forall normalized_caption captions ->
  (forall content, write_text fs output_file content = Ok tt) ->
  exists sorted,
    sort_by_start_time captions = Ok sorted
    /\ Permutation captions sorted
    /\ StronglySorted starts_no_later sorted
    /\ (forall t, filter (starts_at t) sorted = filter (starts_at t) captions)
    /\ render_srt 1 sorted EmptyString = Ok (srt_text sorted)
    /\ srt_text sorted
       = fold_right String.append EmptyString
           (map (fun p => srt_block (fst p) (snd p))
                (combine (seq 1 (List.length captions)) sorted))
    /\ serialize fs output_file captions
       = Ok {| returned := (List.length captions, srt_text sorted);
               printed := [MsgCreated output_file; MsgFound (List.length captions)];
               written := Some (srt_text sorted) |}
    /\ (captions = [] -> srt_text sorted = EmptyString).
Proof.
  intros Hn Hw. exists (sort_us captions).
  pose proof (sort_us_normalized captions Hn) as Hsn.
  assert (List.length (sort_us captions) = List.length captions) as Hlen
      by (symmetry; apply Permutation_length, sort_us_perm).
  split; [apply sort_by_start_time_normalized, Hn|].
  split; [apply sort_us_perm|].
  split; [apply sort_us_sorted|].
  split; [intros t; apply sort_us_stable|].
  split; [apply render_srt_text, Hsn|].
  split; [unfold srt_text; rewrite Hlen; reflexivity|].
  split; [apply serialize_normalized; assumption|].
  intros ->. reflexivity.
Qed.

Lemma serializer_output_witness :
  exists sorted,
    serialize (one_file "in" scenario_document) "out"
      [{| start_time := JInt 7; end_time := JInt 9; text := "late" |};
       {| start_time := JInt 0; end_time := JInt 2000000; text := "first" |};
       {| start_time := JInt 0; end_time := JInt 1000000; text := "second" |}]
    = Ok {| returned := (3%nat, srt_text sorted);
            printed := [MsgCreated "out"; MsgFound 3];
            written := Some (srt_text sorted) |}
    /\ map text sorted = ["first"; "second"; "late"].
Proof.
  destruct (serializer_output (one_file "in" scenario_document) "out"
              [{| start_time := JInt 7; end_time := JInt 9; text := "late" |};
               {| start_time := JInt 0; end_time := JInt 2000000; text := "first" |};
               {| start_time := JInt 0; end_time := JInt 1000000; text := "second" |}])
    as (sorted & Hsort & _ & _ & _ & _ & _ & Hser & _).
  - repeat constructor; eexists; (split; [reflexivity|]); vm_compute; reflexivity.
  - intros content. reflexivity.
  - exists sorted. split; [exact Hser|].
    vm_compute in Hsort. injection Hsort as <-. reflexivity.
Defined.

(** The scenario of the specification, from the text of the document to
    the text of the subtitle file. *)
Lemma scenario_one_block :
  convert_draft_info_to_srt (decode_or_error JsonText.loads) (one_file "draft_info.json" scenario_document)
    "draft_info.json" "captions.srt"
  = {| returned := (1%nat,
                    "1" ++ PyStr.nl ++ "00:00:01,500 --> 00:00:03,250" ++ PyStr.nl
                    ++ "Hello world" ++ PyStr.nl ++ PyStr.nl);
       printed := [MsgCreated "captions.srt"; MsgFound 1];
       written := Some ("1" ++ PyStr.nl ++ "00:00:01,500 --> 00:00:03,250" ++ PyStr.nl
                        ++ "Hello world" ++ PyStr.nl ++ PyStr.nl) |}.
Proof. vm_compute. reflexivity. Qed.

(* ================================================================== *)
(** * The conversion (claims C5, C6, C7, C10) *)

Section Conversion.

Variable json_loads : string -> option json.

Lemma extract_falsy (c : json) :
  truthy c = false -> extract_subtitle_text (decode_or_error json_loads) c = Ok EmptyString.
Proof. intros H. unfold extract_subtitle_text. rewrite H. reflexivity. Qed.

(** On a fragment record the loop body yields the caption of the record
    when it is captioned, and nothing otherwise. *)
Lemma fragment_subtitle_record (fragment : json) :
  fragment_record json_loads fragment ->
  fragment_subtitle (decode_or_error json_loads) fragment
  = Ok (if captioned json_loads fragment
        then Some (caption_of json_loads fragment) else None).
Proof.
  intros (members & -> & Htimes). unfold captioned, caption_of in *.
  cbn [decoded_text field] in *.
  destruct (lookup "subtitle_cache_info" members) as [c|] eqn:Hc.
  - destruct (extract_total json_loads c) as (t & Ht). rewrite Ht in *.
    destruct (truthy c) eqn:Htruthy.
    + rewrite (fragment_with_cache json_loads members c t Hc Htruthy Ht).
      destruct (PyStr.nonempty (PyStr.strip t)); [|reflexivity].
      destruct (Htimes eq_refl) as (t0 & t1 & H0 & H1 & _).
      cbn [py_getitem]. rewrite H0, H1. reflexivity.
    + rewrite (fragment_with_falsy_cache json_loads members c Hc Htruthy).
      rewrite (extract_falsy c Htruthy) in Ht. injection Ht as <-. reflexivity.
  - rewrite (fragment_without_cache json_loads members Hc). reflexivity.
Qed.

(** The captions collected from fragment records are those of the
    captioned ones, in the order of the fragments: the outcome of a fragment
    depends on that fragment alone. *)
Lemma collect_subtitles_records (fragments : list json) (acc : list subtitle) :
  Forall (fragment_record json_loads) fragments ->
  collect_subtitles (decode_or_error json_loads) fragments acc
  = Ok (acc ++ map (caption_of json_loads)
                   (filter (captioned json_loads) fragments))%list.
Proof.
  intros H. revert acc. induction H as [|f rest Hf _ IH]; intros acc.
  - cbn. rewrite app_nil_r. reflexivity.
  - cbn [collect_subtitles filter]. rewrite (fragment_subtitle_record f Hf).
    cbn [bind]. destruct (captioned json_loads f).
    + rewrite IH, <- app_assoc. reflexivity.
    + apply IH.
Qed.

Lemma captions_normalized (fragments : list json) :
  Forall (fragment_record json_loads) fragments ->
  Forall normalized_caption
    (map (caption_of json_loads) (filter (captioned json_loads) fragments)).
Proof.
  intros H. induction H as [|f rest Hf _ IH]; [constructor|].
  cbn [filter]. destruct (captioned json_loads f) eqn:Hc; [|exact IH].
  cbn [map]. constructor; [|exact IH].
  destruct Hf as (members & -> & Htimes).
  destruct (Htimes Hc) as (t0 & t1 & H0 & H1 & B0 & B1).
  unfold normalized_caption, caption_of, microseconds. cbn [start_time end_time field].
  rewrite H0, H1. split; eexists; (split; [reflexivity|assumption]).
Qed.

(** The run on a document whose fragment list is made of fragment
    records. *)
Lemma convert_fragment_records (fs : filesystem) (input_file output_file content : string)
  (doc : json) (fragments : list json) :
  read_text fs input_file = Ok content ->
  json_loads content = Some doc ->
  find_subtitle_fragments doc = JArr fragments ->
  fragments <> [] ->
  Forall (fragment_record json_loads) fragments ->
  (forall text, write_text fs output_file text = Ok tt) ->
  convert_draft_info_to_srt_try (decode_or_error json_loads) fs input_file output_file
  = serialize fs output_file
      (map (caption_of json_loads) (filter (captioned json_loads) fragments)).
Proof.
  intros Hread Hdoc Hfind Hne Hrec Hwrite.
  unfold convert_draft_info_to_srt_try. rewrite Hread. cbn [bind py_json_loads].
  rewrite (decode_or_error_answer _ _ _ Hdoc). cbn [bind]. rewrite Hfind.
  destruct fragments as [|f rest]; [contradiction|].
  cbn [truthy negb py_iter bind].
  rewrite (collect_subtitles_records (f :: rest) [] Hrec). reflexivity.
Qed.

(** C5, amended: for every located fragment list made of fragment
    records (mappings; a record whose decoded text is non-empty after
    trimming carries its start and end time as integer microseconds), the
    output being written, the count returned is the number of the records
    whose decoded text is non-empty after trimming, and the rendered text is
    that of their captions arranged by ascending start time, the captions
    of one start time in the order of their fragments. *)
Theorem caption_count_and_order (fs : filesystem)
  (input_file output_file content : string) (doc : json) (fragments : list json) :
  read_text fs input_file = Ok content ->
  json_loads content = Some doc ->
  find_subtitle_fragments doc = JArr fragments ->
  Forall (fragment_record json_loads) fragments ->
  (forall text, write_text fs output_file text = Ok tt) ->
  exists sorted,
    returned (convert_draft_info_to_srt (decode_or_error json_loads) fs input_file output_file)
    = (List.length (filter (captioned json_loads) fragments), srt_text sorted)
    /\ Permutation
         (map (caption_of json_loads) (filter (captioned json_loads) fragments))
         sorted
    /\ StronglySorted starts_no_later sorted
    /\ (forall t,
          filter (starts_at t) sorted
          = filter (starts_at t)
              (map (caption_of json_loads)
                   (filter (captioned json_loads) fragments))).
Proof.
  intros Hread Hdoc Hfind Hrec Hwrite.
  destruct fragments as [|f rest].
  - exists []. split; [|split; [constructor|split; [constructor|reflexivity]]].
    unfold convert_draft_info_to_srt, convert_draft_info_to_srt_try.
    rewrite Hread. cbn [bind py_json_loads]. rewrite (decode_or_error_answer _ _ _ Hdoc). cbn [bind].
    rewrite Hfind. reflexivity.
  - pose proof (captions_normalized _ Hrec) as Hn.
    exists (sort_us (map (caption_of json_loads)
                         (filter (captioned json_loads) (f :: rest)))).
    split; [|split; [apply sort_us_perm|split;
                     [apply sort_us_sorted|intros t; apply sort_us_stable]]].
    unfold convert_draft_info_to_srt.
    rewrite (convert_fragment_records fs input_file output_file content doc
               (f :: rest) Hread Hdoc Hfind ltac:(discriminate) Hrec Hwrite).
    rewrite (serialize_normalized fs output_file _ Hn Hwrite).
    cbn [returned]. rewrite length_map. reflexivity.
Qed.


(** A falsy located value ends the run like an absent key. *)
Lemma convert_falsy_fragments (fs : filesystem) (input_file output_file content : string)
  (doc : json) :
  read_text fs input_file = Ok content ->
  json_loads content = Some doc ->
  truthy (first_not_none (bindings doc)) = false ->
  convert_draft_info_to_srt (decode_or_error json_loads) fs input_file output_file
  = failed MsgFieldNotFound.
Proof.
  intros Hread Hdoc Hf.
  unfold convert_draft_info_to_srt, convert_draft_info_to_srt_try.
  rewrite Hread. cbn [bind py_json_loads]. rewrite (decode_or_error_answer _ _ _ Hdoc). cbn [bind].
  rewrite find_is_first_not_none, Hf. reflexivity.
Qed.

Lemma first_not_none_falsy (l : list json) :
  Forall (fun v => truthy v = false) l -> truthy (first_not_none l) = false.
Proof.
  intros H. unfold first_not_none.
  induction H as [|v rest Hv _ IH]; [reflexivity|].
  cbn [filter]. destruct (is_none v); [exact IH|exact Hv].
Qed.

(** C10: when the key is present in the document and bound to a falsy
    value (an empty sequence, [null], 0, the empty string, ...), the
    conversion prints the field-not-found message and returns [(0, "")],
    and so does exactly what it does on any document in which the key is
    absent. *)
Theorem falsy_binding_is_not_found (fs : filesystem)
  (input_file output_file content : string) (doc : json) :
  read_text fs input_file = Ok content ->
  json_loads content = Some doc ->
  bindings doc <> [] ->
  Forall (fun v => truthy v = false) (bindings doc) ->
  convert_draft_info_to_srt (decode_or_error json_loads) fs input_file output_file
  = failed MsgFieldNotFound
  /\ forall fs' content' doc',
       read_text fs' input_file = Ok content' ->
       json_loads content' = Some doc' ->
       bindings doc' = [] ->
       convert_draft_info_to_srt (decode_or_error json_loads) fs' input_file output_file
       = convert_draft_info_to_srt (decode_or_error json_loads) fs input_file output_file.
Proof.
  intros Hread Hdoc _ Hfalsy.
  pose proof (convert_falsy_fragments fs input_file output_file content doc
                Hread Hdoc (first_not_none_falsy _ Hfalsy)) as H.
  split; [exact H|].
  intros fs' content' doc' Hread' Hdoc' Habsent. rewrite H.
  apply (convert_falsy_fragments fs' input_file output_file content' doc'
           Hread' Hdoc').
  rewrite Habsent. reflexivity.
Qed.

End Conversion.

(** C5, counterexample: the located fragment list of
    [{"subtitle_fragment_info_list": [{"start_time": "0", "end_time": 1000000,
    "subtitle_cache_info": "{\"sentence_list\":[{\"text\":\"Hello\"},
    {\"text\":\"world\"}]}"}]}] has one fragment whose decoded text,
    [Hello world], is non-empty after trimming, and the conversion returns
    the count 0: the start time is a string, the Time Normalizer raises
    [TypeError] on it, and the handler at the end of the function returns
    [(0, "")]. *)
Lemma string_time_caption_is_not_counted :
  JsonText.loads string_time_document
  = Some (JObj [(target_key, JArr [string_time_fragment])])
  /\ decoded_text JsonText.loads string_time_fragment = "Hello world"
  /\ List.length (filter (captioned JsonText.loads) [string_time_fragment]) = 1%nat
  /\ parse_time_microseconds (JStr "0") = Raise TypeError
  /\ convert_draft_info_to_srt (decode_or_error JsonText.loads) (one_file "in" string_time_document)
       "in" "out" = failed MsgError
  /\ ~ counts_captioned_fragments JsonText.loads
        (one_file "in" string_time_document) "in" "out" [string_time_fragment].
Proof.
  split; [vm_compute; reflexivity|]. split; [vm_compute; reflexivity|].
  split; [vm_compute; reflexivity|]. split; [vm_compute; reflexivity|].
  split; [vm_compute; reflexivity|].
  unfold counts_captioned_fragments. vm_compute. discriminate.
Qed.

Lemma caption_count_and_order_witness :
  exists sorted,
    returned (convert_draft_info_to_srt (decode_or_error JsonText.loads) (one_file "in" tie_document)
                "in" "out")
    = (List.length (filter (captioned JsonText.loads) tie_fragments),
       srt_text sorted)
    /\ Permutation
         (map (caption_of JsonText.loads)
              (filter (captioned JsonText.loads) tie_fragments))
         sorted
    /\ StronglySorted starts_no_later sorted
    /\ (forall t,
          filter (starts_at t) sorted
          = filter (starts_at t)
              (map (caption_of JsonText.loads)
                   (filter (captioned JsonText.loads) tie_fragments))).
Proof.
  apply (caption_count_and_order JsonText.loads (one_file "in" tie_document)
           "in" "out" tie_document (JObj [(target_key, JArr tie_fragments)])).
  - reflexivity.
  - vm_compute. reflexivity.
  - reflexivity.
  - repeat constructor; eexists; (split; [reflexivity|]); intros _;
      eexists; eexists; repeat split; vm_compute; reflexivity.
  - intros text. reflexivity.
Defined.

(** C6, the defect: of two captioned fragments the second has no
    [start_time]; the loop body raises [KeyError] on it, outside the [try]
    of [extract_subtitle_text], the handler at the end of
    [convert_draft_info_to_srt] catches it, and the run returns [(0, "")]
    with the general error message.  The first fragment alone gives one
    block. *)
Theorem missing_time_aborts_the_run :
  fragment_subtitle (decode_or_error JsonText.loads)
    (JObj [("subtitle_cache_info", JStr (JsonText.q "{'sentence_list':[{'text':'B'}]}"))])
  = Raise KeyError
  /\ convert_draft_info_to_srt (decode_or_error JsonText.loads)
       (one_file "in" timed_then_untimed_document) "in" "out"
     = failed MsgError
  /\ returned (convert_draft_info_to_srt (decode_or_error JsonText.loads)
                 (one_file "in" timed_alone_document) "in" "out")
     = (1%nat,
        "1" ++ PyStr.nl ++ "00:00:00,000 --> 00:00:01,000" ++ PyStr.nl
        ++ "A" ++ PyStr.nl ++ PyStr.nl).
Proof. repeat split; vm_compute; reflexivity. Qed.


Lemma falsy_binding_is_not_found_witness :
  convert_draft_info_to_srt (decode_or_error JsonText.loads)
    (one_file "in" (JsonText.q "{'a': {'subtitle_fragment_info_list': []}}")) "in" "out"
  = failed MsgFieldNotFound.
Proof.
  apply (falsy_binding_is_not_found JsonText.loads
           (one_file "in" (JsonText.q "{'a': {'subtitle_fragment_info_list': []}}"))
           "in" "out" (JsonText.q "{'a': {'subtitle_fragment_info_list': []}}")
           (JObj [("a", JObj [(target_key, JArr [])])])).
  - reflexivity.
  - vm_compute. reflexivity.
  - discriminate.
  - repeat constructor.
Defined.

(* ================================================================== *)
(** * Further properties of the Locator *)

Lemma bindings_of_values (members : list (string * json)) :
  lookup target_key members = None ->
  bindings (JObj members) = flat_map (fun kv => bindings (snd kv)) members.
Proof.
  intros H. cbn [bindings]. rewrite H. clear H.
  induction members as [|[k x] rest IH]; [reflexivity|].
  cbn [flat_map snd]. f_equal; exact IH.
Qed.

Lemma bindings_of_items (items : list json) :
  bindings (JArr items) = flat_map bindings items.
Proof.
  cbn [bindings]. induction items as [|x rest IH]; [reflexivity|].
  cbn [flat_map]. f_equal; exact IH.
Qed.

Lemma bindings_are_bound (obj v : json) : In v (bindings obj) -> bound_at obj v.
Proof.
  revert v.
  induction obj as [| | | | |items IH|members IH] using json_ind; intros v;
    try (intros []).
  - rewrite bindings_of_items. intros H. apply in_flat_map in H.
    destruct H as (x & Hx & Hv). rewrite Forall_forall in IH.
    apply (bound_in_item items x v Hx). apply (IH x Hx), Hv.
  - destruct (lookup target_key members) as [w|] eqn:Hl.
    + cbn [bindings]. rewrite Hl. intros [<- | []]. apply bound_here, Hl.
    + rewrite (bindings_of_values members Hl). intros H. apply in_flat_map in H.
      destruct H as ([k x] & Hx & Hv). rewrite Forall_forall in IH.
      apply (bound_in_value members k x v Hl Hx). apply (IH (k, x) Hx), Hv.
Qed.

Lemma bound_are_bindings (obj v : json) : bound_at obj v -> In v (bindings obj).
Proof.
  intros H. induction H as [members v Hl|members k x v Hl Hin _ IH|items x v Hin _ IH].
  - cbn [bindings]. rewrite Hl. left. reflexivity.
  - rewrite (bindings_of_values members Hl). apply in_flat_map.
    exists (k, x). split; assumption.
  - rewrite bindings_of_items. apply in_flat_map. exists x. split; assumption.
Qed.

Lemma first_not_none_found (l : list json) :
  first_not_none l <> JNull -> In (first_not_none l) l.
Proof.
  unfold first_not_none. induction l as [|x l IH]; cbn [filter hd].
  - intros H. contradiction.
  - destruct (is_none x) eqn:E; cbn [negb hd].
    + intros H. right. apply IH, H.
    + intros _. left. reflexivity.
Qed.

Lemma first_not_none_exists (l : list json) (v : json) :
  In v l -> v <> JNull -> first_not_none l <> JNull.
Proof.
  unfold first_not_none. induction l as [|x l IH]; [intros []|].
  intros [-> | Hin] Hv; cbn [filter].
  - destruct v; try contradiction; cbn; discriminate.
  - destruct x; cbn [is_none negb hd]; try discriminate. apply IH; assumption.
Qed.

(** X1: The locator finds the key wherever it lies: it returns a value other
    than [None] exactly when the traversal meets a binding of the key to a
    value that is not [null], at any depth below mappings and sequences;
    and what it returns is then one of these bound values, never anything
    else. *)
Theorem locator_finds_some_binding (obj : json) :
  (find_subtitle_fragments obj <> JNull
   <-> exists v, bound_at obj v /\ v <> JNull)
  /\ (find_subtitle_fragments obj <> JNull ->
      bound_at obj (find_subtitle_fragments obj)).
Proof.
  rewrite find_is_first_not_none. split; [split|].
  - intros H. exists (first_not_none (bindings obj)).
    split; [apply bindings_are_bound, first_not_none_found, H|exact H].
  - intros (v & Hb & Hv).
    apply (first_not_none_exists _ v (bound_are_bindings _ _ Hb) Hv).
  - intros H. apply bindings_are_bound, first_not_none_found, H.
Qed.

Lemma locator_finds_some_binding_witness :
  find_subtitle_fragments
    (JArr [JInt 1; JObj [("a", JObj [(target_key, JArr [JInt 7])])]])
  <> JNull.
Proof.
  apply (proj1 (locator_finds_some_binding _)).
  exists (JArr [JInt 7]). split; [|discriminate].
  apply (bound_in_item _ (JObj [("a", JObj [(target_key, JArr [JInt 7])])]));
    [right; left; reflexivity|].
  apply (bound_in_value _ "a" (JObj [(target_key, JArr [JInt 7])]));
    [reflexivity|left; reflexivity|].
  apply bound_here. reflexivity.
Defined.

(* ================================================================== *)
(** * Further properties of the Fragment Extractor *)

Section ExtractorResults.

Variable json_loads : string -> option json.

Lemma all_str_app_inv (a b : list json) (strs : list string) :
  all_str (a ++ b) = Ok strs ->
  exists sa sb, all_str a = Ok sa /\ all_str b = Ok sb /\ strs = (sa ++ sb)%list.
Proof.
  rewrite all_str_app.
  destruct (all_str a) as [sa|]; cbn [bind]; [|discriminate].
  destruct (all_str b) as [sb|]; cbn [bind]; [|discriminate].
  intros H. injection H as <-. exists sa, sb. repeat split.
Qed.

(** When the loop returns and all it collected are strings, these are the
    texts of the spans, after those collected before. *)
Lemma collect_sentences_strings (items acc l : list json) (strs : list string) :
  collect_sentences items acc = Ok l ->
  all_str l = Ok strs ->
  exists before, all_str acc = Ok before
                 /\ strs = (before ++ span_texts items)%list.
Proof.
  revert acc. induction items as [|x rest IH]; intros acc.
  - cbn [collect_sentences span_texts]. intros H Hs. injection H as <-.
    exists strs. rewrite app_nil_r. split; [exact Hs|reflexivity].
  - cbn [collect_sentences].
    destruct x; cbn [py_contains bind]; try discriminate.
    + destruct (PyStr.contains "text" s); cbn [py_getitem bind];
        [discriminate|apply IH].
    + destruct (existsb _ items); cbn [py_getitem bind];
        [discriminate|apply IH].
    + cbn [span_texts py_getitem].
      destruct (lookup "text" members) as [t|]; cbn [bind]; [|apply IH].
      intros H Hs. destruct (IH _ H Hs) as (before & Hb & ->).
      apply all_str_app_inv in Hb. destruct Hb as (sa & sb & Ha & Ht & ->).
      exists sa. split; [exact Ha|].
      destruct t; cbn [all_str] in Ht; try discriminate.
      cbn [bind] in Ht. injection Ht as <-. rewrite <- app_assoc. reflexivity.
Qed.

(** The keys of a mapping, iterated as sentences, add no text. *)
Lemma collect_sentences_keys (keys : list string) (acc l : list json) :
  collect_sentences (map JStr keys) acc = Ok l -> l = acc.
Proof.
  revert acc. induction keys as [|k rest IH]; intros acc; cbn [map collect_sentences].
  - intros H. injection H as <-. reflexivity.
  - cbn [py_contains bind]. destruct (PyStr.contains "text" k);
      cbn [py_getitem bind]; [discriminate|apply IH].
Qed.

(** X2: All or nothing: a result other than the empty string comes from a
    cache that is a string, decodes to a mapping and has a list under
    [sentence_list], and it is the join of the [text] strings of all the
    mappings of that list; a part of them is never returned. *)
Theorem extract_all_texts_or_nothing (cache : json) (t : string) :
  extract_subtitle_text (decode_or_error json_loads) cache = Ok t ->
  t <> EmptyString ->
  exists s m items,
    cache = JStr s
    /\ json_loads s = Some (JObj m)
    /\ lookup "sentence_list" m = Some (JArr items)
    /\ t = PyStr.join " " (span_texts items).
Proof.
  unfold extract_subtitle_text.
  destruct (negb (truthy cache) || _);
    [intros H Hne; injection H as <-; contradiction|].
  destruct (extract_subtitle_text_try (decode_or_error json_loads) cache) as [r|e] eqn:E.
  - intros H Hne. injection H as ->. revert E.
    unfold extract_subtitle_text_try, py_json_loads, decode_or_error.
    destruct cache as [| | | |s| |]; cbn [bind]; try discriminate.
    destruct (json_loads s) as [data|] eqn:Hd; cbn [bind]; [|discriminate].
    destruct data as [| | | |s0|l0|m]; cbn [py_contains bind]; try discriminate.
    + destruct (PyStr.contains "sentence_list" s0); cbn [py_getitem bind];
        [discriminate|].
      intros H. injection H as <-. contradiction.
    + destruct (existsb _ l0); cbn [py_getitem bind]; [discriminate|].
      intros H. injection H as <-. contradiction.
    + destruct (lookup "sentence_list" m) as [v|] eqn:Hl; cbn [py_getitem bind];
        [|intros H; injection H as <-; contradiction].
      rewrite Hl. cbn [bind].
      destruct (truthy v); [|intros H; injection H as <-; contradiction].
      destruct v as [| | | |s1|items|keys]; cbn [py_iter bind]; try discriminate.
      * rewrite collect_sentences_all_skipped.
        -- cbn. intros H. injection H as <-. contradiction.
        -- apply Forall_forall. intros x Hx. apply in_map_iff in Hx.
           destruct Hx as (ch & <- & Hch). cbn [skipped_sentence].
           apply character_without_text.
           pose proof (chars_are_characters s1) as Hc.
           rewrite Forall_forall in Hc. apply Hc, Hch.
      * destruct (collect_sentences items []) as [l|] eqn:Hc; cbn [bind];
          [|discriminate].
        unfold py_join. destruct (all_str l) as [strs|] eqn:Hs; cbn [bind];
          [|discriminate].
        intros H. injection H as <-.
        destruct (collect_sentences_strings items [] l strs Hc Hs)
          as (before & Hb & ->).
        cbn [all_str] in Hb. injection Hb as <-.
        exists s, m, items. repeat split; assumption.
      * rewrite <- (map_map fst JStr).
        destruct (collect_sentences (map JStr (map fst keys)) []) as [l|] eqn:Hc;
          cbn [bind]; [|discriminate].
        apply collect_sentences_keys in Hc. subst l. cbn.
        intros H. injection H as <-. contradiction.
  - destruct (extract_try_raises json_loads _ _ E) as [-> | ->];
      intros H Hne; injection H as <-; contradiction.
Qed.

End ExtractorResults.

Lemma extract_all_texts_or_nothing_witness :
  exists s m items,
    JStr scenario_cache = JStr s
    /\ JsonText.loads s = Some (JObj m)
    /\ lookup "sentence_list" m = Some (JArr items)
    /\ "Hello world" = PyStr.join " " (span_texts items).
Proof.
  apply (extract_all_texts_or_nothing JsonText.loads (JStr scenario_cache)).
  - vm_compute. reflexivity.
  - discriminate.
Defined.

(* ================================================================== *)
(** * Further properties of the conversion *)

Section ConversionResults.

Variable json_loads : string -> option json.

(** ** The loop over the fragments *)

Lemma fragment_subtitle_caption (fragment : json) (sub : subtitle) :
  fragment_subtitle (decode_or_error json_loads) fragment = Ok (Some sub) ->
  caption_source json_loads fragment sub.
Proof.
  unfold fragment_subtitle.
  destruct fragment as [| | | |s|items|members]; cbn [py_contains bind];
    try discriminate.
  - destruct (PyStr.contains _ s); cbn [py_getitem bind]; discriminate.
  - destruct (existsb _ items); cbn [py_getitem bind]; discriminate.
  - cbn [py_getitem].
    destruct (lookup "subtitle_cache_info" members) as [c|] eqn:Hc;
      cbn [bind]; [|discriminate].
    destruct (truthy c); [|discriminate].
    destruct (extract_subtitle_text (decode_or_error json_loads) c) as [t|] eqn:Ht;
      cbn [bind]; [|discriminate].
    destruct (PyStr.nonempty (PyStr.strip t)) eqn:Hs; [|discriminate].
    destruct (lookup "start_time" members) as [t0|] eqn:H0; cbn [bind];
      [|discriminate].
    destruct (lookup "end_time" members) as [t1|] eqn:H1; cbn [bind];
      [|discriminate].
    intros H. injection H as <-. exists members, c. cbn [text start_time end_time].
    repeat split; assumption.
Qed.

Lemma fragment_subtitle_raises (fragment : json) (e : exn) :
  fragment_subtitle (decode_or_error json_loads) fragment = Raise e ->
  e = KeyError \/ e = TypeError.
Proof.
  unfold fragment_subtitle.
  destruct fragment as [| | | |s|items|members]; cbn [py_contains bind];
    try (intros H; injection H as <-; right; reflexivity).
  - destruct (PyStr.contains _ s); cbn [py_getitem bind]; [|discriminate].
    intros H; injection H as <-; right; reflexivity.
  - destruct (existsb _ items); cbn [py_getitem bind]; [|discriminate].
    intros H; injection H as <-; right; reflexivity.
  - cbn [py_getitem].
    destruct (lookup "subtitle_cache_info" members) as [c|];
      cbn [bind]; [|discriminate].
    destruct (truthy c); [|discriminate].
    destruct (extract_total json_loads c) as (t & ->). cbn [bind].
    destruct (PyStr.nonempty (PyStr.strip t)); [|discriminate].
    destruct (lookup "start_time" members); cbn [bind];
      [|intros H; injection H as <-; left; reflexivity].
    destruct (lookup "end_time" members); cbn [bind];
      [discriminate|intros H; injection H as <-; left; reflexivity].
Qed.

Lemma collect_subtitles_sources (fragments : list json) (acc subs : list subtitle) :
  collect_subtitles (decode_or_error json_loads) fragments acc = Ok subs ->
  exists new,
    subs = (acc ++ new)%list
    /\ (List.length new <= List.length fragments)%nat
    /\ Forall (fun sub => exists fragment,
                   In fragment fragments
                   /\ caption_source json_loads fragment sub) new.
Proof.
  revert acc. induction fragments as [|f rest IH]; intros acc;
    cbn [collect_subtitles].
  - intros H. injection H as <-. exists []. rewrite app_nil_r.
    repeat split; [apply Nat.le_refl|constructor].
  - destruct (fragment_subtitle (decode_or_error json_loads) f) as [[sub|]|] eqn:Hf; cbn [bind];
      [| |discriminate]; intros H; destruct (IH _ H) as (new & -> & Hlen & Hsrc).
    + exists (sub :: new). rewrite <- app_assoc. split; [reflexivity|].
      split; [cbn [List.length]; lia|].
      constructor.
      * exists f. split; [left; reflexivity|apply fragment_subtitle_caption, Hf].
      * apply (Forall_impl _ (fun s Hs =>
                 match Hs with
                 | ex_intro _ g (conj Hin Hc) => ex_intro _ g (conj (or_intror Hin) Hc)
                 end) Hsrc).
    + exists new. split; [reflexivity|]. split; [cbn [List.length]; lia|].
      apply (Forall_impl _ (fun s Hs =>
               match Hs with
               | ex_intro _ g (conj Hin Hc) => ex_intro _ g (conj (or_intror Hin) Hc)
               end) Hsrc).
Qed.

(** X3: Every caption the loop collects is the caption of a mapping of the
    fragment list that has the cache field and both time keys: its times
    are the values found there, unchanged, and its text is the extracted
    text as it is (not trimmed), which is not blank.  There are at most as
    many captions as fragments. *)
Theorem collected_captions_have_sources (fragments : list json)
  (subs : list subtitle) :
  collect_subtitles (decode_or_error json_loads) fragments [] = Ok subs ->
  (List.length subs <= List.length fragments)%nat
  /\ Forall (fun sub => exists fragment,
                 In fragment fragments
                 /\ caption_source json_loads fragment sub) subs.
Proof.
  intros H. destruct (collect_subtitles_sources _ _ _ H) as (new & -> & Hlen & Hsrc).
  split; assumption.
Qed.

Lemma collect_subtitles_raises (fragments : list json) (acc : list subtitle) (e : exn) :
  collect_subtitles (decode_or_error json_loads) fragments acc = Raise e ->
  e = KeyError \/ e = TypeError.
Proof.
  revert acc. induction fragments as [|f rest IH]; intros acc;
    cbn [collect_subtitles]; [discriminate|].
  destruct (fragment_subtitle (decode_or_error json_loads) f) as [[sub|]|e'] eqn:Hf; cbn [bind];
    try apply IH.
  intros H. injection H as <-. apply (fragment_subtitle_raises f e' Hf).
Qed.

Lemma collect_subtitles_aborts (fragments : list json) (acc : list subtitle) :
  Exists (fun f => exists e, fragment_subtitle (decode_or_error json_loads) f = Raise e) fragments ->
  exists e, collect_subtitles (decode_or_error json_loads) fragments acc = Raise e.
Proof.
  intros H. revert acc. induction H as [f rest (e & Hf)|f rest _ IH]; intros acc;
    cbn [collect_subtitles].
  - rewrite Hf. exists e. reflexivity.
  - destruct (fragment_subtitle (decode_or_error json_loads) f) as [[sub|]|e]; cbn [bind];
      [apply IH|apply IH|exists e; reflexivity].
Qed.

(** A run in which the loop body raises on some fragment. *)
Lemma convert_loop_aborts (fs : filesystem) (input_file output_file content : string)
  (doc : json) (fragments : list json) :
  read_text fs input_file = Ok content ->
  json_loads content = Some doc ->
  find_subtitle_fragments doc = JArr fragments ->
  Exists (fun f => exists e, fragment_subtitle (decode_or_error json_loads) f = Raise e) fragments ->
  convert_draft_info_to_srt (decode_or_error json_loads) fs input_file output_file = failed MsgError.
Proof.
  intros Hread Hdoc Hfind Hex.
  unfold convert_draft_info_to_srt, convert_draft_info_to_srt_try.
  rewrite Hread. cbn [bind py_json_loads]. rewrite (decode_or_error_answer _ _ _ Hdoc). cbn [bind]. rewrite Hfind.
  destruct fragments as [|f rest]; [inversion Hex|].
  cbn [truthy negb py_iter bind].
  destruct (collect_subtitles_aborts (f :: rest) [] Hex) as (e & He).
  rewrite He. cbn [bind].
  destruct (collect_subtitles_raises _ _ _ He) as [-> | ->]; reflexivity.
Qed.

Lemma unusable_fragment_raises (fragment : json) :
  unusable_fragment fragment ->
  fragment_subtitle (decode_or_error json_loads) fragment = Raise TypeError.
Proof.
  unfold fragment_subtitle.
  destruct fragment as [| | | |s|items|members]; cbn [unusable_fragment];
    try reflexivity; try contradiction.
  - intros H. cbn [py_contains bind]. rewrite H. reflexivity.
  - intros H. cbn [py_contains bind].
    assert (existsb (fun x => match x with
                              | JStr s => String.eqb s "subtitle_cache_info"
                              | _ => false
                              end) items = true) as ->; [|reflexivity].
    apply existsb_exists. exists (JStr "subtitle_cache_info").
    split; [exact H|reflexivity].
Qed.

(** X4: One fragment that is a number, a boolean or [null] (or a string or
    sequence in which ["subtitle_cache_info"] is found) anywhere in the list
    makes the whole run fail: it returns [(0, "")] with the general error
    message and writes nothing, whatever the other fragments hold. *)
Theorem unusable_fragment_fails_the_run (fs : filesystem)
  (input_file output_file content : string) (doc : json) (fragments : list json) :
  read_text fs input_file = Ok content ->
  json_loads content = Some doc ->
  find_subtitle_fragments doc = JArr fragments ->
  Exists unusable_fragment fragments ->
  convert_draft_info_to_srt (decode_or_error json_loads) fs input_file output_file = failed MsgError.
Proof.
  intros Hread Hdoc Hfind Hex.
  apply (convert_loop_aborts fs input_file output_file content doc fragments
           Hread Hdoc Hfind).
  apply (Exists_impl _ (fun f Hf => ex_intro _ TypeError (unusable_fragment_raises f Hf)) Hex).
Qed.

Lemma untimed_caption_raises (fragment : json) :
  untimed_caption json_loads fragment ->
  fragment_subtitle (decode_or_error json_loads) fragment = Raise KeyError.
Proof.
  intros (members & -> & Hcap & Hmiss).
  unfold captioned in Hcap. cbn [decoded_text] in Hcap.
  destruct (lookup "subtitle_cache_info" members) as [c|] eqn:Hc;
    [|discriminate].
  destruct (extract_total json_loads c) as (t & Ht). rewrite Ht in Hcap.
  destruct (truthy c) eqn:Htruthy.
  - rewrite (fragment_with_cache json_loads members c t Hc Htruthy Ht), Hcap.
    cbn [py_getitem].
    destruct (lookup "start_time" members); cbn [bind]; [|reflexivity].
    destruct Hmiss as [Hm|Hm]; [discriminate|]. rewrite Hm. reflexivity.
  - rewrite (extract_falsy json_loads c Htruthy) in Ht. injection Ht as <-.
    discriminate.
Qed.

(** X5: One fragment with a caption and without [start_time] or [end_time]
    anywhere in the list makes the whole run fail in the same way: the
    captions of all the other fragments are lost with it. *)
Theorem untimed_caption_fails_the_run (fs : filesystem)
  (input_file output_file content : string) (doc : json) (fragments : list json) :
  read_text fs input_file = Ok content ->
  json_loads content = Some doc ->
  find_subtitle_fragments doc = JArr fragments ->
  Exists (untimed_caption json_loads) fragments ->
  convert_draft_info_to_srt (decode_or_error json_loads) fs input_file output_file = failed MsgError.
Proof.
  intros Hread Hdoc Hfind Hex.
  apply (convert_loop_aborts fs input_file output_file content doc fragments
           Hread Hdoc Hfind).
  apply (Exists_impl _ (fun f Hf => ex_intro _ KeyError (untimed_caption_raises f Hf)) Hex).
Qed.

End ConversionResults.

Lemma collected_captions_have_sources_witness :
  (List.length [caption_of JsonText.loads scenario_fragment] <= 2)%nat
  /\ Forall (fun sub => exists fragment,
                 In fragment [JStr "x"; scenario_fragment]
                 /\ caption_source JsonText.loads fragment sub)
       [caption_of JsonText.loads scenario_fragment].
Proof.
  apply (collected_captions_have_sources JsonText.loads [JStr "x"; scenario_fragment]).
  vm_compute. reflexivity.
Defined.

Lemma unusable_fragment_fails_the_run_witness :
  convert_draft_info_to_srt (decode_or_error JsonText.loads)
    (one_file "in" (JsonText.q "{'subtitle_fragment_info_list':[{'start_time':0,'end_time':1000000,'subtitle_cache_info':'{\'sentence_list\':[{\'text\':\'A\'}]}'}, 5]}"))
    "in" "out"
  = failed MsgError.
Proof.
  apply (unusable_fragment_fails_the_run JsonText.loads _ "in" "out"
           (JsonText.q "{'subtitle_fragment_info_list':[{'start_time':0,'end_time':1000000,'subtitle_cache_info':'{\'sentence_list\':[{\'text\':\'A\'}]}'}, 5]}")
           (JObj [(target_key,
                   JArr [JObj [("start_time", JInt 0); ("end_time", JInt 1000000);
                               ("subtitle_cache_info",
                                JStr (JsonText.q "{'sentence_list':[{'text':'A'}]}"))];
                         JInt 5])])
           [JObj [("start_time", JInt 0); ("end_time", JInt 1000000);
                  ("subtitle_cache_info",
                   JStr (JsonText.q "{'sentence_list':[{'text':'A'}]}"))];
            JInt 5]).
  - reflexivity.
  - vm_compute. reflexivity.
  - reflexivity.
  - apply Exists_cons_tl, Exists_cons_hd. exact I.
Defined.

Lemma untimed_caption_fails_the_run_witness :
  convert_draft_info_to_srt (decode_or_error JsonText.loads)
    (one_file "in" timed_then_untimed_document) "in" "out"
  = failed MsgError.
Proof.
  apply (untimed_caption_fails_the_run JsonText.loads _ "in" "out"
           timed_then_untimed_document
           (JObj [(target_key,
                   JArr [JObj [("start_time", JInt 0); ("end_time", JInt 1000000);
                               ("subtitle_cache_info",
                                JStr (JsonText.q "{'sentence_list':[{'text':'A'}]}"))];
                         JObj [("subtitle_cache_info",
                                JStr (JsonText.q "{'sentence_list':[{'text':'B'}]}"))]])])
           [JObj [("start_time", JInt 0); ("end_time", JInt 1000000);
                  ("subtitle_cache_info",
                   JStr (JsonText.q "{'sentence_list':[{'text':'A'}]}"))];
            JObj [("subtitle_cache_info",
                   JStr (JsonText.q "{'sentence_list':[{'text':'B'}]}"))]]).
  - reflexivity.
  - vm_compute. reflexivity.
  - reflexivity.
  - apply Exists_cons_tl, Exists_cons_hd.
    eexists. split; [reflexivity|]. split; [vm_compute; reflexivity|].
    left. reflexivity.
Defined.

(* ================================================================== *)
(** * Further properties of the ordering and the serializer *)

Lemma py_lt_raises (a b : json) (e : exn) : py_lt a b = Raise e -> e = TypeError.
Proof.
  unfold py_lt. destruct (as_number a), (as_number b); try discriminate;
    destruct a, b; try discriminate; intros H; injection H as <-; reflexivity.
Qed.

Lemma py_lt_numbers (a b : json) :
  as_number a <> None -> as_number b <> None -> exists c, py_lt a b = Ok c.
Proof.
  unfold py_lt. destruct (as_number a), (as_number b); try contradiction.
  intros _ _. eexists. reflexivity.
Qed.

Lemma insert_by_start_time_perm (x : subtitle) (l r : list subtitle) :
  insert_by_start_time x l = Ok r -> Permutation (x :: l) r.
Proof.
  revert r. induction l as [|y rest IH]; intros r; cbn [insert_by_start_time].
  - intros H. injection H as <-. apply Permutation_refl.
  - destruct (py_lt (start_time y) (start_time x)) as [[|]|]; cbn [bind];
      [|intros H; injection H as <-; apply Permutation_refl|discriminate].
    destruct (insert_by_start_time x rest) as [r'|]; cbn [bind]; [|discriminate].
    intros H. injection H as <-.
    apply perm_trans with (y :: x :: rest); [apply perm_swap|].
    apply perm_skip, IH. reflexivity.
Qed.

Lemma insert_by_start_time_raises (x : subtitle) (l : list subtitle) (e : exn) :
  insert_by_start_time x l = Raise e -> e = TypeError.
Proof.
  induction l as [|y rest IH]; cbn [insert_by_start_time]; [discriminate|].
  destruct (py_lt (start_time y) (start_time x)) as [[|]|e'] eqn:Hlt; cbn [bind].
  - destruct (insert_by_start_time x rest) as [r'|e'']; cbn [bind]; [discriminate|].
    intros H. injection H as <-. apply IH. reflexivity.
  - discriminate.
  - intros H. injection H as <-. apply (py_lt_raises _ _ _ Hlt).
Qed.

Lemma sort_by_start_time_perm (l r : list subtitle) :
  sort_by_start_time l = Ok r -> Permutation l r.
Proof.
  revert r. induction l as [|x rest IH]; intros r; cbn [sort_by_start_time].
  - intros H. injection H as <-. apply perm_nil.
  - destruct (sort_by_start_time rest) as [s|]; cbn [bind]; [|discriminate].
    intros H. apply insert_by_start_time_perm in H.
    apply perm_trans with (x :: s); [apply perm_skip, IH; reflexivity|exact H].
Qed.

Lemma sort_by_start_time_raises (l : list subtitle) (e : exn) :
  sort_by_start_time l = Raise e -> e = TypeError.
Proof.
  induction l as [|x rest IH]; cbn [sort_by_start_time]; [discriminate|].
  destruct (sort_by_start_time rest) as [s|e']; cbn [bind].
  - apply insert_by_start_time_raises.
  - intros H. injection H as <-. apply IH. reflexivity.
Qed.

Lemma insert_by_start_time_numbers (x : subtitle) (l : list subtitle) :
  as_number (start_time x) <> None ->
  Forall (fun s => as_number (start_time s) <> None) l ->
  exists r, insert_by_start_time x l = Ok r.
Proof.
  intros Hx Hl. induction Hl as [|y rest Hy _ IH]; cbn [insert_by_start_time].
  - eexists. reflexivity.
  - destruct (py_lt_numbers _ _ Hy Hx) as (c & ->). cbn [bind].
    destruct c; [|eexists; reflexivity].
    destruct IH as (r & ->). eexists. reflexivity.
Qed.

(** X7: The sort never loses, adds or alters a caption: when it returns, the
    result is a rearrangement of the captions given, whatever their start
    times are.  It raises nothing but [TypeError], and it returns whenever
    every start time is a number. *)
Theorem sort_rearranges_or_raises (captions : list subtitle) :
  (forall sorted, sort_by_start_time captions = Ok sorted ->
                  Permutation captions sorted)
  /\ (forall e, sort_by_start_time captions = Raise e -> e = TypeError)
  /\ (Forall (fun s => as_number (start_time s) <> None) captions ->
      exists sorted, sort_by_start_time captions = Ok sorted).
Proof.
  split; [intros sorted; apply sort_by_start_time_perm|].
  split; [intros e; apply sort_by_start_time_raises|].
  intros H. induction H as [|x rest Hx Hrest IH]; [eexists; reflexivity|].
  destruct IH as (s & Hs). cbn [sort_by_start_time]. rewrite Hs. cbn [bind].
  apply insert_by_start_time_numbers; [exact Hx|].
  apply (Permutation_Forall (sort_by_start_time_perm _ _ Hs) Hrest).
Qed.

Lemma sort_rearranges_or_raises_witness :
  exists sorted,
    sort_by_start_time
      [{| start_time := JInt 5; end_time := JNull; text := "b" |};
       {| start_time := JBool true; end_time := JNull; text := "a" |}]
    = Ok sorted.
Proof.
  apply (proj2 (proj2 (sort_rearranges_or_raises _))).
  repeat constructor; discriminate.
Defined.

(** ** The rendering loop *)

Lemma parse_time_raises (v : json) (e : exn) :
  parse_time_microseconds v = Raise e ->
  e = TypeError \/ e = ValueError \/ e = OverflowError.
Proof.
  assert (forall x e', PyFloat.to_int x = Raise e' ->
                       e' = TypeError \/ e' = ValueError \/ e' = OverflowError) as Hint.
  { intros x e'. destruct x; cbn [PyFloat.to_int]; try discriminate;
      intros H; injection H as <-; tauto. }
  unfold parse_time_microseconds.
  destruct (py_truediv v 1000000) as [ts|e'] eqn:Hdiv; cbn [bind].
  - repeat match goal with
           | |- context [PyFloat.to_int ?x] =>
               let E := fresh "E" in
               destruct (PyFloat.to_int x) as [?|?] eqn:E; cbn [bind];
               [|intros H; injection H as <-; apply (Hint _ _ E)]
           end.
    discriminate.
  - intros H. injection H as <-.
    unfold py_truediv, PyFloat.int_truediv in Hdiv.
    change (1000000 =? 0) with false in Hdiv. cbn iota in Hdiv.
    destruct v; try discriminate; try (injection Hdiv as <-; tauto);
      match type of Hdiv with
      | (if ?c then _ else _) = _ => destruct c
      end; try discriminate; injection Hdiv as <-; tauto.
Qed.

Lemma parse_time_not_a_number (v : json) :
  as_number v = None -> parse_time_microseconds v = Raise TypeError.
Proof. destruct v; cbn [as_number]; try discriminate; reflexivity. Qed.

Lemma render_srt_raises (i : Z) (l : list subtitle) (acc : string) (e : exn) :
  render_srt i l acc = Raise e ->
  e = TypeError \/ e = ValueError \/ e = OverflowError.
Proof.
  revert i acc. induction l as [|x rest IH]; intros i acc; cbn [render_srt];
    [discriminate|].
  destruct (parse_time_microseconds (start_time x)) as [a|e'] eqn:Ha; cbn [bind];
    [|intros H; injection H as <-; apply (parse_time_raises _ _ Ha)].
  destruct (parse_time_microseconds (end_time x)) as [b|e'] eqn:Hb; cbn [bind];
    [|intros H; injection H as <-; apply (parse_time_raises _ _ Hb)].
  apply IH.
Qed.

Lemma render_srt_mistimed (i : Z) (l : list subtitle) (acc : string) :
  Exists mistimed l -> exists e, render_srt i l acc = Raise e.
Proof.
  intros H. revert i acc. induction H as [x rest Hx|x rest _ IH]; intros i acc;
    cbn [render_srt].
  - destruct (parse_time_microseconds (start_time x)) as [a|e'] eqn:Ha; cbn [bind];
      [|eexists; reflexivity].
    destruct Hx as [Hx|Hx].
    + rewrite (parse_time_not_a_number _ Hx) in Ha. discriminate.
    + rewrite (parse_time_not_a_number _ Hx). eexists. reflexivity.
  - destruct (parse_time_microseconds (start_time x)); cbn [bind];
      [|eexists; reflexivity].
    destruct (parse_time_microseconds (end_time x)); cbn [bind];
      [apply IH|eexists; reflexivity].
Qed.

Lemma length_append_string (a b : string) :
  String.length (a ++ b) = (String.length a + String.length b)%nat.
Proof.
  induction a as [|c a IH]; cbn [String.append String.length]; [reflexivity|].
  rewrite IH. reflexivity.
Qed.

(** The rendering loop only appends, and it appends something for every
    caption. *)
Lemma render_srt_grows (i : Z) (l : list subtitle) (acc t : string) :
  render_srt i l acc = Ok t ->
  (String.length acc + List.length l <= String.length t)%nat.
Proof.
  revert i acc. induction l as [|x rest IH]; intros i acc; cbn [render_srt].
  - intros H. injection H as <-. cbn [List.length]. lia.
  - destruct (parse_time_microseconds (start_time x)) as [a|]; cbn [bind];
      [|discriminate].
    destruct (parse_time_microseconds (end_time x)) as [b|]; cbn [bind];
      [|discriminate].
    intros H. apply IH in H. rewrite !length_append_string in H.
    cbn [PyStr.nl String.length List.length] in *. lia.
Qed.

(** What the serializer returns, when it returns. *)
Lemma serialize_returns (fs : filesystem) (output_file : string)
  (captions : list subtitle) (o : outcome) :
  serialize fs output_file captions = Ok o ->
  exists content,
    o = created output_file (List.length captions) content
    /\ write_text fs output_file content = Ok tt
    /\ (List.length captions <= String.length content)%nat
    /\ (captions = [] -> content = EmptyString).
Proof.
  unfold serialize.
  destruct (sort_by_start_time captions) as [sorted|] eqn:Hs; cbn [bind];
    [|discriminate].
  destruct (render_srt 1 sorted EmptyString) as [content|] eqn:Hr; cbn [bind];
    [|discriminate].
  destruct (write_text fs output_file content) as [[]|] eqn:Hw; cbn [bind];
    [|discriminate].
  intros H. injection H as <-.
  pose proof (Permutation_length (sort_by_start_time_perm _ _ Hs)) as Hlen.
  exists content. rewrite <- Hlen. split; [reflexivity|]. split; [exact Hw|].
  split.
  - apply render_srt_grows in Hr. cbn [String.length] in Hr. lia.
  - intros ->. cbn in Hs. injection Hs as <-. cbn in Hr. injection Hr as <-.
    reflexivity.
Qed.

Lemma serialize_raises_mistimed (fs : filesystem) (output_file : string)
  (captions : list subtitle) :
  Exists mistimed captions ->
  exists e, serialize fs output_file captions = Raise e
            /\ (e = TypeError \/ e = ValueError \/ e = OverflowError).
Proof.
  intros H. unfold serialize.
  destruct (sort_by_start_time captions) as [sorted|e] eqn:Hs; cbn [bind].
  - assert (Exists mistimed sorted) as Hex.
    { apply Exists_exists in H. destruct H as (x & Hin & Hx).
      apply Exists_exists. exists x. split; [|exact Hx].
      apply (Permutation_in _ (sort_by_start_time_perm _ _ Hs) Hin). }
    destruct (render_srt_mistimed 1 sorted EmptyString Hex) as (e & He).
    rewrite He. cbn [bind]. exists e. split; [reflexivity|].
    apply (render_srt_raises _ _ _ _ He).
  - exists e. split; [reflexivity|]. left. apply (sort_by_start_time_raises _ _ Hs).
Qed.

(* ================================================================== *)
(** * The outcomes of a run *)

Section RunOutcomes.

Variable json_loads : string -> option json.

(** A run fails with one of the four messages, or it has written the
    output file. *)
Lemma convert_failed_or_created (fs : filesystem) (input_file output_file : string) :
  (exists msg,
      convert_draft_info_to_srt (decode_or_error json_loads) fs input_file output_file = failed msg
      /\ (msg = MsgFieldNotFound \/ msg = MsgFileNotFound input_file
          \/ msg = MsgJSONError \/ msg = MsgError))
  \/ (exists n content,
         convert_draft_info_to_srt (decode_or_error json_loads) fs input_file output_file
         = created output_file n content
         /\ write_text fs output_file content = Ok tt
         /\ (n <= String.length content)%nat
         /\ (n = O -> content = EmptyString)).
Proof.
  unfold convert_draft_info_to_srt.
  destruct (convert_draft_info_to_srt_try (decode_or_error json_loads) fs input_file output_file)
    as [o|e] eqn:E.
  - revert E. unfold convert_draft_info_to_srt_try.
    destruct (read_text fs input_file) as [content|]; cbn [bind]; [|discriminate].
    destruct (py_json_loads (decode_or_error json_loads) (JStr content)) as [data|]; cbn [bind];
      [|discriminate].
    destruct (negb (truthy (find_subtitle_fragments data))).
    + intros H. injection H as <-. left. exists MsgFieldNotFound.
      split; [reflexivity|tauto].
    + destruct (py_iter (find_subtitle_fragments data)) as [fragments|];
        cbn [bind]; [|discriminate].
      destruct (collect_subtitles (decode_or_error json_loads) fragments []) as [subs|];
        cbn [bind]; [|discriminate].
      intros H. apply serialize_returns in H.
      destruct H as (text & -> & Hw & Hlen & Hempty).
      right. exists (List.length subs), text. repeat split; try assumption.
      intros Hn. apply Hempty. destruct subs; [reflexivity|discriminate].
  - left. destruct e;
      eexists; (split; [reflexivity|tauto]).
Qed.

(** X9: Whatever the files and the document are: a count of 0 is returned
    with the empty text (a failure, or no caption); a count above 0 is
    returned only when the output file was written, and then the text
    returned is the text written, it is not empty, and the messages are the
    two of a success, with the same count.  When nothing was written, the
    result is [(0, "")] and one of the four error messages was printed. *)
Theorem conversion_outcomes (fs : filesystem) (input_file output_file : string) :
  (fst (returned (convert_draft_info_to_srt (decode_or_error json_loads) fs input_file output_file))
   = O ->
   snd (returned (convert_draft_info_to_srt (decode_or_error json_loads) fs input_file output_file))
   = EmptyString)
  /\ ((0 < fst (returned
                 (convert_draft_info_to_srt (decode_or_error json_loads) fs input_file output_file)))%nat ->
      convert_draft_info_to_srt (decode_or_error json_loads) fs input_file output_file
      = created output_file
          (fst (returned
                  (convert_draft_info_to_srt (decode_or_error json_loads) fs input_file output_file)))
          (snd (returned
                  (convert_draft_info_to_srt (decode_or_error json_loads) fs input_file output_file)))
      /\ write_text fs output_file
           (snd (returned
                   (convert_draft_info_to_srt (decode_or_error json_loads) fs input_file output_file)))
         = Ok tt
      /\ snd (returned
                (convert_draft_info_to_srt (decode_or_error json_loads) fs input_file output_file))
         <> EmptyString)
  /\ (written (convert_draft_info_to_srt (decode_or_error json_loads) fs input_file output_file)
      = None ->
      exists msg,
        convert_draft_info_to_srt (decode_or_error json_loads) fs input_file output_file
        = failed msg
        /\ (msg = MsgFieldNotFound \/ msg = MsgFileNotFound input_file
            \/ msg = MsgJSONError \/ msg = MsgError)).
Proof.
  destruct (convert_failed_or_created fs input_file output_file)
    as [(msg & -> & Hmsg) | (n & content & -> & Hw & Hlen & Hempty)].
  - split; [reflexivity|]. split; [cbn; lia|]. intros _. exists msg.
    split; [reflexivity|exact Hmsg].
  - cbn [created returned written fst snd]. split; [exact Hempty|].
    split; [|discriminate].
    intros Hn. split; [reflexivity|]. split; [exact Hw|].
    intros ->. cbn in Hlen. lia.
Qed.

(** ** Mappings with both times *)

Lemma fragment_subtitle_timed (fragment : json) :
  timed_mapping json_loads fragment ->
  fragment_subtitle (decode_or_error json_loads) fragment
  = Ok (if captioned json_loads fragment
        then Some (caption_of json_loads fragment) else None).
Proof.
  intros (members & -> & Htimes). unfold captioned, caption_of in *.
  cbn [decoded_text field] in *.
  destruct (lookup "subtitle_cache_info" members) as [c|] eqn:Hc.
  - destruct (extract_total json_loads c) as (t & Ht). rewrite Ht in *.
    destruct (truthy c) eqn:Htruthy.
    + rewrite (fragment_with_cache json_loads members c t Hc Htruthy Ht).
      destruct (PyStr.nonempty (PyStr.strip t)); [|reflexivity].
      destruct (Htimes eq_refl) as (t0 & t1 & H0 & H1).
      cbn [py_getitem]. rewrite H0, H1. reflexivity.
    + rewrite (fragment_with_falsy_cache json_loads members c Hc Htruthy).
      rewrite (extract_falsy json_loads c Htruthy) in Ht. injection Ht as <-.
      reflexivity.
  - rewrite (fragment_without_cache json_loads members Hc). reflexivity.
Qed.

Lemma collect_subtitles_timed (fragments : list json) (acc : list subtitle) :
  Forall (timed_mapping json_loads) fragments ->
  collect_subtitles (decode_or_error json_loads) fragments acc
  = Ok (acc ++ map (caption_of json_loads)
                   (filter (captioned json_loads) fragments))%list.
Proof.
  intros H. revert acc. induction H as [|f rest Hf _ IH]; intros acc.
  - cbn. rewrite app_nil_r. reflexivity.
  - cbn [collect_subtitles filter]. rewrite (fragment_subtitle_timed f Hf).
    cbn [bind]. destruct (captioned json_loads f).
    + rewrite IH, <- app_assoc. reflexivity.
    + apply IH.
Qed.

Lemma convert_timed_mappings (fs : filesystem)
  (input_file output_file content : string) (doc : json) (fragments : list json) :
  read_text fs input_file = Ok content ->
  json_loads content = Some doc ->
  find_subtitle_fragments doc = JArr fragments ->
  fragments <> [] ->
  Forall (timed_mapping json_loads) fragments ->
  convert_draft_info_to_srt_try (decode_or_error json_loads) fs input_file output_file
  = serialize fs output_file
      (map (caption_of json_loads) (filter (captioned json_loads) fragments)).
Proof.
  intros Hread Hdoc Hfind Hne Htimed.
  unfold convert_draft_info_to_srt_try. rewrite Hread. cbn [bind py_json_loads].
  rewrite (decode_or_error_answer _ _ _ Hdoc). cbn [bind]. rewrite Hfind.
  destruct fragments as [|f rest]; [contradiction|].
  cbn [truthy negb py_iter bind].
  rewrite (collect_subtitles_timed (f :: rest) [] Htimed). reflexivity.
Qed.

Lemma fragment_record_timed (fragment : json) :
  fragment_record json_loads fragment -> timed_mapping json_loads fragment.
Proof.
  intros (members & -> & H). exists members. split; [reflexivity|].
  intros Hc. destruct (H Hc) as (t0 & t1 & H0 & H1 & _).
  exists (JInt t0), (JInt t1). split; assumption.
Qed.

(** X6: One caption whose start or end time is not a number (a string, [null],
    a sequence, a mapping) makes the whole run fail: it returns [(0, "")]
    with the general error message and writes nothing, although every
    fragment was read without an error. *)
Theorem mistimed_caption_fails_the_run (fs : filesystem)
  (input_file output_file content : string) (doc : json) (fragments : list json) :
  read_text fs input_file = Ok content ->
  json_loads content = Some doc ->
  find_subtitle_fragments doc = JArr fragments ->
  Forall (timed_mapping json_loads) fragments ->
  Exists (fun f => captioned json_loads f = true
                   /\ mistimed (caption_of json_loads f)) fragments ->
  convert_draft_info_to_srt (decode_or_error json_loads) fs input_file output_file = failed MsgError.
Proof.
  intros Hread Hdoc Hfind Htimed Hex.
  assert (fragments <> []) as Hne by (intros ->; inversion Hex).
  unfold convert_draft_info_to_srt.
  rewrite (convert_timed_mappings fs input_file output_file content doc fragments
             Hread Hdoc Hfind Hne Htimed).
  assert (Exists mistimed
            (map (caption_of json_loads) (filter (captioned json_loads) fragments)))
    as Hm.
  { apply Exists_exists in Hex. destruct Hex as (f & Hin & Hc & Hf).
    apply Exists_exists. exists (caption_of json_loads f). split; [|exact Hf].
    apply in_map, filter_In. split; assumption. }
  destruct (serialize_raises_mistimed fs output_file _ Hm) as (e & -> & He).
  destruct He as [-> | [-> | ->]]; reflexivity.
Qed.

(** X10: When the output file cannot be written, the captions are lost: the run
    returns [(0, "")].  If the write fails with [FileNotFoundError] (the
    directory of the output file does not exist), the message printed says
    that the input file was not found; for [OSError], and for every other
    exception of the write, it is the general error message. *)
Theorem failed_write_loses_the_captions (fs : filesystem)
  (input_file output_file content : string) (doc : json) (fragments : list json)
  (e : exn) :
  read_text fs input_file = Ok content ->
  json_loads content = Some doc ->
  find_subtitle_fragments doc = JArr fragments ->
  fragments <> [] ->
  Forall (fragment_record json_loads) fragments ->
  write_text fs output_file
    (srt_text (sort_us (map (caption_of json_loads)
                            (filter (captioned json_loads) fragments))))
  = Raise e ->
  (e = FileNotFoundError ->
   convert_draft_info_to_srt (decode_or_error json_loads) fs input_file output_file
   = failed (MsgFileNotFound input_file))
  /\ (e = OSError ->
      convert_draft_info_to_srt (decode_or_error json_loads) fs input_file output_file
      = failed MsgError)
  /\ (e <> FileNotFoundError -> e <> JSONDecodeError ->
      convert_draft_info_to_srt (decode_or_error json_loads) fs input_file output_file
      = failed MsgError).
Proof.
  intros Hread Hdoc Hfind Hne Hrec Hw.
  pose proof (captions_normalized json_loads _ Hrec) as Hn.
  assert (convert_draft_info_to_srt_try (decode_or_error json_loads) fs input_file output_file
          = Raise e) as Htry.
  { rewrite (convert_timed_mappings fs input_file output_file content doc fragments
               Hread Hdoc Hfind Hne
               (Forall_impl _ fragment_record_timed Hrec)).
    unfold serialize. rewrite (sort_by_start_time_normalized _ Hn). cbn [bind].
    rewrite (render_srt_text _ (sort_us_normalized _ Hn)). cbn [bind].
    rewrite Hw. reflexivity. }
  unfold convert_draft_info_to_srt. rewrite Htry.
  split; [intros ->; reflexivity|]. split; [intros ->; reflexivity|].
  intros Hfile Hjson. destruct e; try reflexivity; contradiction.
Qed.


End RunOutcomes.

Lemma mistimed_caption_fails_the_run_witness :
  convert_draft_info_to_srt (decode_or_error JsonText.loads) (one_file "in" string_time_document)
    "in" "out"
  = failed MsgError.
Proof.
  apply (mistimed_caption_fails_the_run JsonText.loads _ "in" "out"
           string_time_document
           (JObj [(target_key, JArr [string_time_fragment])])
           [string_time_fragment]).
  - reflexivity.
  - vm_compute. reflexivity.
  - reflexivity.
  - repeat constructor. eexists. split; [reflexivity|]. intros _.
    eexists. eexists. split; reflexivity.
  - apply Exists_cons_hd. split; [vm_compute; reflexivity|]. left. reflexivity.
Defined.

Lemma failed_write_loses_the_captions_witness :
  convert_draft_info_to_srt (decode_or_error JsonText.loads) (no_output_directory "in" tie_document)
    "in" "out"
  = failed (MsgFileNotFound "in").
Proof.
  apply (proj1 (failed_write_loses_the_captions JsonText.loads
                  (no_output_directory "in" tie_document) "in" "out"
                  tie_document (JObj [(target_key, JArr tie_fragments)])
                  tie_fragments FileNotFoundError
                  eq_refl ltac:(vm_compute; reflexivity) eq_refl
                  ltac:(discriminate)
                  ltac:(repeat constructor; eexists; (split; [reflexivity|]);
                        intros _; eexists; eexists; repeat split;
                        vm_compute; reflexivity)
                  eq_refl)).
  reflexivity.
Defined.


(* ================================================================== *)
(** * A located value that is no sequence *)

Lemma contains_in_continuation (a : ascii) (needle tl : string) :
  PyStr.is_continuation a = false ->
  all_continuation tl = true ->
  PyStr.contains (String a needle) tl = false.
Proof.
  intros Ha. induction tl as [|d tl IH]; [reflexivity|].
  intros H. apply andb_prop in H. destruct H as [Hd Htl].
  rewrite contains_cons, prefix_cons, (IH Htl).
  destruct (ascii_dec a d) as [<-|_]; [|reflexivity].
  rewrite Hd in Ha. discriminate.
Qed.

(** No character contains a text of two bytes or more that start code
    points. *)
Lemma character_without (a b : ascii) (needle ch : string) :
  PyStr.is_continuation a = false ->
  PyStr.is_continuation b = false ->
  character ch ->
  PyStr.contains (String a (String b needle)) ch = false.
Proof.
  intros Ha Hb. destruct ch as [|c tl]; [contradiction|].
  intros H. cbn [character] in H.
  rewrite contains_cons, prefix_cons, (contains_in_continuation a _ tl Ha H).
  destruct (ascii_dec a c) as [_|_]; [|reflexivity].
  destruct tl as [|d tl]; [reflexivity|].
  apply andb_prop in H. destruct H as [Hd _].
  rewrite prefix_cons.
  destruct (ascii_dec b d) as [<-|_]; [|reflexivity].
  rewrite Hd in Hb. discriminate.
Qed.

Section LocatedValue.

Variable json_loads : string -> option json.

Lemma collect_subtitles_characters (chars : list string) (acc : list subtitle) :
  Forall character chars ->
  collect_subtitles (decode_or_error json_loads) (map JStr chars) acc = Ok acc.
Proof.
  intros H. induction H as [|ch rest Hch _ IH]; [reflexivity|].
  cbn [map collect_subtitles]. unfold fragment_subtitle at 1.
  cbn [py_contains bind].
  change "subtitle_cache_info" with (String "s" (String "u" "btitle_cache_info")).
  rewrite (character_without "s" "u" _ ch eq_refl eq_refl Hch).
  cbn [bind]. exact IH.
Qed.

(** X12: The key may be bound to something other than a list.  When the
    located value is a number other than 0 or is [true], the run fails
    with the general error message.  When it is a non-empty string, the run
    goes through its characters, finds no caption, writes an empty output
    file and announces 0 captions. *)
Theorem located_value_is_no_list (fs : filesystem)
  (input_file output_file content : string) (doc : json) :
  read_text fs input_file = Ok content ->
  json_loads content = Some doc ->
  (truthy (find_subtitle_fragments doc) = true ->
   (exists b, find_subtitle_fragments doc = JBool b)
   \/ (exists n, find_subtitle_fragments doc = JInt n)
   \/ (exists x, find_subtitle_fragments doc = JFloat x) ->
   convert_draft_info_to_srt (decode_or_error json_loads) fs input_file output_file
   = failed MsgError)
  /\ (forall s,
        find_subtitle_fragments doc = JStr s -> s <> EmptyString ->
        write_text fs output_file EmptyString = Ok tt ->
        convert_draft_info_to_srt (decode_or_error json_loads) fs input_file output_file
        = created output_file 0 EmptyString).
Proof.
  intros Hread Hdoc.
  unfold convert_draft_info_to_srt, convert_draft_info_to_srt_try.
  rewrite Hread. cbn [bind py_json_loads]. rewrite (decode_or_error_answer _ _ _ Hdoc). cbn [bind].
  split.
  - intros Ht [(b & E) | [(n & E) | (x & E)]]; rewrite E in *; rewrite Ht;
      reflexivity.
  - intros s E Hs Hw. rewrite E. destruct s as [|c s]; [contradiction|].
    cbn [truthy PyStr.nonempty negb py_iter bind].
    rewrite (collect_subtitles_characters _ [] (chars_are_characters (String c s))).
    cbn [bind]. unfold serialize. cbn [sort_by_start_time render_srt bind].
    rewrite Hw. reflexivity.
Qed.

End LocatedValue.

Lemma located_value_is_no_list_witness :
  convert_draft_info_to_srt (decode_or_error JsonText.loads)
    (one_file "in" (JsonText.q "{'subtitle_fragment_info_list': 7}")) "in" "out"
  = failed MsgError
  /\ convert_draft_info_to_srt (decode_or_error JsonText.loads)
       (one_file "in" (JsonText.q "{'subtitle_fragment_info_list': 'none yet'}"))
       "in" "out"
     = created "out" 0 EmptyString.
Proof.
  split.
  - apply (proj1 (located_value_is_no_list JsonText.loads
                    (one_file "in" (JsonText.q "{'subtitle_fragment_info_list': 7}"))
                    "in" "out"
                    (JsonText.q "{'subtitle_fragment_info_list': 7}")
                    (JObj [(target_key, JInt 7)])
                    eq_refl ltac:(vm_compute; reflexivity))).
    + reflexivity.
    + right. left. exists 7. reflexivity.
  - apply (proj2 (located_value_is_no_list JsonText.loads
                    (one_file "in"
                       (JsonText.q "{'subtitle_fragment_info_list': 'none yet'}"))
                    "in" "out"
                    (JsonText.q "{'subtitle_fragment_info_list': 'none yet'}")
                    (JObj [(target_key, JStr "none yet")])
                    eq_refl ltac:(vm_compute; reflexivity)) "none yet").
    + reflexivity.
    + discriminate.
    + reflexivity.
Defined.

(* ================================================================== *)
(** * Further properties of the Time Normalizer *)

Lemma zeros_length (n : nat) : String.length (PyStr.zeros n) = n.
Proof. induction n as [|n IH]; cbn; [reflexivity|]. rewrite IH. reflexivity. Qed.

Lemma format_0d_width (w : nat) (n : Z) :
  (w <= String.length (PyStr.format_0d w n))%nat.
Proof.
  unfold PyStr.format_0d. rewrite !length_append_string, zeros_length. lia.
Qed.

Lemma parse_time_fields (v : json) (stamp : string) :
  parse_time_microseconds v = Ok stamp ->
  exists hours minutes seconds milliseconds,
    stamp = PyStr.format_0d 2 hours ++ ":" ++ PyStr.format_0d 2 minutes ++ ":"
            ++ PyStr.format_0d 2 seconds ++ "," ++ PyStr.format_0d 3 milliseconds.
Proof.
  unfold parse_time_microseconds.
  destruct (py_truediv v 1000000) as [ts|]; cbn [bind]; [|discriminate].
  repeat match goal with
         | |- context [PyFloat.to_int ?x] =>
             destruct (PyFloat.to_int x) as [?|?]; cbn [bind]; [|discriminate]
         end.
  intros H. injection H as <-. repeat eexists.
Qed.

(** X13: On every integer of up to 64 binary digits, negative ones included,
    the Time Normalizer returns, without an exception, a time stamp of four
    fields separated by [:], [:] and [,]; the first three fields have at
    least two characters and the last at least three. *)
Theorem time_stamp_of_an_integer (t : Z) :
  Z.abs t < 2 ^ 64 ->
  exists h m s ms,
    parse_time_microseconds (JInt t) = Ok (h ++ ":" ++ m ++ ":" ++ s ++ "," ++ ms)
    /\ (2 <= String.length h)%nat /\ (2 <= String.length m)%nat
    /\ (2 <= String.length s)%nat /\ (3 <= String.length ms)%nat.
Proof.
  intros Ht. destruct (parse_time_microseconds_returns t Ht) as (stamp & Hs).
  destruct (parse_time_fields _ _ Hs) as (h & m & s & ms & ->).
  exists (PyStr.format_0d 2 h), (PyStr.format_0d 2 m),
         (PyStr.format_0d 2 s), (PyStr.format_0d 3 ms).
  split; [exact Hs|]. repeat split; apply format_0d_width.
Qed.

Lemma time_stamp_of_an_integer_witness :
  exists h m s ms,
    parse_time_microseconds (JInt (-1)) = Ok (h ++ ":" ++ m ++ ":" ++ s ++ "," ++ ms)
    /\ (2 <= String.length h)%nat /\ (2 <= String.length m)%nat
    /\ (2 <= String.length s)%nat /\ (3 <= String.length ms)%nat.
Proof. apply (time_stamp_of_an_integer (-1)). vm_compute. reflexivity. Defined.

(** X14: A time that is not a number is refused with [TypeError]; the
    exceptions of the Time Normalizer are [TypeError], [ValueError] and
    [OverflowError] and no other. *)
Theorem time_normalizer_exceptions (v : json) :
  (as_number v = None -> parse_time_microseconds v = Raise TypeError)
  /\ (forall e, parse_time_microseconds v = Raise e ->
                e = TypeError \/ e = ValueError \/ e = OverflowError).
Proof.
  split; [apply parse_time_not_a_number|intros e; apply parse_time_raises].
Qed.

Lemma time_normalizer_exceptions_witness :
  parse_time_microseconds (JStr "12") = Raise TypeError
  /\ parse_time_microseconds (JFloat S754_nan) = Raise ValueError.
Proof.
  split.
  - apply (proj1 (time_normalizer_exceptions (JStr "12"))). reflexivity.
  - destruct (proj2 (time_normalizer_exceptions (JFloat S754_nan)) ValueError)
      as [H | [H | H]]; try discriminate; vm_compute; reflexivity.
Defined.

(* ================================================================== *)
(** * The order of discovery and the order of the output *)

Lemma sorted_arrangement_unique (a b : list subtitle) :
  StronglySorted starts_no_later a ->
  StronglySorted starts_no_later b ->
  Permutation a b ->
  NoDup (map start_us a) ->
  a = b.
Proof.
  intros Ha. revert b. induction Ha as [|x a' Ha' IH Hx]; intros b Hb Hperm Hnd.
  - apply Permutation_nil in Hperm. symmetry. exact Hperm.
  - destruct Hb as [|y b' Hb' Hy].
    + apply Permutation_sym, Permutation_nil in Hperm. discriminate.
    + cbn [map] in Hnd. inversion Hnd as [|? ? Hnotin Hnd']; subst.
      assert (x = y) as ->.
      { assert (In x (y :: b')) as Hin
            by (apply (Permutation_in _ Hperm); left; reflexivity).
        destruct Hin as [E|Hin]; [symmetry; exact E|].
        assert (In y (x :: a')) as Hin'
            by (apply (Permutation_in _ (Permutation_sym Hperm)); left; reflexivity).
        destruct Hin' as [E|Hin']; [exact E|].
        rewrite Forall_forall in Hx, Hy.
        pose proof (Hx y Hin') as H1. pose proof (Hy x Hin) as H2.
        unfold starts_no_later in H1, H2.
        exfalso. apply Hnotin. replace (start_us x) with (start_us y) by lia.
        apply in_map, Hin'. }
      f_equal. apply IH; [exact Hb'|apply (Permutation_cons_inv Hperm)|exact Hnd'].
Qed.

(** X8: When the start times of the captions are all different, the order in
    which they were collected has no effect: any rearrangement of the
    captions gives the same output file, the same count and the same
    messages.  The order of discovery shows only between captions that
    start together. *)
Theorem output_ignores_discovery_order (fs : filesystem) (output_file : string)
  (captions rearranged : list subtitle) :
  Forall normalized_caption captions ->
  Permutation captions rearranged ->
  NoDup (map start_us captions) ->
  serialize fs output_file captions = serialize fs output_file rearranged.
Proof.
  intros Hn Hperm Hnd.
  pose proof (Permutation_Forall Hperm Hn) as Hn'.
  assert (sort_us captions = sort_us rearranged) as Hsame.
  { apply sorted_arrangement_unique; try apply sort_us_sorted.
    - apply perm_trans with captions; [apply Permutation_sym, sort_us_perm|].
      apply perm_trans with rearranged; [exact Hperm|apply sort_us_perm].
    - apply (Permutation_NoDup (Permutation_map start_us (sort_us_perm captions)) Hnd). }
  unfold serialize.
  rewrite (sort_by_start_time_normalized _ Hn), (sort_by_start_time_normalized _ Hn').
  rewrite Hsame. reflexivity.
Qed.

Lemma output_ignores_discovery_order_witness :
  serialize (one_file "in" scenario_document) "out"
    [{| start_time := JInt 7; end_time := JInt 9; text := "late" |};
     {| start_time := JInt 0; end_time := JInt 2; text := "early" |}]
  = serialize (one_file "in" scenario_document) "out"
      [{| start_time := JInt 0; end_time := JInt 2; text := "early" |};
       {| start_time := JInt 7; end_time := JInt 9; text := "late" |}].
Proof.
  apply output_ignores_discovery_order.
  - repeat constructor; eexists; (split; [reflexivity|]); vm_compute; reflexivity.
  - apply perm_swap.
  - repeat constructor; cbn; intuition discriminate.
Defined.

(* ================================================================== *)
(** * [main] *)

Section MainResults.

Variable json_loads : string -> option json.

(** X15: [main] raises exactly when the result directory cannot be made, and
    then with the exception of [os.makedirs]: a missing or malformed input
    file, a document without captions and a clipboard out of reach are all
    reported by messages, none of them by an exception. *)
Theorem main_raises_only_without_directory (sys : system) (e : exn) :
  main (decode_or_error json_loads) sys = Raise e <-> makedirs sys result_dir = Raise e.
Proof.
  unfold main.
  destruct (makedirs sys result_dir) as [u|e']; cbn [bind].
  - destruct (returned _) as [n text].
    destruct (0 <? n)%nat; [destruct (clipboard_copy sys _)|];
      split; discriminate.
  - cbn. split; intros H; injection H as ->; reflexivity.
Qed.

(** X16: Whatever reaches the clipboard is the instruction block followed by
    the text that was written to the output file, which holds at least one
    caption: nothing is copied after a failed conversion or for an empty
    subtitle file. *)
Theorem clipboard_holds_the_written_text (sys : system) (r : run) (prompt : string) :
  main (decode_or_error json_loads) sys = Ok r ->
  clipboard r = Some prompt ->
  exists n content,
    convert_draft_info_to_srt (decode_or_error json_loads) (files sys) main_input_file
      (main_output_file sys)
    = created (main_output_file sys) n content
    /\ (0 < n)%nat
    /\ content <> EmptyString
    /\ write_text (files sys) (main_output_file sys) content = Ok tt
    /\ prompt = base_prompt ++ content
    /\ clipboard_copy sys prompt = Ok tt.
Proof.
  unfold main.
  destruct (makedirs sys result_dir) as [u|]; cbn [bind]; [|discriminate].
  destruct (convert_failed_or_created json_loads (files sys) main_input_file
              (main_output_file sys))
    as [(msg & -> & _) | (n & content & -> & Hw & Hlen & Hempty)].
  - cbn. intros H. injection H as <-. discriminate.
  - cbn [created returned printed].
    destruct (0 <? n)%nat eqn:Hn;
      [|intros H; injection H as <-; discriminate].
    destruct (clipboard_copy sys (create_ai_prompt content)) as [[]|] eqn:Hc;
      intros H; injection H as <-; cbn [clipboard]; [|discriminate].
    intros Hp. injection Hp as <-.
    apply Nat.ltb_lt in Hn.
    exists n, content. repeat split; try assumption.
    intros ->. cbn in Hlen. lia.
Qed.

(** X17: When the clipboard refuses the text, [main] still succeeds: it prints
    the prompt, the instruction block followed by the text written to the
    output file, between two rules of dashes. *)
Theorem refused_clipboard_prints_the_prompt (sys : system) (e : exn)
  (n : nat) (content : string) :
  makedirs sys result_dir = Ok tt ->
  convert_draft_info_to_srt (decode_or_error json_loads) (files sys) main_input_file
    (main_output_file sys)
  = created (main_output_file sys) n content ->
  (0 < n)%nat ->
  clipboard_copy sys (base_prompt ++ content) = Raise e ->
  exists r before,
    main (decode_or_error json_loads) sys = Ok r
    /\ clipboard r = None
    /\ messages r
       = (before ++ [MainCopyFailed; MainPromptFollows; MainRule;
                     MainPrompt (base_prompt ++ content); MainRule])%list.
Proof.
  intros Hdir Hconv Hn Hcopy. unfold main. rewrite Hdir. cbn [bind].
  rewrite Hconv. cbn [created returned printed].
  apply Nat.ltb_lt in Hn. rewrite Hn.
  unfold create_ai_prompt. rewrite Hcopy.
  eexists. eexists. split; [reflexivity|]. split; [reflexivity|].
  cbn [messages].
  rewrite app_assoc. reflexivity.
Qed.


End MainResults.

Lemma main_raises_only_without_directory_witness :
  main (decode_or_error JsonText.loads)
    {| files := one_file main_input_file scenario_document;
       makedirs := fun _ => Raise OSError;
       timestamp_now := "20240824_120000";
       path_join := fun dir name => dir ++ "/" ++ name;
       abspath := fun p => p;
       clipboard_copy := fun _ => Ok tt |}
  = Raise OSError.
Proof.
  apply (proj2 (main_raises_only_without_directory JsonText.loads _ OSError)).
  reflexivity.
Defined.

Lemma clipboard_holds_the_written_text_witness :
  exists n content,
    convert_draft_info_to_srt (decode_or_error JsonText.loads)
      (files (working_system (one_file main_input_file scenario_document)))
      main_input_file
      (main_output_file (working_system (one_file main_input_file scenario_document)))
    = created (main_output_file
                 (working_system (one_file main_input_file scenario_document)))
        n content
    /\ (0 < n)%nat
    /\ content <> EmptyString
    /\ write_text
         (files (working_system (one_file main_input_file scenario_document)))
         (main_output_file
            (working_system (one_file main_input_file scenario_document)))
         content = Ok tt
    /\ create_ai_prompt
         ("1" ++ PyStr.nl ++ "00:00:01,500 --> 00:00:03,250" ++ PyStr.nl
          ++ "Hello world" ++ PyStr.nl ++ PyStr.nl)
       = base_prompt ++ content
    /\ clipboard_copy
         (working_system (one_file main_input_file scenario_document))
         (create_ai_prompt
            ("1" ++ PyStr.nl ++ "00:00:01,500 --> 00:00:03,250" ++ PyStr.nl
             ++ "Hello world" ++ PyStr.nl ++ PyStr.nl))
       = Ok tt.
Proof.
  eapply (clipboard_holds_the_written_text JsonText.loads
            (working_system (one_file main_input_file scenario_document))).
  - vm_compute. reflexivity.
  - reflexivity.
Defined.

Lemma refused_clipboard_prints_the_prompt_witness :
  exists r before,
    main (decode_or_error JsonText.loads)
      (system_without_clipboard (one_file main_input_file scenario_document))
    = Ok r
    /\ clipboard r = None
    /\ messages r
       = (before
          ++ [MainCopyFailed; MainPromptFollows; MainRule;
              MainPrompt
                (base_prompt
                 ++ ("1" ++ PyStr.nl ++ "00:00:01,500 --> 00:00:03,250" ++ PyStr.nl
                     ++ "Hello world" ++ PyStr.nl ++ PyStr.nl));
              MainRule])%list.
Proof.
  apply (refused_clipboard_prints_the_prompt JsonText.loads
           (system_without_clipboard (one_file main_input_file scenario_document))
           OSError 1).
  - reflexivity.
  - vm_compute. reflexivity.
  - apply Nat.lt_0_1.
  - reflexivity.
Defined.

